(** * SKU+ : expiry status of a product and the stock spreadsheet importer

    A shallow embedding of [backend/core/models.py] (the tables and
    [SKU.get_status]) and of [backend/core/services.py]
    ([EstoqueImportService]), with the properties the specification states
    about them; then of the other methods of the models, of the product
    serializers of [backend/core/serializers.py] and of the report, lot,
    stock and upload views of [backend/core/views.py], with further
    properties of the code.

    Conventions.
    - A table is the list of its rows; every row carries its primary key.
      Audit columns ([created_at], [updated_at]) and the columns no modelled
      function reads (address, category, image, cost ...) are left out.
    - [PositiveIntegerField] columns are [N]; other integers are [Z].
    - A [DateField] is a calendar date; the difference of two dates is the
      difference of their proleptic Gregorian ordinals, as in Python.
    - Python exceptions are values of [exn]; code that raises lives in the
      monad [M], whose state survives an exception, as Python's does.
    - The records carry the fields [models.py] declares, and no other:
      [SKU] has no [fator_conversao] and [LoteValidade] no
      [estoque_display], although [services.py] names both.  Naming an
      undeclared field among the arguments of [get_or_create] raises
      [FieldError], reading an undeclared attribute raises
      [AttributeError]; an expression that has no value is of type
      [M Empty_set], and the statements behind it are not reached.
    - An uploaded file enters as the frame pandas reads it into (or as the
      error of reading it); the numeric coercion of pandas,
      [datetime.strptime], [str.lower] and [str.upper] are parameters of
      the importers ([Platform]).  Text is UTF-8.
    - A view takes what it reads of the request as a record, and
      [date.today()] as the argument [hoje]; identifiers in a query are
      numbers.  A view returns the exception it lets out or its response,
      and the tables as it leaves them. *)

From Stdlib Require Import ZArith NArith List String Ascii Bool Lia DecimalString
  Sorted.
Import ListNotations.

Open Scope Z_scope.

Notation "s1 +++ s2" := (String.append s1 s2)
  (at level 60, right associativity) : string_scope.

(** ** Dates ([datetime.date]) *)

Module Datetime.

Record date : Set := mkdate { year : Z; month : Z; day : Z }.

Definition is_leap (y : Z) : bool :=
  ((y mod 4 =? 0) && negb (y mod 100 =? 0)) || (y mod 400 =? 0).

Definition days_before_year (y : Z) : Z :=
  let y1 := y - 1 in y1 * 365 + y1 / 4 - y1 / 100 + y1 / 400.

Definition DAYS_BEFORE_MONTH : list Z :=
  [0; 0; 31; 59; 90; 120; 151; 181; 212; 243; 273; 304; 334].

Definition days_before_month (y m : Z) : Z :=
  nth (Z.to_nat m) DAYS_BEFORE_MONTH 0
  + (if (2 <? m) && is_leap y then 1 else 0).

Definition toordinal (d : date) : Z :=
  days_before_year (year d) + days_before_month (year d) (month d) + day d.

(** [(a - b).days] *)
Definition days_between (a b : date) : Z := toordinal a - toordinal b.

Definition date_eqb (a b : date) : bool :=
  (year a =? year b) && (month a =? month b) && (day a =? day b).

End Datetime.
Export Datetime.

(** ** Querysets: [filter], [order_by], [first] *)

Section Queryset.
Context {A : Type}.

Fixpoint insert_by (key : A -> Z) (x : A) (l : list A) : list A :=
  match l with
  | [] => [x]
  | y :: l' => if key x <? key y then x :: l else y :: insert_by key x l'
  end.

(** [order_by(field)]: ascending; the database fixes no order among rows
    with equal keys, here they come out in the reverse of the table's. *)
Fixpoint order_by (key : A -> Z) (l : list A) : list A :=
  match l with
  | [] => []
  | x :: l' => insert_by key x (order_by key l')
  end.

(** [.first()] of an ordered queryset. *)
Definition first (l : list A) : option A := hd_error l.
End Queryset.

(** ** Tables ([models.py]) *)

Record UnidadeNegocio : Set := {
  un_id : Z;
  codigo_unb : string;
  nome : string;
  un_ativo : bool
}.

(** [UnidadeNegocio.__str__] *)
Definition UnidadeNegocio_str (u : UnidadeNegocio) : string :=
  (codigo_unb u +++ " - " +++ nome u)%string.

(** [unidade] is the one-to-one reference to a unit, null for a global row. *)
Record ConfiguracaoAlerta : Set := {
  cfg_id : Z;
  unidade : option Z;
  dias_para_critico : N;
  dias_para_pre_bloqueio : N;
  cfg_ativo : bool
}.

(** The class declares no field [fator_conversao]. *)
Record SKU : Set := {
  sku_id : Z;
  codigo_sku : string;
  nome_produto : string;
  unidade_negocio : Z;
  unidade_medida : string;
  sku_ativo : bool
}.

(** [data_validade] is declared without [null=True]: a stored lot always has
    a date.  The class declares no field [estoque_display]. *)
Record LoteValidade : Set := {
  lote_id : Z;
  lote_sku : Z;
  numero_lote : string;
  data_validade : date;
  qtd_estoque : N;
  lote_ativo : bool
}.

Record DB : Set := {
  skus : list SKU;
  lotes : list LoteValidade;
  configs : list ConfiguracaoAlerta
}.

(** ** [SKU.lote_mais_proximo] and [SKU.get_status] *)

(** [self.lotes.filter(ativo=True, qtd_estoque__gt=0)] *)
Definition lotes_em_estoque (db : DB) (self : SKU) : list LoteValidade :=
  filter (fun l => (lote_sku l =? sku_id self) && lote_ativo l
                   && (0 <? qtd_estoque l)%N)
         (lotes db).

Definition lote_mais_proximo (db : DB) (self : SKU) : option LoteValidade :=
  first (order_by (fun l => toordinal (data_validade l))
                  (lotes_em_estoque db self)).

Record StatusInfo : Set := {
  status : string;
  cor : string;
  dias_restantes : option Z;
  lote : option LoteValidade
}.

(** [getattr(self.unidade_negocio, 'configuracao_alerta', None)]: the reverse
    side of the one-to-one field; the row's [ativo] flag is not looked at. *)
Definition configuracao_alerta (db : DB) (unidade_id : Z)
  : option ConfiguracaoAlerta :=
  find (fun c => match unidade c with
                 | Some u => u =? unidade_id
                 | None => false
                 end) (configs db).

(** [ConfiguracaoAlerta.objects.filter(unidade__isnull=True, ativo=True).first()];
    [first()] of a queryset without ordering orders by primary key. *)
Definition configuracao_global (db : DB) : option ConfiguracaoAlerta :=
  first (order_by cfg_id
           (filter (fun c => match unidade c with
                             | None => cfg_ativo c
                             | Some _ => false
                             end) (configs db))).

(** The first block of [get_status] after the stock test: the configuration
    the thresholds are read from, if any. *)
Definition resolve_config (db : DB) (self : SKU)
    (config : option ConfiguracaoAlerta) : option ConfiguracaoAlerta :=
  match config with
  | Some c => Some c
  | None =>
      match configuracao_alerta db (unidade_negocio self) with
      | Some c => Some c
      | None => configuracao_global db
      end
  end.

Definition dias_critico (config : option ConfiguracaoAlerta) : Z :=
  match config with Some c => Z.of_N (dias_para_critico c) | None => 30 end.

Definition dias_pre_bloqueio (config : option ConfiguracaoAlerta) : Z :=
  match config with Some c => Z.of_N (dias_para_pre_bloqueio c) | None => 45 end.

(** [hoje] is [date.today()]. *)
Definition get_status (db : DB) (hoje : date) (self : SKU)
    (config : option ConfiguracaoAlerta) : StatusInfo :=
  match lote_mais_proximo db self with
  | None =>
      {| status := "SEM_ESTOQUE"; cor := "cinza";
         dias_restantes := None; lote := None |}
  | Some l =>
      let config := resolve_config db self config in
      let dias_critico := dias_critico config in
      let dias_pre_bloqueio := dias_pre_bloqueio config in
      let dias := days_between (data_validade l) hoje in
      if dias <? 0 then
        {| status := "VENCIDO"; cor := "preto";
           dias_restantes := Some dias; lote := Some l |}
      else if dias <=? dias_critico then
        {| status := "CRITICO"; cor := "vermelho";
           dias_restantes := Some dias; lote := Some l |}
      else if dias <=? dias_pre_bloqueio then
        {| status := "PRE_BLOQUEIO"; cor := "amarelo";
           dias_restantes := Some dias; lote := Some l |}
      else
        {| status := "OK"; cor := "verde";
           dias_restantes := Some dias; lote := Some l |}
  end.

(** ** Python strings (UTF-8) *)

Fixpoint bytes (codes : list nat) : string :=
  match codes with
  | [] => EmptyString
  | n :: codes' => String (ascii_of_nat n) (bytes codes')
  end.

(** The characters [str.isspace] accepts, each in UTF-8: U+0009 to U+000D,
    U+001C to U+0020, U+0085, U+00A0, U+1680, U+2000 to U+200A, U+2028,
    U+2029, U+202F, U+205F and U+3000. *)
Definition WHITESPACE : list string :=
  map bytes
    [ [9]; [10]; [11]; [12]; [13]; [28]; [29]; [30]; [31]; [32];
      [194; 133]; [194; 160]; [225; 154; 128];
      [226; 128; 128]; [226; 128; 129]; [226; 128; 130]; [226; 128; 131];
      [226; 128; 132]; [226; 128; 133]; [226; 128; 134]; [226; 128; 135];
      [226; 128; 136]; [226; 128; 137]; [226; 128; 138];
      [226; 128; 168]; [226; 128; 169]; [226; 128; 175]; [226; 129; 159];
      [227; 128; 128] ]%nat.

Fixpoint reverse_onto (s acc : string) : string :=
  match s with
  | EmptyString => acc
  | String c s' => reverse_onto s' (String c acc)
  end.

Definition reverse (s : string) : string := reverse_onto s EmptyString.

(** [s] without the leading [p], when it starts with [p]. *)
Fixpoint removeprefix (p s : string) : option string :=
  match p, s with
  | EmptyString, _ => Some s
  | String a p', String b s' =>
      if Ascii.eqb a b then removeprefix p' s' else None
  | String _ _, EmptyString => None
  end.

(** [s] without its first character, when that is one of [chars]. *)
Fixpoint drop_char (chars : list string) (s : string) : option string :=
  match chars with
  | [] => None
  | p :: chars' =>
      match removeprefix p s with
      | Some s' => Some s'
      | None => drop_char chars' s
      end
  end.

(** Dropping leading characters of [chars], at most [n] times. *)
Fixpoint lstrip_chars (chars : list string) (n : nat) (s : string) : string :=
  match n with
  | O => s
  | S n' =>
      match drop_char chars s with
      | Some s' => lstrip_chars chars n' s'
      | None => s
      end
  end.

Definition lstrip (s : string) : string :=
  lstrip_chars WHITESPACE (String.length s) s.

Definition rstrip (s : string) : string :=
  reverse (lstrip_chars (map reverse WHITESPACE) (String.length s)
             (reverse s)).

(** [s.strip()] *)
Definition strip (s : string) : string := rstrip (lstrip s).

Definition upper_ascii (c : ascii) : ascii :=
  let n := nat_of_ascii c in
  if ((97 <=? n) && (n <=? 122))%nat then ascii_of_nat (n - 32) else c.

Definition lower_ascii (c : ascii) : ascii :=
  let n := nat_of_ascii c in
  if ((65 <=? n) && (n <=? 90))%nat then ascii_of_nat (n + 32) else c.

Fixpoint map_string (f : ascii -> ascii) (s : string) : string :=
  match s with
  | EmptyString => EmptyString
  | String c s' => String (f c) (map_string f s')
  end.

(** [str(n)] for an integer. *)
Definition str_Z (z : Z) : string := NilZero.string_of_int (Z.to_int z).

Fixpoint zeros (n : nat) : string :=
  match n with O => EmptyString | S k => String "0" (zeros k) end.

Definition zfill (width : nat) (s : string) : string :=
  (zeros (width - String.length s) +++ s)%string.

(** ** Data frames *)

(** What a cell of a frame may hold: a missing value, an integer, text, or a
    timestamp (of which only the date is kept).  Fractional numbers are not
    modelled. *)
Inductive cell : Set :=
| NaN
| CInt (z : Z)
| CStr (s : string)
| CDate (d : date).

(** A row label of the frame's index: the position of the row when the file
    is read without an index column, the text of the leading field when the
    data lines carry more fields than the header. *)
Inductive label : Set :=
| LInt (i : Z)
| LStr (s : string).

Record DataFrame : Set := {
  columns : list string;
  index : list label;
  values : list (list cell)
}.

Definition Row : Set := list (string * cell).

(** [df.iterrows()] *)
Definition iterrows (df : DataFrame) : list (label * Row) :=
  combine (index df) (map (combine (columns df)) (values df)).

Definition has_column (df : DataFrame) (col : string) : bool :=
  existsb (String.eqb col) (columns df).

Fixpoint set_cell (cols : list string) (col : string) (f : cell -> cell)
    (cells : list cell) : list cell :=
  match cols, cells with
  | c :: cols', x :: cells' =>
      if String.eqb c col then f x :: cells'
      else x :: set_cell cols' col f cells'
  | _, _ => cells
  end.

(** [df[col] = f(df[col])], for a column that is present. *)
Definition map_column (df : DataFrame) (col : string) (f : cell -> cell)
  : DataFrame :=
  {| columns := columns df; index := index df;
     values := map (set_cell (columns df) col f) (values df) |}.

(** [str(value)] for the value of a cell. *)
Definition py_str (c : cell) : string :=
  match c with
  | NaN => "nan"
  | CInt z => str_Z z
  | CStr s => s
  | CDate d =>
      (zfill 4 (str_Z (year d)) +++ "-" +++ zfill 2 (str_Z (month d)) +++ "-"
       +++ zfill 2 (str_Z (day d)) +++ " 00:00:00")%string
  end.

(** [series.fillna(v)] on one cell. *)
Definition fillna (v : cell) (c : cell) : cell :=
  match c with NaN => v | _ => c end.

(** The parts of the platform the importer calls and this development takes
    as given: [pd.to_numeric(_, errors='coerce')] on one cell followed by the
    conversion to [int] ([None] for a value that does not convert),
    [datetime.strptime(s, fmt).date()] ([None] for [ValueError]),
    [timezone.now().isoformat()], and the case mappings [s.lower()] and
    [s.upper()] of Unicode text. *)
Class Platform : Type := {
  to_numeric : cell -> option Z;
  strptime : string -> string -> option date;
  now_isoformat : string;
  lower : string -> string;
  upper : string -> string
}.

(** ** Exceptions, the service object and the monad *)

Inductive exn : Set :=
| DoesNotExist (msg : string)
| MultipleObjectsReturned (msg : string)
| FieldError (msg : string)
| ValueError (msg : string)
| TypeError (msg : string)
| AttributeError (msg : string)
| KeyError (msg : string).

(** [str(e)] *)
Definition exn_str (e : exn) : string :=
  match e with
  | DoesNotExist m | MultipleObjectsReturned m | FieldError m
  | ValueError m | TypeError m | AttributeError m | KeyError m => m
  end.

Definition is_DoesNotExist (e : exn) : bool :=
  match e with DoesNotExist _ => true | _ => false end.

(** The attributes of an [EstoqueImportService] instance. *)
Record EstoqueImportService : Set := {
  svc_unidade_negocio : UnidadeNegocio;
  errors : list string;
  warnings : list string;
  processed_count : Z;
  created_count : Z;
  updated_count : Z
}.

(** [EstoqueImportService.__init__], once the unit has been fetched. *)
Definition EstoqueImportService_init (u : UnidadeNegocio)
  : EstoqueImportService :=
  {| svc_unidade_negocio := u; errors := []; warnings := [];
     processed_count := 0; created_count := 0; updated_count := 0 |}.

Record World : Set := { db : DB; svc : EstoqueImportService }.

Definition M (A : Type) : Type := World -> (exn + A) * World.

Definition ret {A} (a : A) : M A := fun w => (inr a, w).

Definition bind {A B} (m : M A) (k : A -> M B) : M B :=
  fun w => match m w with
           | (inl e, w') => (inl e, w')
           | (inr a, w') => k a w'
           end.

Definition raise {A} (e : exn) : M A := fun w => (inl e, w).

(** [try: m  except <class> as e: h e], for the classes [handles] accepts. *)
Definition try_except {A} (handles : exn -> bool) (m : M A) (h : exn -> M A)
  : M A :=
  fun w => match m w with
           | (inl e, w') => if handles e then h e w' else (inl e, w')
           | (inr a, w') => (inr a, w')
           end.

(** [except Exception] *)
Definition Exception (e : exn) : bool := true.

Declare Scope monad_scope.
Delimit Scope monad_scope with monad.
Notation "x <- m ;; k" := (bind m (fun x => k))
  (at level 61, m at next level, right associativity) : monad_scope.
Notation "' pat <- m ;; k" := (bind m (fun x => match x with pat => k end))
  (at level 61, pat pattern, m at next level, right associativity) : monad_scope.
Notation "m ;; k" := (bind m (fun _ => k))
  (at level 61, right associativity) : monad_scope.
Open Scope monad_scope.

Fixpoint for_each {A} (l : list A) (body : A -> M unit) : M unit :=
  match l with
  | [] => ret tt
  | x :: l' => body x ;; for_each l' body
  end.

(** [@transaction.atomic]: the writes are kept when the wrapped call
    returns and undone when an exception leaves it. *)
Definition atomic {A} (m : M A) : M A :=
  fun w => match m w with
           | (inl e, w') => (inl e, {| db := db w; svc := svc w' |})
           | (inr a, w') => (inr a, w')
           end.

Definition get_db : M DB := fun w => (inr (db w), w).
Definition put_db (d : DB) : M unit :=
  fun w => (inr tt, {| db := d; svc := svc w |}).
Definition get_self : M EstoqueImportService := fun w => (inr (svc w), w).
Definition put_self (s : EstoqueImportService) : M unit :=
  fun w => (inr tt, {| db := db w; svc := s |}).

Definition append_error (msg : string) : M unit :=
  s <- get_self ;;
  put_self {| svc_unidade_negocio := svc_unidade_negocio s;
              errors := errors s ++ [msg]; warnings := warnings s;
              processed_count := processed_count s;
              created_count := created_count s;
              updated_count := updated_count s |}.

Definition append_warning (msg : string) : M unit :=
  s <- get_self ;;
  put_self {| svc_unidade_negocio := svc_unidade_negocio s;
              errors := errors s; warnings := warnings s ++ [msg];
              processed_count := processed_count s;
              created_count := created_count s;
              updated_count := updated_count s |}.

Definition incr_processed : M unit :=
  s <- get_self ;;
  put_self {| svc_unidade_negocio := svc_unidade_negocio s;
              errors := errors s; warnings := warnings s;
              processed_count := processed_count s + 1;
              created_count := created_count s;
              updated_count := updated_count s |}.

Definition incr_created : M unit :=
  s <- get_self ;;
  put_self {| svc_unidade_negocio := svc_unidade_negocio s;
              errors := errors s; warnings := warnings s;
              processed_count := processed_count s;
              created_count := created_count s + 1;
              updated_count := updated_count s |}.

Definition incr_updated : M unit :=
  s <- get_self ;;
  put_self {| svc_unidade_negocio := svc_unidade_negocio s;
              errors := errors s; warnings := warnings s;
              processed_count := processed_count s;
              created_count := created_count s;
              updated_count := updated_count s + 1 |}.

(** [_reset_counters] *)
Definition _reset_counters : M unit :=
  s <- get_self ;;
  put_self (EstoqueImportService_init (svc_unidade_negocio s)).

(** ** The object manager: [get], [get_or_create], [save] *)

(** [Model.objects.get(...)] over the rows the lookup selects. *)
Definition objects_get {A} (model : string) (table : DB -> list A)
    (lookup : A -> bool) : M A :=
  d <- get_db ;;
  match filter lookup (table d) with
  | [] => raise (DoesNotExist (model +++ " matching query does not exist."))
  | [x] => ret x
  | found =>
      let num := Z.of_nat (List.length found) in
      raise (MultipleObjectsReturned
               ("get() returned more than one " +++ model
                +++ " -- it returned "
                +++ (if num <? 21 then str_Z num else "more than 20")
                +++ "!"))
  end.

(** What [_extract_model_params] raises for arguments that name no field of
    the model; [invalid] is sorted. *)
Definition invalid_field_names (model : string) (invalid : list string)
  : exn :=
  FieldError ("Invalid field name(s) for model " +++ model +++ ": '"
              +++ String.concat "', '" invalid +++ "'.").

(** [Model.objects.get_or_create(..., defaults={...})] for a call whose
    defaults name [invalid], one or more names that are not fields of the
    model: [get] with the lookup arguments; when no row matches, the
    parameters of the row to insert are collected, which raises
    [FieldError] before anything is inserted.  Another exception of [get]
    ([MultipleObjectsReturned]) passes through. *)
Definition get_or_create {A} (model : string) (get : M A)
    (invalid : list string) : M (A * bool) :=
  try_except is_DoesNotExist
    (x <- get ;; ret (x, false))
    (fun _ => raise (invalid_field_names model invalid)).

(** [getattr(obj, attr)] for an attribute the class of [obj] does not
    declare and the instance was not given. *)
Definition getattr_undeclared (cls attr : string) : M Empty_set :=
  raise (AttributeError ("'" +++ cls +++ "' object has no attribute '"
                         +++ attr +++ "'")).

Definition set_skus (d : DB) (l : list SKU) : DB :=
  {| skus := l; lotes := lotes d; configs := configs d |}.

(** [sku.save()] of a fetched row whose key columns were not assigned: the
    row of that primary key is overwritten.  The lengths [max_length] gives
    the text columns are not checked, as [save] itself does not check
    them. *)
Definition SKU_save (s : SKU) : M unit :=
  d <- get_db ;;
  put_db (set_skus d (map (fun x => if sku_id x =? sku_id s then s else x)
                          (skus d))).

(** ** [EstoqueImportService] ([services.py]) *)

Record Falha : Set := {
  falha_success : bool;
  error : string;
  falha_processed : Z
}.

Record Resultado : Set := {
  success : bool;
  tipo : string;
  res_unidade : string;
  processed : Z;
  created : Z;
  updated : Z;
  res_errors : list string;
  res_warnings : list string;
  timestamp : string
}.

(** The dictionary an import call returns: the one of the outer [except],
    or the one [_build_result] makes. *)
Inductive ImportResult : Set :=
| Failure (f : Falha)
| Result (r : Resultado).

(** An uploaded file as pandas reads it: an error, or a frame. *)
Inductive UploadedFile : Set :=
| Unreadable (reason : string)
| Readable (df : DataFrame).

Definition COLUNAS_GRADE_020502 : list (string * string) :=
  [("Produto", "codigo_sku"); ("Descricao", "nome_produto");
   ("Unidade", "unidade_medida"); ("Fator", "fator_conversao");
   ("Inventario", "estoque_display"); ("Qtd Contagem", "qtd_estoque")]%string.

Definition COLUNAS_CONTAGENS : list (string * string) :=
  [("Código Item", "codigo_sku"); ("Validade Aferida", "data_validade");
   ("Quantidade Cx", "qtd_caixas"); ("Quantidade Unidade", "qtd_unidades")]%string.

Definition date_formats : list string :=
  ["%d/%m/%Y"; "%Y-%m-%d"; "%d-%m-%Y"; "%d/%m/%y"; "%Y/%m/%d"; "%m/%d/%Y"]%string.

Definition _read_file (file : UploadedFile) : M DataFrame :=
  match file with
  | Unreadable reason => raise (ValueError ("Erro ao ler arquivo: " +++ reason))
  | Readable df => ret df
  end.

(** A dictionary as the list of its items, latest assignment first. *)
Definition dict_get (d : list (string * string)) (k : string) : option string :=
  option_map snd (find (fun p => String.eqb (fst p) k) d).

Definition _normalize_columns {P : Platform} (df : DataFrame)
    (column_mapping : list (string * string)) : DataFrame :=
  let cols := map strip (columns df) in
  let rename_map :=
    fold_left
      (fun rm (st : string * string) =>
         match filter (fun col => String.eqb (lower col) (lower (fst st))) cols with
         | m :: _ => (m, snd st) :: rm
         | [] => rm
         end)
      column_mapping [] in
  {| columns := map (fun c => match dict_get rename_map c with
                              | Some target => target
                              | None => c
                              end) cols;
     index := index df;
     values := values df |}.

(** [str(list_of_names)] *)
Definition str_list (l : list string) : string :=
  ("[" +++ String.concat ", " (map (fun s => "'" +++ s +++ "'") l) +++ "]")%string.

(** The test on the required columns, raising [ValueError]. *)
Definition check_required (df : DataFrame) (required_cols : list string)
  : M unit :=
  match filter (fun col => negb (has_column df col)) required_cols with
  | [] => ret tt
  | missing_cols =>
      raise (ValueError ("Colunas obrigatórias não encontradas: "
                         +++ str_list missing_cols))
  end.

(** [row[col]] *)
Definition row_get (row : Row) (col : string) : M cell :=
  match find (fun p => String.eqb (fst p) col) row with
  | Some p => ret (snd p)
  | None => raise (KeyError ("'" +++ col +++ "'"))
  end.

(** [int(value)], reached here only on cells of a column made of integers. *)
Definition py_int (c : cell) : M Z :=
  match c with
  | CInt z => ret z
  | NaN => raise (ValueError "cannot convert float NaN to integer")
  | CStr _ => raise (ValueError "invalid literal for int() with base 10")
  | CDate _ => raise (TypeError "int() argument must be a string, a bytes-like object or a real number")
  end.

(** The double quote character. *)
Definition dquote : string := String (ascii_of_nat 34) EmptyString.

(** The text [Linha {idx + 2}] of a message; adding 2 to a label that is
    text raises [TypeError]. *)
Definition linha (idx : label) : M string :=
  match idx with
  | LInt i => ret ("Linha " +++ str_Z (i + 2))%string
  | LStr _ =>
      raise (TypeError ("can only concatenate str (not " +++ dquote +++ "int"
                        +++ dquote +++ ") to str"))
  end.

Definition is_blank (codigo : string) : bool :=
  String.eqb codigo "" || String.eqb codigo "nan".

Section Service.
Context {P : Platform}.

(** [pd.to_numeric(col, errors='coerce').fillna(v).astype(int)] on a cell *)
Definition coerce_int (v : Z) (c : cell) : cell :=
  match to_numeric c with
  | Some z => CInt z
  | None => CInt v
  end.

(** [df[col] = f(df.get(col, default))], with [f] ending in [.fillna(_)]:
    when the column is missing, [df.get] gives the scalar [default], which
    has no [fillna]. *)
Definition fill_column (df : DataFrame) (col : string) (scalar : string)
    (f : cell -> cell) : M DataFrame :=
  if has_column df col then ret (map_column df col f)
  else raise (AttributeError
                ("'" +++ scalar +++ "' object has no attribute 'fillna'")).

Fixpoint try_formats (value_str : string) (fmts : list string)
  : option date :=
  match fmts with
  | [] => None
  | fmt :: fmts' =>
      match strptime value_str fmt with
      | Some d => Some d
      | None => try_formats value_str fmts'
      end
  end.

Definition _parse_date (value : cell) : option date :=
  match value with
  | NaN => None
  | CStr EmptyString => None
  | CDate d => Some d
  | _ => try_formats (strip (py_str value)) date_formats
  end.

Definition _build_result (tipo_ : string) : M Resultado :=
  s <- get_self ;;
  ret {| success := (Nat.eqb (List.length (errors s)) 0)
                    || (0 <? processed_count s);
         tipo := tipo_;
         res_unidade := UnidadeNegocio_str (svc_unidade_negocio s);
         processed := processed_count s;
         created := created_count s;
         updated := updated_count s;
         res_errors := errors s;
         res_warnings := warnings s;
         timestamp := now_isoformat |}.

(** [LoteValidade.objects.get_or_create(sku=sku, numero_lote='BASE',
    data_validade=None, defaults={'qtd_estoque': ..., 'estoque_display':
    ...})].  The lookup asks for a null date, which no row has, the column
    being NOT NULL: [get] raises [DoesNotExist].  The parameters of the row
    to insert then name [estoque_display], which is no field of the model:
    [FieldError].  The call has no value. *)
Definition BASE_get_or_create (sku : SKU) (qtd : Z) (display : string)
  : M Empty_set :=
  raise (invalid_field_names "LoteValidade" ["estoque_display"%string]).

(** The body of the loop of [processar_grade_020502], with its guard.  The
    assignment [sku.fator_conversao = ...] sets an attribute of the instance
    that [save] does not write.  The statements behind the lookup of the
    BASE lot (its update, [processed_count += 1]) are not reached. *)
Definition grade_row (idx : label) (row : Row) : M unit :=
  try_except Exception
    (c <- row_get row "codigo_sku" ;;
     let codigo := strip (py_str c) in
     if is_blank codigo then ret tt (* continue *)
     else
       self <- get_self ;;
       let un := un_id (svc_unidade_negocio self) in
       nome_c <- row_get row "nome_produto" ;;
       um_c <- row_get row "unidade_medida" ;;
       fator_c <- row_get row "fator_conversao" ;;
       fator <- py_int fator_c ;;
       let nome_ := strip (py_str nome_c) in
       let um := upper (strip (py_str um_c)) in
       '(sku, sku_created) <-
          get_or_create "SKU"
            (objects_get "SKU" skus
               (fun s => String.eqb (codigo_sku s) codigo
                         && (unidade_negocio s =? un)))
            ["fator_conversao"%string] ;;
       (if negb sku_created then
          SKU_save {| sku_id := sku_id sku; codigo_sku := codigo_sku sku;
                      nome_produto := nome_;
                      unidade_negocio := unidade_negocio sku;
                      unidade_medida := um;
                      sku_ativo := sku_ativo sku |} ;;
          incr_updated
        else incr_created) ;;
       qtd_c <- row_get row "qtd_estoque" ;;
       qtd <- py_int qtd_c ;;
       display_c <- row_get row "estoque_display" ;;
       let display := strip (py_str display_c) in
       lote <- BASE_get_or_create sku qtd display ;;
       match lote return M unit with end)
    (fun e => l <- linha idx ;;
              append_error (l +++ ": " +++ exn_str e)%string).

(** The statements of [processar_grade_020502] before its loop: reading,
    renaming, the required columns, the defaults. *)
Definition grade_frame (file : UploadedFile) : M DataFrame :=
  df <- _read_file file ;;
  let df := _normalize_columns df COLUNAS_GRADE_020502 in
  check_required df ["codigo_sku"; "qtd_estoque"]%string ;;
  let df := map_column df "qtd_estoque" (coerce_int 0) in
  df <- fill_column df "fator_conversao" "int" (coerce_int 1) ;;
  df <- fill_column df "nome_produto" "str"
          (fillna (CStr "Sem descrição")) ;;
  df <- fill_column df "unidade_medida" "str" (fillna (CStr "UN")) ;;
  fill_column df "estoque_display" "str" (fillna (CStr "")).

Definition processar_grade_020502_body (file : UploadedFile)
  : M ImportResult :=
  _reset_counters ;;
  try_except Exception
    (df <- grade_frame file ;;
     for_each (iterrows df) (fun ir => grade_row (fst ir) (snd ir)) ;;
     r <- _build_result "Grade 020502" ;;
     ret (Result r))
    (fun e => ret (Failure {| falha_success := false;
                              error := exn_str e;
                              falha_processed := 0 |})).

Definition processar_grade_020502 (file : UploadedFile) : M ImportResult :=
  atomic (processar_grade_020502_body file).

(** The body of the loop of [processar_contagens], with its guard.  The
    total [(qtd_caixas * sku.fator_conversao) + qtd_unidades] reads an
    attribute a fetched [SKU] does not have; the statements behind it (the
    lot number, the lookup or insertion of the lot, the counters) are not
    reached. *)
Definition contagens_row (idx : label) (row : Row) : M unit :=
  try_except Exception
    (c <- row_get row "codigo_sku" ;;
     let codigo := strip (py_str c) in
     if is_blank codigo then ret tt (* continue *)
     else
       self <- get_self ;;
       let un := un_id (svc_unidade_negocio self) in
       found <-
         try_except is_DoesNotExist
           (s <- objects_get "SKU" skus
                   (fun s => String.eqb (codigo_sku s) codigo
                             && (unidade_negocio s =? un)
                             && sku_ativo s) ;;
            ret (Some s))
           (fun _ =>
              l <- linha idx ;;
              append_warning
                (l +++ ": SKU '" +++ codigo +++ "' não encontrado")%string ;;
              ret None) ;;
       match found with
       | None => ret tt (* continue *)
       | Some sku =>
           validade_c <- row_get row "data_validade" ;;
           match _parse_date validade_c with
           | None =>
               l <- linha idx ;;
               append_warning
                 (l +++ ": Data de validade inválida para SKU '"
                    +++ codigo +++ "'")%string
               (* continue *)
           | Some validade =>
               caixas_c <- row_get row "qtd_caixas" ;;
               qtd_caixas <- py_int caixas_c ;;
               unidades_c <- row_get row "qtd_unidades" ;;
               qtd_unidades <- py_int unidades_c ;;
               fator <- getattr_undeclared "SKU" "fator_conversao" ;;
               match fator return M unit with end
           end
       end)
    (fun e => l <- linha idx ;;
              append_error (l +++ ": " +++ exn_str e)%string).

(** The statements of [processar_contagens] before its loop. *)
Definition contagens_frame (file : UploadedFile) : M DataFrame :=
  df <- _read_file file ;;
  let df := _normalize_columns df COLUNAS_CONTAGENS in
  check_required df ["codigo_sku"; "data_validade"]%string ;;
  df <- fill_column df "qtd_caixas" "int" (coerce_int 0) ;;
  fill_column df "qtd_unidades" "int" (coerce_int 0).

Definition processar_contagens_body (file : UploadedFile)
  : M ImportResult :=
  _reset_counters ;;
  try_except Exception
    (df <- contagens_frame file ;;
     for_each (iterrows df) (fun ir => contagens_row (fst ir) (snd ir)) ;;
     r <- _build_result "Contagens" ;;
     ret (Result r))
    (fun e => ret (Failure {| falha_success := false;
                              error := exn_str e;
                              falha_processed := 0 |})).

Definition processar_contagens (file : UploadedFile) : M ImportResult :=
  atomic (processar_contagens_body file).

End Service.


(** * Vocabulary of the specification *)

(** The head of a list is below every other element. *)
Definition head_least {A : Type} (key : A -> Z) (l : list A) : Prop :=
  match l with
  | [] => True
  | x :: r => forall y, In y r -> key x <= key y
  end.

(** A lot counts for the status of [self]: it is a stored lot of the
    product, active, with stock. *)
Definition in_stock (db : DB) (self : SKU) (l : LoteValidade) : Prop :=
  In l (lotes db) /\ lote_sku l = sku_id self /\ lote_ativo l = true
  /\ (0 < qtd_estoque l)%N.

(** The classification in the words of the specification: the first
    matching rule wins. *)
Definition classify (hoje : date) (l : LoteValidade)
    (critical_days pre_block_days : Z) : StatusInfo :=
  let days_remaining := days_between (data_validade l) hoje in
  let bucket : string * string :=
    if days_remaining <? 0 then ("VENCIDO", "preto")%string
    else if days_remaining <=? critical_days then ("CRITICO", "vermelho")%string
    else if days_remaining <=? pre_block_days then ("PRE_BLOQUEIO", "amarelo")%string
    else ("OK", "verde")%string in
  {| status := fst bucket; cor := snd bucket;
     dias_restantes := Some days_remaining; lote := Some l |}.

(** [c] is the configuration of the unit [u]. *)
Definition unit_config (db : DB) (u : Z) (c : ConfiguracaoAlerta) : Prop :=
  In c (configs db) /\ unidade c = Some u.

(** [c] is a global configuration: its unit reference is null. *)
Definition global_config (db : DB) (c : ConfiguracaoAlerta) : Prop :=
  In c (configs db) /\ unidade c = None.

(** The precedence in the words of the specification: the caller's
    configuration, else the unit's, else the global one (unit reference
    null), else the defaults. *)
Definition resolve_config_spec (db : DB) (self : SKU)
    (config : option ConfiguracaoAlerta) : option ConfiguracaoAlerta :=
  match config with
  | Some c => Some c
  | None =>
      match configuracao_alerta db (unidade_negocio self) with
      | Some c => Some c
      | None =>
          first (order_by cfg_id
                   (filter (fun c => match unidade c with
                                     | None => true
                                     | Some _ => false
                                     end) (configs db)))
      end
  end.

(** Switching off the configuration rows of the unit [u]. *)
Definition deactivate_unit_config (db : DB) (u : Z) : DB :=
  {| skus := skus db; lotes := lotes db;
     configs := map (fun c =>
                       match unidade c with
                       | Some u' =>
                           if u' =? u then
                             {| cfg_id := cfg_id c; unidade := unidade c;
                                dias_para_critico := dias_para_critico c;
                                dias_para_pre_bloqueio := dias_para_pre_bloqueio c;
                                cfg_ativo := false |}
                           else c
                       | None => c
                       end) (configs db) |}.

(** * Sample data *)

Definition sample_hoje : date := mkdate 2025 1 1.

Definition sample_unidade : UnidadeNegocio :=
  {| un_id := 1; codigo_unb := "UNB01"; nome := "Matriz"; un_ativo := true |}.

Definition sample_sku : SKU :=
  {| sku_id := 1; codigo_sku := "SKU001"; nome_produto := "Leite UHT";
     unidade_negocio := 1; unidade_medida := "CX"; sku_ativo := true |}.

Definition sample_lote (id : Z) (numero : string) (validade : date) (qtd : N)
    (ativo : bool) : LoteValidade :=
  {| lote_id := id; lote_sku := 1; numero_lote := numero;
     data_validade := validade; qtd_estoque := qtd; lote_ativo := ativo |}.

Definition sample_config (id : Z) (u : option Z) (critico pre : N)
    (ativo : bool) : ConfiguracaoAlerta :=
  {| cfg_id := id; unidade := u; dias_para_critico := critico;
     dias_para_pre_bloqueio := pre; cfg_ativo := ativo |}.

(** Three lots of the sample product: one without stock, one expiring in 10
    days, one in 40 days. *)
Definition sample_lotes : list LoteValidade :=
  [ sample_lote 1 "L0" (mkdate 2024 12 1) 0 true;
    sample_lote 2 "L2" (mkdate 2025 2 10) 7 true;
    sample_lote 3 "L1" (mkdate 2025 1 11) 5 true ].

Definition sample_db (cfgs : list ConfiguracaoAlerta) : DB :=
  {| skus := [sample_sku]; lotes := sample_lotes; configs := cfgs |}.

(** The same product with a single lot, expiring in 25 days. *)
Definition sample_db_25 (cfgs : list ConfiguracaoAlerta) : DB :=
  {| skus := [sample_sku];
     lotes := [sample_lote 1 "L1" (mkdate 2025 1 26) 5 true];
     configs := cfgs |}.

(** The sample product with no lot that counts: one is empty, the other
    switched off. *)
Definition sample_db_empty (cfgs : list ConfiguracaoAlerta) : DB :=
  {| skus := [sample_sku];
     lotes := [sample_lote 1 "L0" (mkdate 2024 12 1) 0 true;
               sample_lote 2 "L1" (mkdate 2025 1 11) 5 false];
     configs := cfgs |}.

(** * Vocabulary for the importers *)

Inductive importer : Set := Grade020502 | Contagens.

Section Importers.
Context {P : Platform}.

Definition processar (i : importer) : UploadedFile -> M ImportResult :=
  match i with
  | Grade020502 => processar_grade_020502
  | Contagens => processar_contagens
  end.

Definition frame (i : importer) : UploadedFile -> M DataFrame :=
  match i with
  | Grade020502 => grade_frame
  | Contagens => contagens_frame
  end.

Definition row_body (i : importer) (ir : label * Row) : M unit :=
  match i with
  | Grade020502 => grade_row (fst ir) (snd ir)
  | Contagens => contagens_row (fst ir) (snd ir)
  end.
End Importers.

(** The cell of a row under a column name, if the row has the column. *)
Definition row_cell (row : Row) (col : string) : option cell :=
  option_map snd (find (fun p => String.eqb (fst p) col) row).

(** What one turn of the loop did to the counters and the message lists. *)
Inductive outcome : Set := Processed | Errored | Warned | Skipped | Aborted.

Definition outcome_between (s s' : EstoqueImportService) : outcome :=
  if processed_count s <? processed_count s' then Processed
  else if (List.length (errors s) <? List.length (errors s'))%nat then Errored
  else if (List.length (warnings s) <? List.length (warnings s'))%nat then Warned
  else Skipped.

(** The outcomes of the turns of a loop, in order; a turn that raises ends
    the loop. *)
Fixpoint outcomes {A} (body : A -> M unit) (rows : list A) (w : World)
  : list outcome :=
  match rows with
  | [] => []
  | x :: rows' =>
      match body x w with
      | (inr _, w') => outcome_between (svc w) (svc w') :: outcomes body rows' w'
      | (inl _, _) => [Aborted]
      end
  end.

Definition is_processed (o : outcome) : bool :=
  match o with Processed => true | _ => false end.

Definition is_errored (o : outcome) : bool :=
  match o with Errored => true | _ => false end.

Definition is_warned (o : outcome) : bool :=
  match o with Warned => true | _ => false end.

Definition count (p : outcome -> bool) (os : list outcome) : Z :=
  Z.of_nat (List.length (filter p os)).

(** The outcomes of the rows of an import call started in [w]. *)
Definition row_outcomes {P : Platform} (i : importer) (file : UploadedFile)
    (w : World) : list outcome :=
  match frame i file (snd (_reset_counters w)) with
  | (inr df, w1) => outcomes (row_body i) (iterrows df) w1
  | (inl _, _) => []
  end.

Definition with_warning (s : EstoqueImportService) (msg : string)
  : EstoqueImportService :=
  {| svc_unidade_negocio := svc_unidade_negocio s;
     errors := errors s; warnings := warnings s ++ [msg];
     processed_count := processed_count s;
     created_count := created_count s;
     updated_count := updated_count s |}.

Definition with_error (s : EstoqueImportService) (msg : string)
  : EstoqueImportService :=
  {| svc_unidade_negocio := svc_unidade_negocio s;
     errors := errors s ++ [msg]; warnings := warnings s;
     processed_count := processed_count s;
     created_count := created_count s;
     updated_count := updated_count s |}.

(** The active products of a unit that carry a code: the rows
    [SKU.objects.get(codigo_sku=..., unidade_negocio=..., ativo=True)]
    selects. *)
Definition active_products (d : DB) (unidade_id : Z) (codigo : string)
  : list SKU :=
  filter (fun s => String.eqb (codigo_sku s) codigo
                   && (unidade_negocio s =? unidade_id)
                   && sku_ativo s) (skus d).

(** * A platform to run examples on *)

Definition digit_of (c : ascii) : option Z :=
  let n := nat_of_ascii c in
  if ((48 <=? n) && (n <=? 57))%nat then Some (Z.of_nat (n - 48)) else None.

(** Exactly [k] decimal digits at the head of [s]. *)
Fixpoint take_digits (k : nat) (s : string) (acc : Z) : option (Z * string) :=
  match k with
  | O => Some (acc, s)
  | S k' =>
      match s with
      | String c s' =>
          match digit_of c with
          | Some d => take_digits k' s' (acc * 10 + d)
          | None => None
          end
      | EmptyString => None
      end
  end.

(** Two digits, or else one, making a number between 1 and [hi]. *)
Definition take_1_2 (hi : Z) (s : string) : option (Z * string) :=
  let one :=
    match take_digits 1 s 0 with
    | Some (v, rest) => if 1 <=? v then Some (v, rest) else None
    | None => None
    end in
  match take_digits 2 s 0 with
  | Some (v, rest) => if (1 <=? v) && (v <=? hi) then Some (v, rest) else one
  | None => one
  end.

Definition days_in_month (y m : Z) : Z :=
  if m =? 2 then (if is_leap y then 29 else 28)
  else if (m =? 4) || (m =? 6) || (m =? 9) || (m =? 11) then 30 else 31.

(** A reading of [s] against a format made of [%d], [%m], [%Y], [%y] and
    literal characters. *)
Fixpoint parse_format (fmt s : string) (y m d : Z) : option date :=
  match fmt with
  | EmptyString =>
      match s with
      | EmptyString =>
          if (1 <=? y) && (1 <=? m) && (m <=? 12) && (1 <=? d)
             && (d <=? days_in_month y m)
          then Some (mkdate y m d) else None
      | _ => None
      end
  | String "%" (String c fmt') =>
      if Ascii.eqb c "d" then
        match take_1_2 31 s with
        | Some (v, rest) => parse_format fmt' rest y m v
        | None => None
        end
      else if Ascii.eqb c "m" then
        match take_1_2 12 s with
        | Some (v, rest) => parse_format fmt' rest y v d
        | None => None
        end
      else if Ascii.eqb c "Y" then
        match take_digits 4 s 0 with
        | Some (v, rest) => parse_format fmt' rest v m d
        | None => None
        end
      else if Ascii.eqb c "y" then
        match take_digits 2 s 0 with
        | Some (v, rest) =>
            parse_format fmt' rest (if v <? 69 then 2000 + v else 1900 + v) m d
        | None => None
        end
      else None
  | String c fmt' =>
      match s with
      | String c' s' => if Ascii.eqb c c' then parse_format fmt' s' y m d else None
      | EmptyString => None
      end
  end.

Definition strptime_model (s fmt : string) : option date :=
  parse_format fmt s 1900 1 1.

Fixpoint all_digits (s : string) (acc : Z) : option Z :=
  match s with
  | EmptyString => Some acc
  | String c s' =>
      match digit_of c with
      | Some d => all_digits s' (acc * 10 + d)
      | None => None
      end
  end.

(** Integers, and text that spells one; anything else does not convert. *)
Definition to_numeric_model (c : cell) : option Z :=
  match c with
  | CInt z => Some z
  | CStr (String "-" (String c' s')) => option_map Z.opp (all_digits (String c' s') 0)
  | CStr (String c' s') => all_digits (String c' s') 0
  | _ => None
  end.

(** The case mappings on the ASCII letters; other bytes are left as they
    are. *)
Definition upper_model (s : string) : string := map_string upper_ascii s.
Definition lower_model (s : string) : string := map_string lower_ascii s.

Definition sample_platform : Platform :=
  {| to_numeric := to_numeric_model;
     strptime := strptime_model;
     now_isoformat := "2025-01-01T08:00:00+00:00";
     lower := lower_model;
     upper := upper_model |}.

(** * Invariant of one turn of an import loop *)

(** How a turn that started with the service [s] and ended in [r] may leave
    the service: it appends at most one message, counts the row at most
    once, and if it raised it appended nothing and did not count the row as
    processed. *)
Definition step_rel (s : EstoqueImportService) (r : exn + unit)
    (s' : EstoqueImportService) : Prop :=
  svc_unidade_negocio s' = svc_unidade_negocio s /\
  exists es ws,
    errors s' = errors s ++ es /\ warnings s' = warnings s ++ ws /\
    let dp := processed_count s' - processed_count s in
    let dc := created_count s' - created_count s in
    let du := updated_count s' - updated_count s in
    0 <= dp /\ 0 <= dc /\ 0 <= du /\ dc + du <= 1 /\ dp <= dc + du /\
    dp + Z.of_nat (List.length es) + Z.of_nat (List.length ws) <= 1 /\
    (forall e, r = inl e -> es = [] /\ ws = [] /\ dp = 0) /\
    (r = inr tt -> dc + du <= dp + Z.of_nat (List.length es)).

(** The dictionary [_build_result] makes from the service [s]. *)
Definition result_of {P : Platform} (tipo_ : string)
    (s : EstoqueImportService) : Resultado :=
  {| success := (Nat.eqb (List.length (errors s)) 0)
                || (0 <? processed_count s);
     tipo := tipo_;
     res_unidade := UnidadeNegocio_str (svc_unidade_negocio s);
     processed := processed_count s;
     created := created_count s;
     updated := updated_count s;
     res_errors := errors s;
     res_warnings := warnings s;
     timestamp := now_isoformat |}.

Definition tipo_of (i : importer) : string :=
  match i with Grade020502 => "Grade 020502" | Contagens => "Contagens" end.

(** The dictionary of the outer [except]. *)
Definition falha (e : exn) : ImportResult :=
  Failure {| falha_success := false; error := exn_str e;
             falha_processed := 0 |}.

(** The world after [_reset_counters]. *)
Definition reset (w : World) : World :=
  {| db := db w;
     svc := EstoqueImportService_init (svc_unidade_negocio (svc w)) |}.

(** * Sample imports *)

Definition sample_world (d : DB) : World :=
  {| db := d; svc := EstoqueImportService_init sample_unidade |}.

(** A count sheet of four rows: a count of the sample product for a day on
    which it has a lot (11/01/2025), a count for another day, an unknown
    product, a blank line. *)
Definition sample_contagens : UploadedFile :=
  Readable
    {| columns := ["Código Item"; "Validade Aferida"; "Quantidade Cx";
                   "Quantidade Unidade"]%string;
       index := [LInt 0; LInt 1; LInt 2; LInt 3];
       values := [ [CStr "SKU001"; CStr "11/01/2025"; CInt 2; CInt 3];
                   [CStr "SKU001"; CStr "2025-03-01"; CInt 1; CInt 0];
                   [CStr "SKU999"; CStr "2025-03-01"; CInt 1; CInt 0];
                   [NaN; NaN; NaN; NaN] ] |}.

(** A stock sheet of one row, for a product not yet stored. *)
Definition sample_grade : UploadedFile :=
  Readable
    {| columns := ["Produto"; "Descricao"; "Unidade"; "Fator"; "Inventario";
                   "Qtd Contagem"]%string;
       index := [LInt 0];
       values := [ [CStr "SKU777"; CStr "Arroz 5kg"; CStr "fd"; CInt 6;
                    CStr "388/06"; CInt 2334] ] |}.

(** A stock sheet of one row, for the sample product, with another
    description. *)
Definition sample_grade_known : UploadedFile :=
  Readable
    {| columns := ["Produto"; "Descricao"; "Unidade"; "Fator"; "Inventario";
                   "Qtd Contagem"]%string;
       index := [LInt 0];
       values := [ [CStr "SKU001"; CStr "Leite Integral"; CStr "cx"; CInt 12;
                    CStr "10/00"; CInt 120] ] |}.

(** The same sheet, its data lines carrying one field more than the header:
    the leading field becomes the row label. *)
Definition sample_grade_shifted : UploadedFile :=
  Readable
    {| columns := ["Produto"; "Descricao"; "Unidade"; "Fator"; "Inventario";
                   "Qtd Contagem"]%string;
       index := [LStr "r1"];
       values := [ [CStr "SKU001"; CStr "Leite Integral"; CStr "cx"; CInt 12;
                    CStr "10/00"; CInt 120] ] |}.

(** The sample product after a stock sheet gave it the description
    [Leite Integral]. *)
Definition sample_sku_renamed : SKU :=
  {| sku_id := 1; codigo_sku := "SKU001"; nome_produto := "Leite Integral";
     unidade_negocio := 1; unidade_medida := "CX"; sku_ativo := true |}.

(** A count sheet of two rows: a count of the sample product, and an
    unknown product. *)
Definition sample_contagens_2 : UploadedFile :=
  Readable
    {| columns := ["Código Item"; "Validade Aferida"; "Quantidade Cx";
                   "Quantidade Unidade"]%string;
       index := [LInt 0; LInt 1];
       values := [ [CStr "SKU001"; CStr "11/01/2025"; CInt 2; CInt 3];
                   [CStr "SKU999"; CStr "2025-03-01"; CInt 1; CInt 0] ] |}.

(** A count sheet of two rows: an unknown product, a blank line. *)
Definition sample_contagens_unknown : UploadedFile :=
  Readable
    {| columns := ["Código Item"; "Validade Aferida"; "Quantidade Cx";
                   "Quantidade Unidade"]%string;
       index := [LInt 0; LInt 1];
       values := [ [CStr "SKU999"; CStr "2025-03-01"; CInt 1; CInt 0];
                   [NaN; NaN; NaN; NaN] ] |}.


(** A count sheet of one row, for the lot date 11/01/2025. *)
Definition sample_contagens_1 : UploadedFile :=
  Readable
    {| columns := ["Código Item"; "Validade Aferida"; "Quantidade Cx";
                   "Quantidade Unidade"]%string;
       index := [LInt 0];
       values := [ [CStr "SKU001"; CStr "11/01/2025"; CInt 2; CInt 3] ] |}.

(** The sample product with two lots, of different numbers, that expire on
    the same day. *)
Definition sample_db_same_day : DB :=
  {| skus := [sample_sku];
     lotes := [sample_lote 1 "L1" (mkdate 2025 1 11) 5 true;
               sample_lote 2 "L2" (mkdate 2025 1 11) 7 true];
     configs := [] |}.

(** The rows of [sample_contagens], as the loop sees them. *)
Definition sample_row (codigo validade : string) (cx un : Z) : Row :=
  [("codigo_sku", CStr codigo); ("data_validade", CStr validade);
   ("qtd_caixas", CInt cx); ("qtd_unidades", CInt un)]%string.

(** A file read with positional row labels: every label is an integer. *)
Definition is_LInt (idx : label) : bool :=
  match idx with LInt _ => true | LStr _ => false end.

Definition positional (file : UploadedFile) : bool :=
  match file with
  | Unreadable _ => true
  | Readable df => forallb is_LInt (index df)
  end.

(** * More of [models.py] *)

(** [a < b] on [datetime.date]: the order of (year, month, day). *)
Definition date_ltb (a b : date) : bool :=
  (year a <? year b)
  || ((year a =? year b)
      && ((month a <? month b)
          || ((month a =? month b) && (day a <? day b)))).

(** The dates [datetime.date] can hold. *)
Definition valid_date (d : date) : Prop :=
  1 <= year d <= 9999 /\ 1 <= month d <= 12
  /\ 1 <= day d <= days_in_month (year d) (month d).

(** [LoteValidade.dias_ate_vencimento] *)
Definition dias_ate_vencimento (hoje : date) (self : LoteValidade) : Z :=
  days_between (data_validade self) hoje.

(** [LoteValidade.esta_vencido] *)
Definition esta_vencido (hoje : date) (self : LoteValidade) : bool :=
  date_ltb (data_validade self) hoje.

(** [queryset.aggregate(total=Sum(col))['total']]: null over no row. *)
Definition Sum (l : list Z) : option Z :=
  match l with
  | [] => None
  | _ => Some (fold_right Z.add 0 l)
  end.

(** [total or 0] *)
Definition or_0 (total : option Z) : Z :=
  match total with
  | Some z => z
  | None => 0
  end.

(** [SKU.quantidade_total_estoque] *)
Definition quantidade_total_estoque (db : DB) (self : SKU) : Z :=
  or_0 (Sum (map (fun l => Z.of_N (qtd_estoque l))
               (filter (fun l => (lote_sku l =? sku_id self) && lote_ativo l)
                  (lotes db)))).

(** [order_by(field)] on a text column, in byte order; as for [order_by],
    rows with equal keys come out in the reverse of the table's order. *)
Fixpoint insert_by_text {A} (key : A -> string) (x : A) (l : list A)
  : list A :=
  match l with
  | [] => [x]
  | y :: l' =>
      if String.ltb (key x) (key y) then x :: l
      else y :: insert_by_text key x l'
  end.

Fixpoint order_by_text {A} (key : A -> string) (l : list A) : list A :=
  match l with
  | [] => []
  | x :: l' => insert_by_text key x (order_by_text key l')
  end.

Record Usuario : Set := {
  usuario_id : Z;
  username : string;
  is_superuser : bool;
  is_active : bool
}.

(** The table behind [Usuario.unidades]. *)
Record UsuarioUnidade : Set := {
  vinculo_usuario : Z;
  vinculo_unidade : Z;
  papel : string
}.

Record MovimentacaoEstoque : Set := {
  mov_id : Z;
  mov_sku : Z;
  mov_tipo : string;
  mov_status : string;
  quantidade : N;
  mov_ativo : bool
}.

(** A JSON value of [LogConsulta.parametros]. *)
Inductive json : Set :=
| JNull
| JInt (z : Z)
| JStr (s : string).

Record LogConsulta : Set := {
  log_usuario : Z;
  tipo_consulta : string;
  parametros : list (string * json);
  ip_address : option string
}.

(** The tables next to those of [DB]. *)
Record Site : Set := {
  banco : DB;
  unidades : list UnidadeNegocio;
  vinculos : list UsuarioUnidade;
  movimentacoes : list MovimentacaoEstoque;
  logs : list LogConsulta
}.

(** [self.unidades]: the units linked to the user. *)
Definition usuario_unidades (s : Site) (self : Usuario)
  : list UnidadeNegocio :=
  filter (fun u => existsb (fun v => (vinculo_usuario v =? usuario_id self)
                                     && (vinculo_unidade v =? un_id u))
                     (vinculos s))
         (order_by_text nome (unidades s)).

(** [Usuario.tem_acesso_unidade] *)
Definition tem_acesso_unidade (s : Site) (self : Usuario) (unidade_id : Z)
  : bool :=
  if is_superuser self then true
  else existsb (fun u => (un_id u =? unidade_id) && un_ativo u)
         (usuario_unidades s self).

(** [Usuario.get_unidades_ids] *)
Definition get_unidades_ids (s : Site) (self : Usuario) : list Z :=
  if is_superuser self then
    map un_id (filter un_ativo (order_by_text nome (unidades s)))
  else map un_id (filter un_ativo (usuario_unidades s self)).

(** [SKU.quantidade_em_transito] *)
Definition quantidade_em_transito (s : Site) (self : SKU) : Z :=
  or_0 (Sum (map (fun m => Z.of_N (quantidade m))
               (filter (fun m => (mov_sku m =? sku_id self) && mov_ativo m
                                 && String.eqb (mov_tipo m) "ENTRADA"
                                 && String.eqb (mov_status m) "EM_TRANSITO")
                  (movimentacoes s)))).

(** * [serializers.py] *)

Definition STATUS_CORES : list (string * string) :=
  [("VENCIDO", "#000000"); ("CRITICO", "#F44336");
   ("PRE_BLOQUEIO", "#FFC107"); ("OK", "#4CAF50");
   ("SEM_ESTOQUE", "#9E9E9E")]%string.

Definition STATUS_LABELS : list (string * string) :=
  [("VENCIDO", "Vencido"); ("CRITICO", "Crítico");
   ("PRE_BLOQUEIO", "Pré-Bloqueio"); ("OK", "OK");
   ("SEM_ESTOQUE", "Sem Estoque")]%string.

(** [d.get(key, default)] *)
Definition dict_get_default (d : list (string * string)) (key default : string)
  : string :=
  match dict_get d key with
  | Some v => v
  | None => default
  end.

(** [get_status_texto] of the three product serializers. *)
Definition get_status_texto (db : DB) (hoje : date) (obj : SKU) : string :=
  dict_get_default STATUS_LABELS (status (get_status db hoje obj None))
    "Indefinido".

(** [get_status_cor] of the three product serializers. *)
Definition get_status_cor (db : DB) (hoje : date) (obj : SKU) : string :=
  dict_get_default STATUS_CORES (status (get_status db hoje obj None))
    "#9E9E9E".

(** [get_status_dias_restantes] and
    [SKUCriticidadeSerializer.get_dias_restantes] *)
Definition get_dias_restantes (db : DB) (hoje : date) (obj : SKU)
  : option Z :=
  dias_restantes (get_status db hoje obj None).

(** [d.isoformat()] *)
Definition isoformat (d : date) : string :=
  (zfill 4 (str_Z (year d)) +++ "-" +++ zfill 2 (str_Z (month d)) +++ "-"
   +++ zfill 2 (str_Z (day d)))%string.

(** [SKUCriticidadeSerializer.get_lote_critico] *)
Definition get_lote_critico (db : DB) (obj : SKU) : option string :=
  option_map numero_lote (lote_mais_proximo db obj).

(** [SKUCriticidadeSerializer.get_data_validade] *)
Definition get_data_validade (db : DB) (obj : SKU) : option string :=
  option_map (fun l => isoformat (data_validade l)) (lote_mais_proximo db obj).

(** [SKUCriticidadeSerializer.get_quantidade] *)
Definition get_quantidade (db : DB) (obj : SKU) : Z :=
  match lote_mais_proximo db obj with
  | Some l => Z.of_N (qtd_estoque l)
  | None => 0
  end.

(** [SKUEstoqueSerializer.get_quantidade_estoque] *)
Definition get_quantidade_estoque (db : DB) (obj : SKU) : Z :=
  quantidade_total_estoque db obj.

(** [SKUEstoqueSerializer.get_quantidade_transito] *)
Definition get_quantidade_transito (s : Site) (obj : SKU) : Z :=
  quantidade_em_transito s obj.

(** [SKUEstoqueSerializer.get_qtd_lotes] *)
Definition get_qtd_lotes (db : DB) (obj : SKU) : Z :=
  Z.of_nat (List.length (lotes_em_estoque db obj)).

(** [SKUEstoqueSerializer.get_quantidade_total] *)
Definition get_quantidade_total (s : Site) (obj : SKU) : Z :=
  quantidade_total_estoque (banco s) obj + quantidade_em_transito s obj.

(** [SKUCriticidadeSerializer(obj).data], without the image. *)
Record SKUCriticidade : Set := {
  sc_id : Z;
  sc_codigo_sku : string;
  sc_nome_produto : string;
  sc_unidade_codigo : option string;
  sc_lote_critico : option string;
  sc_data_validade : option string;
  sc_dias_restantes : option Z;
  sc_quantidade : Z;
  sc_status_texto : string;
  sc_status_cor : string
}.

Definition SKUCriticidadeSerializer (s : Site) (hoje : date) (obj : SKU)
  : SKUCriticidade :=
  {| sc_id := sku_id obj;
     sc_codigo_sku := codigo_sku obj;
     sc_nome_produto := nome_produto obj;
     sc_unidade_codigo :=
       option_map codigo_unb
         (find (fun u => un_id u =? unidade_negocio obj) (unidades s));
     sc_lote_critico := get_lote_critico (banco s) obj;
     sc_data_validade := get_data_validade (banco s) obj;
     sc_dias_restantes := get_dias_restantes (banco s) hoje obj;
     sc_quantidade := get_quantidade (banco s) obj;
     sc_status_texto := get_status_texto (banco s) hoje obj;
     sc_status_cor := get_status_cor (banco s) hoje obj |}.

(** * [views.py] *)

Fixpoint has_char (sep : ascii) (s : string) : bool :=
  match s with
  | EmptyString => false
  | String c s' => Ascii.eqb c sep || has_char sep s'
  end.

(** [s.split(sep)[0]] *)
Fixpoint split_first (sep : ascii) (s : string) : string :=
  match s with
  | EmptyString => EmptyString
  | String c s' => if Ascii.eqb c sep then EmptyString
                   else String c (split_first sep s')
  end.

(** [s.split(sep)[-1]] *)
Fixpoint split_last (sep : ascii) (s : string) : string :=
  match s with
  | EmptyString => EmptyString
  | String c s' =>
      if has_char sep s' then split_last sep s'
      else if Ascii.eqb c sep then s' else s
  end.

(** [get_client_ip] on the two entries of [request.META]. *)
Definition get_client_ip (x_forwarded_for remote_addr : option string)
  : option string :=
  match x_forwarded_for with
  | Some (String c s) => Some (split_first "," (String c s))
  | _ => remote_addr
  end.

Definition set_banco (s : Site) (d : DB) : Site :=
  {| banco := d; unidades := unidades s; vinculos := vinculos s;
     movimentacoes := movimentacoes s; logs := logs s |}.

(** [log_consulta] *)
Definition log_consulta (usuario : Usuario) (tipo_ : string)
    (parametros_ : list (string * json)) (ip : option string) (s : Site)
  : Site :=
  {| banco := banco s; unidades := unidades s; vinculos := vinculos s;
     movimentacoes := movimentacoes s;
     logs := logs s ++ [{| log_usuario := usuario_id usuario;
                           tipo_consulta := tipo_;
                           parametros := parametros_;
                           ip_address := ip |}] |}.

(** [UnidadeAccessMixin.get_user_unidades] *)
Definition get_user_unidades (s : Site) (user : Usuario) : list Z :=
  if is_superuser user then
    map un_id (filter un_ativo (order_by_text nome (unidades s)))
  else get_unidades_ids s user.

(** [UnidadeNegocio.objects.get(...)] *)
Definition UnidadeNegocio_get (s : Site) (lookup : UnidadeNegocio -> bool)
  : exn + UnidadeNegocio :=
  match filter lookup (unidades s) with
  | [] => inl (DoesNotExist "UnidadeNegocio matching query does not exist.")
  | [u] => inr u
  | _ :: _ :: _ =>
      inl (MultipleObjectsReturned
             "get() returned more than one UnidadeNegocio")
  end.

Record RelatorioData : Set := {
  rel_unidade : option (Z * string * string);
  rel_dias_para_critico : Z;
  rel_dias_para_pre_bloqueio : Z;
  total_bloqueados : Z;
  total_pre_bloqueio : Z;
  bloqueados : list SKUCriticidade;
  pre_bloqueio : list SKUCriticidade
}.

(** The body of a response: [{'detail': ...}], [{'error': ...}], the
    report, or the dictionary of an import. *)
Inductive Body : Set :=
| Detail (msg : string)
| ErrorBody (msg : string)
| RelatorioBody (r : RelatorioData)
| ImportBody (r : ImportResult).

Record Response : Set := { status_code : Z; body : Body }.

(** The query of a report: the user, [unidade_id] (a number, when given),
    [codigo_unb], and the two address entries of [request.META]. *)
Record RelatorioRequest : Set := {
  rq_user : Usuario;
  rq_unidade_id : option Z;
  rq_codigo_unb : option string;
  rq_forwarded_for : option string;
  rq_remote_addr : option string
}.

(** The configuration [RelatorioCriticidadeView.get] passes on. *)
Definition relatorio_config (d : DB) (unidade_ : option UnidadeNegocio)
  : option ConfiguracaoAlerta :=
  match match unidade_ with
        | Some u => configuracao_alerta d (un_id u)
        | None => None
        end with
  | Some c => Some c
  | None => configuracao_global d
  end.

(** The products the report goes through. *)
Definition relatorio_queryset (s : Site) (user : Usuario)
    (unidade_ : option UnidadeNegocio) : list SKU :=
  let queryset :=
    filter sku_ativo (order_by_text nome_produto (skus (banco s))) in
  match unidade_ with
  | Some u => filter (fun x => unidade_negocio x =? un_id u) queryset
  | None =>
      let unidades_ids := get_unidades_ids s user in
      filter (fun x => existsb (Z.eqb (unidade_negocio x)) unidades_ids)
             queryset
  end.

(** The loop of the report: the two lists, in the order of the queryset. *)
Definition classifica (d : DB) (hoje : date)
    (config : option ConfiguracaoAlerta) (queryset : list SKU)
  : list SKU * list SKU :=
  fold_left
    (fun (acc : list SKU * list SKU) sku =>
       let status_code := status (get_status d hoje sku config) in
       if String.eqb status_code "VENCIDO" || String.eqb status_code "CRITICO"
       then (fst acc ++ [sku], snd acc)
       else if String.eqb status_code "PRE_BLOQUEIO"
            then (fst acc, snd acc ++ [sku])
            else acc)
    queryset ([], []).

(** The unit [RelatorioCriticidadeView.get] looks up: the one of
    [unidade_id], else the one of [codigo_unb], else none. *)
Definition relatorio_unidade (rq : RelatorioRequest) (s : Site)
  : exn + option UnidadeNegocio :=
  match rq_unidade_id rq with
  | Some id =>
      match UnidadeNegocio_get s (fun u => (un_id u =? id) && un_ativo u) with
      | inr u => inr (Some u)
      | inl e => inl e
      end
  | None =>
      match rq_codigo_unb rq with
      | Some (String c cs) =>
          match UnidadeNegocio_get s
                  (fun u => String.eqb (codigo_unb u) (String c cs)
                            && un_ativo u) with
          | inr u => inr (Some u)
          | inl e => inl e
          end
      | _ => inr None
      end
  end.

(** The call of [log_consulta] in [RelatorioCriticidadeView.get]. *)
Definition relatorio_log (rq : RelatorioRequest)
    (unidade_ : option UnidadeNegocio) (s : Site) : Site :=
  log_consulta (rq_user rq) "CRITICIDADE"
    [("unidade_id", match unidade_ with
                    | Some u => JInt (un_id u)
                    | None => JNull
                    end);
     ("codigo_unb", match rq_codigo_unb rq with
                    | Some c => JStr c
                    | None => JNull
                    end)]%string
    (get_client_ip (rq_forwarded_for rq) (rq_remote_addr rq)) s.

(** [RelatorioCriticidadeView.get]; [hoje] is [date.today()]. *)
Definition RelatorioCriticidadeView_get (hoje : date) (rq : RelatorioRequest)
    (s : Site) : (exn + Response) * Site :=
  let user := rq_user rq in
  match relatorio_unidade rq s with
  | inl (DoesNotExist _) =>
      (inr {| status_code := 404;
              body := Detail "Unidade não encontrada." |}, s)
  | inl e => (inl e, s)
  | inr unidade_ =>
      if match unidade_ with
         | Some u => negb (is_superuser user)
                     && negb (tem_acesso_unidade s user (un_id u))
         | None => false
         end
      then (inr {| status_code := 403;
                   body := Detail "Sem permissão para esta unidade." |}, s)
      else
        let config := relatorio_config (banco s) unidade_ in
        let '(bloq, pre) :=
          classifica (banco s) hoje config
            (relatorio_queryset s user unidade_) in
        let s' := relatorio_log rq unidade_ s in
        (inr {| status_code := 200;
                body := RelatorioBody
                  {| rel_unidade :=
                       option_map (fun u => (un_id u, codigo_unb u, nome u))
                                  unidade_;
                     rel_dias_para_critico := dias_critico config;
                     rel_dias_para_pre_bloqueio := dias_pre_bloqueio config;
                     total_bloqueados := Z.of_nat (List.length bloq);
                     total_pre_bloqueio := Z.of_nat (List.length pre);
                     bloqueados := map (SKUCriticidadeSerializer s' hoje) bloq;
                     pre_bloqueio := map (SKUCriticidadeSerializer s' hoje) pre
                  |} |}, s')
  end.

(** The form field [unidade_negocio_id]: not sent (or empty), or a text
    with what [int()] makes of it ([None] when it raises [ValueError]). *)
Inductive FormField : Set :=
| NotSent
| Sent (as_int : option Z).

(** The upload: the user, the file sent under [file] with its name (a file
    without a name is false to [if not file]), and the form field. *)
Record UploadRequest : Set := {
  up_user : Usuario;
  up_file : option (string * UploadedFile);
  up_unidade_negocio_id : FormField
}.

Definition allowed_extensions : list string := [".xlsx"; ".xls"; ".csv"]%string.

(** The extension test of the upload views on [file.name]. *)
Definition extension_allowed {P : Platform} (name : string) : bool :=
  existsb (String.eqb ("." +++ lower (split_last "." name))%string)
          allowed_extensions.

Definition bad_request (msg : string) : Response :=
  {| status_code := 400; body := ErrorBody msg |}.

(** [result.get('success')] *)
Definition result_success (r : ImportResult) : bool :=
  match r with
  | Failure f => falha_success f
  | Result r => success r
  end.

(** [UploadEstoqueView.post] (for [Grade020502]) and
    [UploadContagensView.post] (for [Contagens]). *)
Definition upload_post {P : Platform} (i : importer) (rq : UploadRequest)
    (s : Site) : (exn + Response) * Site :=
  match up_file rq with
  | None | Some (EmptyString, _) =>
      (inr (bad_request "Arquivo não enviado"), s)
  | Some (name, file) =>
      match up_unidade_negocio_id rq with
      | NotSent => (inr (bad_request "Unidade de negócio não informada"), s)
      | Sent as_int =>
          if negb (extension_allowed name) then
            (inr (bad_request
                    ("Formato não permitido. Use: "
                     +++ String.concat ", " allowed_extensions)), s)
          else
            let access :=
              if is_superuser (up_user rq) then inr true
              else match as_int with
                   | Some id => inr (tem_acesso_unidade s (up_user rq) id)
                   | None => inl (ValueError "invalid literal for int() with base 10")
                   end in
            match access with
            | inl e => (inl e, s)
            | inr false =>
                (inr {| status_code := 403;
                        body := ErrorBody "Sem permissão para esta unidade" |},
                 s)
            | inr true =>
                let failed (e : exn) :=
                  {| status_code := 500;
                     body := ErrorBody ("Erro ao processar arquivo: "
                                        +++ exn_str e) |} in
                match as_int with
                | None =>
                    (inr (failed (ValueError
                                    "invalid literal for int() with base 10")),
                     s)
                | Some id =>
                    match UnidadeNegocio_get s (fun u => un_id u =? id) with
                    | inl (DoesNotExist _) =>
                        (inr {| status_code := 404;
                                body := ErrorBody
                                  "Unidade de negócio não encontrada" |}, s)
                    | inl e => (inr (failed e), s)
                    | inr u =>
                        let '(r, w) :=
                          processar i file
                            {| db := banco s;
                               svc := EstoqueImportService_init u |} in
                        match r with
                        | inr result =>
                            (inr {| status_code :=
                                      if result_success result then 200
                                      else 400;
                                    body := ImportBody result |},
                             set_banco s (db w))
                        | inl e => (inr (failed e), set_banco s (db w))
                        end
                    end
                end
            end
      end
  end.

(** The query parameters of [LoteValidadeViewSet]. *)
Record LotesQuery : Set := {
  lq_user : Usuario;
  lq_sku_id : option Z;
  lq_vencidos : option string;
  lq_com_estoque : option string
}.

Definition param_is (p : option string) (v : string) : bool :=
  match p with
  | Some x => String.eqb x v
  | None => false
  end.

(** [LoteValidadeViewSet.get_queryset]; [hoje] is [date.today()]. *)
Definition LoteValidadeViewSet_get_queryset (hoje : date) (q : LotesQuery)
    (s : Site) : list LoteValidade :=
  let queryset :=
    filter lote_ativo
      (order_by (fun l => toordinal (data_validade l)) (lotes (banco s))) in
  let unidades_ids := get_user_unidades s (lq_user q) in
  let queryset :=
    filter (fun l => existsb (fun x => (sku_id x =? lote_sku l)
                                       && existsb (Z.eqb (unidade_negocio x))
                                            unidades_ids)
                       (skus (banco s)))
           queryset in
  let queryset :=
    match lq_sku_id q with
    | Some id => filter (fun l => lote_sku l =? id) queryset
    | None => queryset
    end in
  let queryset :=
    if param_is (lq_vencidos q) "true"
    then filter (fun l => date_ltb (data_validade l) hoje) queryset
    else queryset in
  if param_is (lq_com_estoque q) "true"
  then filter (fun l => (0 <? qtd_estoque l)%N) queryset
  else queryset.

(** The query parameters of [EstoqueViewSet]. *)
Record EstoqueQuery : Set := {
  eq_user : Usuario;
  eq_search : option string;
  eq_unidade_id : option Z
}.

Record ResumoGeral : Set := {
  total_skus : Z;
  total_estoque : Z;
  total_transito : Z;
  total_geral : Z;
  skus_sem_estoque : Z
}.

Section Estoque.
(** The lookup [field__icontains=search] of the database in use, on one
    value. *)
Variable icontains : string -> string -> bool.

(** [EstoqueViewSet.get_queryset]; the rows of the product table have
    distinct primary keys, so [distinct()] drops none. *)
Definition EstoqueViewSet_get_queryset (q : EstoqueQuery) (s : Site)
  : list SKU :=
  let queryset :=
    filter sku_ativo (order_by_text nome_produto (skus (banco s))) in
  let unidades_ids := get_user_unidades s (eq_user q) in
  let queryset :=
    filter (fun x => existsb (Z.eqb (unidade_negocio x)) unidades_ids)
           queryset in
  let queryset :=
    match eq_search q with
    | Some (String c cs) =>
        filter (fun x => icontains (codigo_sku x) (String c cs)
                         || icontains (nome_produto x) (String c cs))
               queryset
    | _ => queryset
    end in
  match eq_unidade_id q with
  | Some id => filter (fun x => unidade_negocio x =? id) queryset
  | None => queryset
  end.

(** The loop of [EstoqueViewSet.resumo_geral]: the three running totals. *)
Definition resumo_totais (s : Site) (queryset : list SKU) : Z * Z * Z :=
  fold_left
    (fun (acc : Z * Z * Z) sku =>
       let '(total_estoque, total_transito, skus_sem_estoque) := acc in
       let qtd_estoque := quantidade_total_estoque (banco s) sku in
       let qtd_transito := quantidade_em_transito s sku in
       (total_estoque + qtd_estoque, total_transito + qtd_transito,
        if qtd_estoque =? 0 then skus_sem_estoque + 1 else skus_sem_estoque))
    queryset (0, 0, 0).

(** [EstoqueViewSet.resumo_geral] *)
Definition EstoqueViewSet_resumo_geral (q : EstoqueQuery) (s : Site)
  : ResumoGeral :=
  let queryset := EstoqueViewSet_get_queryset q s in
  let '(total_estoque_, total_transito_, skus_sem_estoque_) :=
    resumo_totais s queryset in
  {| total_skus := Z.of_nat (List.length queryset);
     total_estoque := total_estoque_;
     total_transito := total_transito_;
     total_geral := total_estoque_ + total_transito_;
     skus_sem_estoque := skus_sem_estoque_ |}.
End Estoque.

(** * Vocabulary for the report *)

(** The report a response carries, if it carries one. *)
Definition relatorio_data (res : exn + Response) : option RelatorioData :=
  match res with
  | inr {| status_code := _; body := RelatorioBody r |} => Some r
  | _ => None
  end.

(** The dictionary of an import a response carries, if it carries one. *)
Definition import_data (res : exn + Response) : option ImportResult :=
  match res with
  | inr {| status_code := _; body := ImportBody r |} => Some r
  | _ => None
  end.

(** The product goes to [bloqueados] under the configuration [config]. *)
Definition is_bloqueado (d : DB) (hoje : date)
    (config : option ConfiguracaoAlerta) (sku : SKU) : bool :=
  String.eqb (status (get_status d hoje sku config)) "VENCIDO"
  || String.eqb (status (get_status d hoje sku config)) "CRITICO".

(** The product goes to [pre_bloqueio] under the configuration [config]. *)
Definition is_pre_bloqueio (d : DB) (hoje : date)
    (config : option ConfiguracaoAlerta) (sku : SKU) : bool :=
  String.eqb (status (get_status d hoje sku config)) "PRE_BLOQUEIO".

(** * Vocabulary for the importers *)

(** The column mapping of an importer. *)
Definition colunas (i : importer) : list (string * string) :=
  match i with
  | Grade020502 => COLUNAS_GRADE_020502
  | Contagens => COLUNAS_CONTAGENS
  end.

(** The products of a unit that carry a code, active or not: the rows the
    lookup of [SKU.objects.get_or_create(codigo_sku=..., unidade_negocio=...)]
    selects. *)
Definition products_of (d : DB) (unidade_id : Z) (codigo : string)
  : list SKU :=
  filter (fun s => String.eqb (codigo_sku s) codigo
                   && (unidade_negocio s =? unidade_id)) (skus d).

(** The service after a row of a stock sheet overwrote its product and
    failed with [msg]. *)
Definition product_written (s : EstoqueImportService) (msg : string)
  : EstoqueImportService :=
  {| svc_unidade_negocio := svc_unidade_negocio s;
     errors := errors s ++ [msg]; warnings := warnings s;
     processed_count := processed_count s;
     created_count := created_count s;
     updated_count := updated_count s + 1 |}.

(** The number of rows of a file. *)
Definition file_rows (file : UploadedFile) : nat :=
  match file with
  | Readable df => List.length (index df)
  | Unreadable _ => O
  end.

(** The row labels of a file. *)
Definition file_index (file : UploadedFile) : list label :=
  match file with
  | Readable df => index df
  | Unreadable _ => []
  end.

(** The message [m] is that of the row labelled [idx]: the label is the
    integer [n] and the message begins with [Linha n+2: ]. *)
Definition numbered (idx : label) (m : string) : Prop :=
  exists n rest,
    idx = LInt n
    /\ m = (("Linha " +++ str_Z (n + 2)) +++ ": " +++ rest)%string.

(** * A sample site *)

Definition sample_filial : UnidadeNegocio :=
  {| un_id := 2; codigo_unb := "UNB02"; nome := "Filial"; un_ativo := true |}.

Definition sample_fechada : UnidadeNegocio :=
  {| un_id := 3; codigo_unb := "UNB03"; nome := "Antiga"; un_ativo := false |}.

(** A user linked to the units 1 and 3. *)
Definition sample_usuario : Usuario :=
  {| usuario_id := 7; username := "ana"; is_superuser := false;
     is_active := true |}.

Definition sample_site (d : DB) : Site :=
  {| banco := d;
     unidades := [sample_unidade; sample_filial; sample_fechada];
     vinculos := [ {| vinculo_usuario := 7; vinculo_unidade := 1;
                      papel := "OPERADOR" |};
                   {| vinculo_usuario := 7; vinculo_unidade := 3;
                      papel := "OPERADOR" |} ];
     movimentacoes := [];
     logs := [] |}.

(** The query of the sample user for the report of unit 1. *)
Definition sample_relatorio_request : RelatorioRequest :=
  {| rq_user := sample_usuario; rq_unidade_id := Some 1;
     rq_codigo_unb := None;
     rq_forwarded_for := Some "10.0.0.7, 10.0.0.1"%string;
     rq_remote_addr := Some "192.168.0.1"%string |}.

(** The query of the sample user for the report of all the units. *)
Definition sample_relatorio_geral : RelatorioRequest :=
  {| rq_user := sample_usuario; rq_unidade_id := None;
     rq_codigo_unb := None; rq_forwarded_for := None;
     rq_remote_addr := Some "192.168.0.1"%string |}.

(** The sample user uploads the sample count sheet for unit 1. *)
Definition sample_upload : UploadRequest :=
  {| up_user := sample_usuario;
     up_file := Some ("contagens.CSV"%string, sample_contagens);
     up_unidade_negocio_id := Sent (Some 1) |}.

(** The sample user asks for the expired lots that have stock. *)
Definition sample_lotes_query : LotesQuery :=
  {| lq_user := sample_usuario; lq_sku_id := None;
     lq_vencidos := Some "true"%string;
     lq_com_estoque := Some "true"%string |}.

(** A count sheet without the column of the loose units. *)
Definition sample_sem_unidades : DataFrame :=
  {| columns := ["Código Item"; "Validade Aferida"; "Quantidade Cx"]%string;
     index := [LInt 0];
     values := [ [CStr "SKU001"; CStr "11/01/2025"; CInt 2] ] |}.

(** The sample product and lots, and a product of unit 2 with one lot. *)
Definition sample_db_two_units : DB :=
  {| skus := [sample_sku;
              {| sku_id := 2; codigo_sku := "SKU001"; nome_produto := "Leite";
                 unidade_negocio := 2; unidade_medida := "CX";
                 sku_ativo := true |}];
     lotes := sample_lotes
              ++ [{| lote_id := 4; lote_sku := 2; numero_lote := "F1";
                     data_validade := mkdate 2025 1 11; qtd_estoque := 9;
                     lote_ativo := true |}];
     configs := [] |}.

(** A count sheet whose headers differ from the mapping in case and in
    surrounding blanks. *)
Definition sample_headers : DataFrame :=
  {| columns := ["  código item"; "validade aferida "; "QUANTIDADE CX";
                 " Quantidade Unidade "]%string;
     index := [LInt 0];
     values := [ [CStr "SKU001"; CStr "11/01/2025"; CInt 2; CInt 3] ] |}.

(** A row of a stock sheet as the loop sees it. *)
Definition sample_grade_row : Row :=
  [("codigo_sku", CStr "SKU777"); ("nome_produto", CStr "Arroz 5kg");
   ("unidade_medida", CStr "fd"); ("fator_conversao", CInt 6);
   ("estoque_display", CStr "388/06"); ("qtd_estoque", CInt 2334)]%string.

(** A row of a stock sheet for the sample product, with another
    description and the unit in lower case. *)
Definition sample_grade_row_known : Row :=
  [("codigo_sku", CStr "SKU001"); ("nome_produto", CStr "Leite Integral");
   ("unidade_medida", CStr "fd"); ("fator_conversao", CInt 6);
   ("estoque_display", CStr "10/00"); ("qtd_estoque", CInt 120)]%string.

(** The sample user uploads, for unit 1, a count sheet that names only an
    unknown product. *)
Definition sample_upload_unknown : UploadRequest :=
  {| up_user := sample_usuario;
     up_file := Some ("contagens.csv"%string, sample_contagens_unknown);
     up_unidade_negocio_id := Sent (Some 1) |}.

(** * Properties *)

(** ** Dates and querysets *)

Lemma date_eqb_eq a b : date_eqb a b = true <-> a = b.
Proof.
  destruct a as [y m d], b as [y' m' d']; unfold date_eqb; simpl.
  rewrite !andb_true_iff, !Z.eqb_eq. split.
  - intros [[-> ->] ->]. reflexivity.
  - intros H. injection H as -> -> ->. auto.
Qed.

Lemma date_eqb_refl a : date_eqb a a = true.
Proof. apply date_eqb_eq. reflexivity. Qed.

Section QuerysetFacts.
Context {A : Type} (key : A -> Z).

Lemma insert_by_In x y l : In y (insert_by key x l) <-> y = x \/ In y l.
Proof.
  induction l as [|z l IH]; simpl.
  - intuition.
  - destruct (key x <? key z); simpl; [intuition|].
    rewrite IH. intuition.
Qed.

Lemma order_by_In y l : In y (order_by key l) <-> In y l.
Proof.
  induction l as [|x l IH]; simpl; [reflexivity|].
  rewrite insert_by_In, IH. intuition.
Qed.

Lemma insert_by_head_least x l :
  head_least key l -> head_least key (insert_by key x l).
Proof.
  destruct l as [|z l]; simpl; [tauto|].
  intros Hz. destruct (key x <? key z) eqn:E.
  - apply Z.ltb_lt in E. simpl. intros y [<-|Hy]; [lia|].
    specialize (Hz y Hy). lia.
  - apply Z.ltb_ge in E. simpl. intros y Hy.
    apply insert_by_In in Hy. destruct Hy as [->|Hy]; auto.
Qed.

Lemma order_by_head_least l : head_least key (order_by key l).
Proof.
  induction l as [|x l IH]; simpl; [exact I|].
  apply insert_by_head_least, IH.
Qed.

Lemma first_order_by_None l : first (order_by key l) = None -> l = [].
Proof.
  destruct l as [|x l]; [reflexivity|]. simpl.
  destruct (order_by key l) as [|z r]; simpl; [discriminate|].
  destruct (key x <? key z); discriminate.
Qed.

Lemma first_order_by_Some l x :
  first (order_by key l) = Some x ->
  In x l /\ forall y, In y l -> key x <= key y.
Proof.
  intros H. pose proof (order_by_head_least l) as Hl.
  pose proof (fun y => order_by_In y l) as Hin.
  destruct (order_by key l) as [|z r]; simpl in H; [discriminate|].
  injection H as ->. split.
  - apply Hin. left. reflexivity.
  - intros y Hy. apply Hin in Hy. destruct Hy as [<-|Hy]; [lia|].
    apply Hl, Hy.
Qed.

Lemma first_order_by_exists l x :
  In x l -> exists y, first (order_by key l) = Some y.
Proof.
  intros Hx. destruct (first (order_by key l)) as [y|] eqn:E.
  - exists y. reflexivity.
  - apply first_order_by_None in E. subst l. destruct Hx.
Qed.
End QuerysetFacts.

(** ** The status of a product *)

Lemma lotes_em_estoque_spec db self l :
  In l (lotes_em_estoque db self) <-> in_stock db self l.
Proof.
  unfold lotes_em_estoque, in_stock. rewrite filter_In.
  rewrite !andb_true_iff, Z.eqb_eq, N.ltb_lt. tauto.
Qed.

Lemma lote_mais_proximo_None db self :
  lote_mais_proximo db self = None <-> forall l, ~ in_stock db self l.
Proof.
  unfold lote_mais_proximo. split.
  - intros H l Hl. apply first_order_by_None in H.
    apply lotes_em_estoque_spec in Hl. rewrite H in Hl. exact Hl.
  - intros H. destruct (lotes_em_estoque db self) as [|x r] eqn:E.
    + reflexivity.
    + exfalso. apply (H x), lotes_em_estoque_spec. rewrite E. left. reflexivity.
Qed.

Lemma lote_mais_proximo_Some db self l :
  lote_mais_proximo db self = Some l ->
  in_stock db self l /\
  forall l', in_stock db self l' ->
             toordinal (data_validade l) <= toordinal (data_validade l').
Proof.
  unfold lote_mais_proximo. intros H.
  apply first_order_by_Some in H. destruct H as [Hin Hmin]. split.
  - apply lotes_em_estoque_spec, Hin.
  - intros l' Hl'. apply Hmin, lotes_em_estoque_spec, Hl'.
Qed.

Lemma dias_critico_nonneg config : 0 <= dias_critico config.
Proof. destruct config; simpl; lia. Qed.

Lemma get_status_classify db hoje self config l :
  lote_mais_proximo db self = Some l ->
  get_status db hoje self config =
  classify hoje l (dias_critico (resolve_config db self config))
                  (dias_pre_bloqueio (resolve_config db self config)).
Proof.
  intros H. unfold get_status, classify. rewrite H. cbv zeta.
  destruct (_ <? 0); [reflexivity|].
  destruct (_ <=? dias_critico _); [reflexivity|].
  destruct (_ <=? dias_pre_bloqueio _); reflexivity.
Qed.

Lemma configuracao_alerta_unique db u c :
  unit_config db u c ->
  (forall c', unit_config db u c' -> c' = c) ->
  configuracao_alerta db u = Some c.
Proof.
  intros [Hin Hu] Huniq. unfold configuracao_alerta.
  destruct (find _ (configs db)) as [c'|] eqn:E.
  - apply find_some in E. destruct E as [Hin' Hp].
    destruct (unidade c') as [u'|] eqn:Eu; [|discriminate].
    apply Z.eqb_eq in Hp. subst u'.
    f_equal. apply Huniq. split; assumption.
  - exfalso. apply (find_none _ _ E) in Hin. rewrite Hu, Z.eqb_refl in Hin.
    discriminate.
Qed.

Lemma configuracao_alerta_absent db u :
  (forall c, ~ unit_config db u c) -> configuracao_alerta db u = None.
Proof.
  intros Hno. unfold configuracao_alerta.
  destruct (find _ (configs db)) as [c'|] eqn:E; [|reflexivity].
  apply find_some in E. destruct E as [Hin' Hp].
  destruct (unidade c') as [u'|] eqn:Eu; [|discriminate].
  apply Z.eqb_eq in Hp. subst u'. exfalso. apply (Hno c'). split; assumption.
Qed.

Lemma configuracao_alerta_Some db u c :
  configuracao_alerta db u = Some c -> unit_config db u c.
Proof.
  unfold configuracao_alerta. intros E. apply find_some in E.
  destruct E as [Hin Hp]. split; [assumption|].
  destruct (unidade c) as [u'|]; [|discriminate].
  apply Z.eqb_eq in Hp. congruence.
Qed.

Lemma active_global_In db g :
  In g (filter (fun c => match unidade c with
                         | None => cfg_ativo c
                         | Some _ => false
                         end) (configs db))
  <-> global_config db g /\ cfg_ativo g = true.
Proof.
  rewrite filter_In. unfold global_config.
  destruct (unidade g); intuition congruence.
Qed.

Lemma configuracao_global_Some db g :
  configuracao_global db = Some g ->
  global_config db g /\ cfg_ativo g = true /\
  forall g', global_config db g' -> cfg_ativo g' = true -> cfg_id g <= cfg_id g'.
Proof.
  unfold configuracao_global. intros E.
  apply first_order_by_Some in E. destruct E as [Hin Hmin].
  apply active_global_In in Hin. destruct Hin as [Hg Ha].
  repeat split; try assumption; try apply Hg.
  intros g' Hg' Ha'. apply Hmin, active_global_In. split; assumption.
Qed.

Lemma configuracao_global_least db g :
  global_config db g -> cfg_ativo g = true ->
  (forall g', global_config db g' -> cfg_ativo g' = true ->
              cfg_id g < cfg_id g' \/ g' = g) ->
  configuracao_global db = Some g.
Proof.
  intros Hg Ha Hleast.
  assert (Hin : In g (filter (fun c => match unidade c with
                                       | None => cfg_ativo c
                                       | Some _ => false
                                       end) (configs db)))
    by (apply active_global_In; split; assumption).
  destruct (first_order_by_exists cfg_id _ _ Hin) as [x Hx].
  pose proof Hx as Hx'. apply configuracao_global_Some in Hx'.
  destruct Hx' as [Hgx [Hax Hmin]].
  destruct (Hleast x Hgx Hax) as [Hlt| ->]; [|exact Hx].
  specialize (Hmin g Hg Ha). lia.
Qed.

Lemma configuracao_global_None db :
  (forall g, global_config db g -> cfg_ativo g = false) ->
  configuracao_global db = None.
Proof.
  intros Hno. destruct (configuracao_global db) as [g|] eqn:E; [|reflexivity].
  apply configuracao_global_Some in E. destruct E as [Hg [Ha _]].
  rewrite (Hno g Hg) in Ha. discriminate.
Qed.

(** C1. When the product has a nearest lot and the effective thresholds
    satisfy critical < pre-block, [get_status] reports the days remaining
    and that lot, and classifies by the first rule that matches: below zero
    VENCIDO/preto, up to the critical threshold CRITICO/vermelho, up to the
    pre-block threshold PRE_BLOQUEIO/amarelo, above it OK/verde; exactly the
    critical threshold is CRITICO and one day more is PRE_BLOQUEIO. *)
Theorem get_status_buckets db hoje self config l :
  lote_mais_proximo db self = Some l ->
  dias_critico (resolve_config db self config)
  < dias_pre_bloqueio (resolve_config db self config) ->
  let critico := dias_critico (resolve_config db self config) in
  let pre := dias_pre_bloqueio (resolve_config db self config) in
  let dias := days_between (data_validade l) hoje in
  let st := get_status db hoje self config in
  dias_restantes st = Some dias /\ lote st = Some l /\
  (dias < 0 -> status st = "VENCIDO"%string /\ cor st = "preto"%string) /\
  (0 <= dias <= critico ->
   status st = "CRITICO"%string /\ cor st = "vermelho"%string) /\
  (critico < dias <= pre ->
   status st = "PRE_BLOQUEIO"%string /\ cor st = "amarelo"%string) /\
  (pre < dias -> status st = "OK"%string /\ cor st = "verde"%string) /\
  (dias = critico -> status st = "CRITICO"%string) /\
  (dias = critico + 1 -> critico + 1 <= pre ->
   status st = "PRE_BLOQUEIO"%string).
Proof.
  intros Hl Hlt critico pre dias st.
  pose proof (dias_critico_nonneg (resolve_config db self config)) as Hc.
  fold critico in Hc, Hlt. fold pre in Hlt.
  assert (Hst : st = classify hoje l critico pre)
    by (apply get_status_classify; exact Hl).
  rewrite Hst. unfold classify. fold dias. cbv zeta.
  destruct (dias <? 0) eqn:E0;
    [apply Z.ltb_lt in E0 | apply Z.ltb_ge in E0];
    (destruct (dias <=? critico) eqn:E1;
     [apply Z.leb_le in E1 | apply Z.leb_gt in E1]);
    (destruct (dias <=? pre) eqn:E2;
     [apply Z.leb_le in E2 | apply Z.leb_gt in E2]);
    simpl; repeat split; intros; try reflexivity; lia.
Qed.

(** C1, at the sample product with the defaults: its nearest lot expires in
    10 days. *)
Lemma get_status_buckets_witness :
  let st := get_status (sample_db []) sample_hoje sample_sku None in
  dias_restantes st = Some 10 /\
  lote st = Some (sample_lote 3 "L1" (mkdate 2025 1 11) 5 true) /\
  (10 < 0 -> status st = "VENCIDO"%string /\ cor st = "preto"%string) /\
  (0 <= 10 <= 30 ->
   status st = "CRITICO"%string /\ cor st = "vermelho"%string) /\
  (30 < 10 <= 45 ->
   status st = "PRE_BLOQUEIO"%string /\ cor st = "amarelo"%string) /\
  (45 < 10 -> status st = "OK"%string /\ cor st = "verde"%string) /\
  (10 = 30 -> status st = "CRITICO"%string) /\
  (10 = 30 + 1 -> 30 + 1 <= 45 -> status st = "PRE_BLOQUEIO"%string).
Proof.
  apply (get_status_buckets (sample_db []) sample_hoje sample_sku None
           (sample_lote 3 "L1" (mkdate 2025 1 11) 5 true)).
  - reflexivity.
  - simpl. lia.
Defined.

(** C6. A product without an active lot in stock is SEM_ESTOQUE, grey, with
    neither days nor lot, whatever the configuration; otherwise the lot
    reported is an active lot of the product with stock whose date is the
    earliest among those. *)
Theorem get_status_sem_estoque_or_nearest db hoje self config :
  ((forall l, ~ in_stock db self l) ->
   get_status db hoje self config =
   {| status := "SEM_ESTOQUE"; cor := "cinza";
      dias_restantes := None; lote := None |})
  /\
  (forall l0, in_stock db self l0 ->
   exists l, lote (get_status db hoje self config) = Some l /\
             in_stock db self l /\
             forall l', in_stock db self l' ->
                        toordinal (data_validade l)
                        <= toordinal (data_validade l')).
Proof.
  split.
  - intros Hno. apply lote_mais_proximo_None in Hno.
    unfold get_status. rewrite Hno. reflexivity.
  - intros l0 Hl0.
    destruct (lote_mais_proximo db self) as [l|] eqn:E.
    + exists l. rewrite (get_status_classify _ _ _ _ _ E).
      split; [reflexivity|]. apply lote_mais_proximo_Some, E.
    + exfalso. rewrite lote_mais_proximo_None in E. exact (E l0 Hl0).
Qed.

(** C6, run on a product whose lots are empty or inactive (with a
    configuration supplied), and on the sample product. *)
Lemma get_status_sem_estoque_or_nearest_witness :
  get_status (sample_db_empty [sample_config 1 None 5 9 true]) sample_hoje
    sample_sku (Some (sample_config 2 (Some 1) 60 90 true))
  = {| status := "SEM_ESTOQUE"; cor := "cinza";
       dias_restantes := None; lote := None |}
  /\
  exists l, lote (get_status (sample_db []) sample_hoje sample_sku None)
            = Some l /\
            in_stock (sample_db []) sample_sku l /\
            forall l', in_stock (sample_db []) sample_sku l' ->
                       toordinal (data_validade l)
                       <= toordinal (data_validade l').
Proof.
  split.
  - apply (proj1 (get_status_sem_estoque_or_nearest
                    (sample_db_empty [sample_config 1 None 5 9 true])
                    sample_hoje sample_sku
                    (Some (sample_config 2 (Some 1) 60 90 true)))).
    intros l (Hin & _ & Ha & Hq). simpl in Hin.
    destruct Hin as [<-|[<-|[]]]; simpl in *; try lia; discriminate.
  - apply (proj2 (get_status_sem_estoque_or_nearest
                    (sample_db []) sample_hoje sample_sku None)
                 (sample_lote 2 "L2" (mkdate 2025 2 10) 7 true)).
    unfold in_stock. simpl. repeat split; auto.
Defined.

(** C2 as stated fails: with no caller configuration, no unit configuration
    and a single global configuration (10, 20) that is switched off, the
    stated precedence selects the global row, under which a lot expiring in
    25 days is OK, whereas [get_status] falls through to the defaults
    (30, 45) and answers CRITICO. *)
Lemma get_status_ignores_inactive_global :
  let g := sample_config 1 None 10 20 false in
  let db := sample_db_25 [g] in
  let l := sample_lote 1 "L1" (mkdate 2025 1 26) 5 true in
  global_config db g /\
  configuracao_alerta db (unidade_negocio sample_sku) = None /\
  resolve_config_spec db sample_sku None = Some g /\
  resolve_config db sample_sku None = None /\
  lote_mais_proximo db sample_sku = Some l /\
  status (classify sample_hoje l 10 20) = "OK"%string /\
  status (get_status db sample_hoje sample_sku None) = "CRITICO"%string /\
  get_status db sample_hoje sample_sku None
  <> classify sample_hoje l (dias_critico (resolve_config_spec db sample_sku None))
       (dias_pre_bloqueio (resolve_config_spec db sample_sku None)).
Proof.
  cbv zeta. repeat split; try reflexivity.
  - simpl. auto.
  - vm_compute. discriminate.
Qed.

(** C2, amended.  For a product with a nearest lot, [get_status] classifies
    with the thresholds of: the caller's configuration when one is given;
    else the configuration of the product's unit when there is one; else the
    active global configuration with the lowest primary key; else 30 and
    45.  A global configuration that is switched off is never used. *)
Theorem get_status_config_precedence db hoje self config l :
  lote_mais_proximo db self = Some l ->
  (forall c, config = Some c ->
     get_status db hoje self config =
     classify hoje l (Z.of_N (dias_para_critico c))
                     (Z.of_N (dias_para_pre_bloqueio c)))
  /\
  (config = None ->
   forall c, unit_config db (unidade_negocio self) c ->
     (forall c', unit_config db (unidade_negocio self) c' -> c' = c) ->
     get_status db hoje self config =
     classify hoje l (Z.of_N (dias_para_critico c))
                     (Z.of_N (dias_para_pre_bloqueio c)))
  /\
  (config = None ->
   (forall c, ~ unit_config db (unidade_negocio self) c) ->
   forall g, global_config db g -> cfg_ativo g = true ->
     (forall g', global_config db g' -> cfg_ativo g' = true ->
                 cfg_id g < cfg_id g' \/ g' = g) ->
     get_status db hoje self config =
     classify hoje l (Z.of_N (dias_para_critico g))
                     (Z.of_N (dias_para_pre_bloqueio g)))
  /\
  (config = None ->
   (forall c, ~ unit_config db (unidade_negocio self) c) ->
   (forall g, global_config db g -> cfg_ativo g = false) ->
   get_status db hoje self config = classify hoje l 30 45).
Proof.
  intros Hl. rewrite (get_status_classify _ _ _ _ _ Hl).
  repeat split.
  - intros c ->. reflexivity.
  - intros -> c Hc Huniq. simpl.
    rewrite (configuracao_alerta_unique _ _ _ Hc Huniq). reflexivity.
  - intros -> Hno g Hg Ha Hleast. simpl.
    rewrite (configuracao_alerta_absent _ _ Hno).
    rewrite (configuracao_global_least _ _ Hg Ha Hleast). reflexivity.
  - intros -> Hno Hnog. simpl.
    rewrite (configuracao_alerta_absent _ _ Hno).
    rewrite (configuracao_global_None _ Hnog). reflexivity.
Qed.

(** C2 amended, at the sample product: with a unit configuration (60, 90)
    next to an active global one (5, 9), the lot expiring in 10 days is
    classified with 60 and 90. *)
Lemma get_status_config_precedence_witness :
  get_status (sample_db [sample_config 1 None 5 9 true;
                         sample_config 2 (Some 1) 60 90 true])
    sample_hoje sample_sku None
  = classify sample_hoje (sample_lote 3 "L1" (mkdate 2025 1 11) 5 true) 60 90.
Proof.
  refine (proj1 (proj2 (get_status_config_precedence
            (sample_db [sample_config 1 None 5 9 true;
                        sample_config 2 (Some 1) 60 90 true])
            sample_hoje sample_sku None
            (sample_lote 3 "L1" (mkdate 2025 1 11) 5 true) eq_refl))
          eq_refl (sample_config 2 (Some 1) 60 90 true) _ _).
  - split; [simpl; auto | reflexivity].
  - intros c' [Hin Hu]. simpl in Hin.
    destruct Hin as [<-|[<-|[]]]; [discriminate | reflexivity].
Defined.

(** C10. When the product's unit has a configuration, [get_status] called
    without one classifies with the unit's thresholds whatever that row's
    active flag; switching the row off changes no answer; and a global
    configuration is selected only when it is active. *)
Theorem get_status_unit_config_ignores_ativo db hoje self c :
  unit_config db (unidade_negocio self) c ->
  (forall c', unit_config db (unidade_negocio self) c' -> c' = c) ->
  (dias_critico (resolve_config db self None) = Z.of_N (dias_para_critico c)
   /\ dias_pre_bloqueio (resolve_config db self None)
      = Z.of_N (dias_para_pre_bloqueio c))
  /\
  (forall l, lote_mais_proximo db self = Some l ->
     get_status db hoje self None =
     classify hoje l (Z.of_N (dias_para_critico c))
                     (Z.of_N (dias_para_pre_bloqueio c)))
  /\
  get_status (deactivate_unit_config db (unidade_negocio self)) hoje self None
  = get_status db hoje self None
  /\
  (forall db' self' g, resolve_config db' self' None = Some g ->
                       unidade g = None -> cfg_ativo g = true).
Proof.
  intros Hc Huniq.
  assert (Hr : resolve_config db self None = Some c).
  { simpl. rewrite (configuracao_alerta_unique _ _ _ Hc Huniq). reflexivity. }
  repeat split.
  - rewrite Hr. reflexivity.
  - rewrite Hr. reflexivity.
  - intros l Hl. rewrite (get_status_classify _ _ _ _ _ Hl), Hr. reflexivity.
  - assert (Hd : exists c', resolve_config
                              (deactivate_unit_config db (unidade_negocio self))
                              self None = Some c'
                            /\ dias_para_critico c' = dias_para_critico c
                            /\ dias_para_pre_bloqueio c'
                               = dias_para_pre_bloqueio c).
    { pose proof (configuracao_alerta_unique _ _ _ Hc Huniq) as Hf.
      unfold resolve_config, configuracao_alerta in *. simpl.
      revert Hf. generalize (configs db) as cs. clear.
      induction cs as [|x cs IH]; simpl; [discriminate|].
      destruct (unidade x) as [u'|] eqn:Eu.
      - destruct (u' =? unidade_negocio self) eqn:Eq; simpl.
        + rewrite ?Eu, ?Eq. intros [= ->]. eexists. split; [reflexivity|].
          split; reflexivity.
        + rewrite ?Eu, ?Eq. exact IH.
      - rewrite ?Eu. exact IH. }
    destruct Hd as [c' [Hr' [H1 H2]]].
    unfold get_status. simpl lotes.
    change (lote_mais_proximo
              (deactivate_unit_config db (unidade_negocio self)) self)
      with (lote_mais_proximo db self).
    destruct (lote_mais_proximo db self); [|reflexivity].
    rewrite Hr, Hr'. simpl. rewrite H1, H2. reflexivity.
  - intros db' self' g Hg Hu. simpl in Hg.
    destruct (configuracao_alerta db' (unidade_negocio self')) as [c0|] eqn:E.
    + injection Hg as ->. apply configuracao_alerta_Some in E.
      destruct E as [_ E]. congruence.
    + apply configuracao_global_Some in Hg. tauto.
Qed.

(** C10, at the sample product: its unit's configuration (60, 90) is
    switched off and an active global one (5, 9) exists; the lot expiring in
    10 days is still classified with 60 and 90. *)
Lemma get_status_unit_config_ignores_ativo_witness :
  get_status (sample_db [sample_config 1 None 5 9 true;
                         sample_config 2 (Some 1) 60 90 false])
    sample_hoje sample_sku None
  = classify sample_hoje (sample_lote 3 "L1" (mkdate 2025 1 11) 5 true) 60 90.
Proof.
  refine (proj1 (proj2 (get_status_unit_config_ignores_ativo
            (sample_db [sample_config 1 None 5 9 true;
                        sample_config 2 (Some 1) 60 90 false])
            sample_hoje sample_sku (sample_config 2 (Some 1) 60 90 false)
            _ _))
          (sample_lote 3 "L1" (mkdate 2025 1 11) 5 true) eq_refl).
  - split; [simpl; auto | reflexivity].
  - intros c' [Hin Hu]. simpl in Hin.
    destruct Hin as [<-|[<-|[]]]; [discriminate | reflexivity].
Defined.

(** ** The importers: symbolic execution *)

(** Splits on the innermost scrutinee of the goal. *)
Ltac break_match :=
  match goal with
  | |- context [match ?x with _ => _ end] =>
      lazymatch x with
      | context [match _ with _ => _ end] => fail
      | _ => destruct x eqn:?
      end
  end.

Ltac unfold_monad :=
  cbv beta delta
    [try_except get_or_create objects_get SKU_save BASE_get_or_create
     getattr_undeclared row_get py_int linha
     append_error append_warning incr_processed incr_created incr_updated
     _reset_counters _read_file check_required get_self put_self get_db
     put_db bind ret raise Exception set_skus] in *.

Ltac exec := unfold_monad; repeat (break_match; simpl in *; try discriminate).

Ltac solve_app := first [reflexivity | symmetry; apply app_nil_r].

Ltac step_tail :=
  cbv zeta; simpl;
  (split; [solve_app|]); (split; [solve_app|]);
  repeat match goal with
         | |- _ /\ _ => split
         | |- forall _, _ => intro
         end;
  first [reflexivity | discriminate | simpl List.length in *; lia].

(** Closes an instance of [step_rel] between two explicit services. *)
Ltac solve_step :=
  split; [reflexivity|];
  first [ solve [exists [], []; step_tail]
        | solve [eexists [_], []; step_tail]
        | solve [eexists [], [_]; step_tail] ].

Section ImportFacts.
Context {P : Platform}.

Lemma fill_column_pure df col scalar f w :
  snd (fill_column df col scalar f w) = w.
Proof. unfold fill_column. exec; reflexivity. Qed.

Lemma frame_pure i file w : snd (frame i file w) = w.
Proof.
  destruct i; simpl; unfold grade_frame, contagens_frame, fill_column;
    exec; reflexivity.
Qed.

Lemma row_body_step i ir w :
  step_rel (svc w) (fst (row_body i ir w)) (svc (snd (row_body i ir w))).
Proof.
  destruct i; simpl; unfold grade_row, contagens_row; exec; solve_step.
Qed.

(** No turn of either loop writes a lot or a configuration: the lookup of
    the BASE lot raises, and so does the total of a count. *)
Lemma row_body_lotes i ir w :
  lotes (db (snd (row_body i ir w))) = lotes (db w)
  /\ configs (db (snd (row_body i ir w))) = configs (db w).
Proof.
  destruct i; simpl; unfold grade_row, contagens_row; exec;
    split; reflexivity.
Qed.

(** A turn of the loop of [processar_contagens] writes nothing. *)
Lemma contagens_row_db idx row w :
  db (snd (contagens_row idx row w)) = db w.
Proof. unfold contagens_row; exec; destruct w; reflexivity. Qed.

(** No turn of either loop counts its row as processed or as created. *)
Lemma row_body_not_counted i ir w :
  processed_count (svc (snd (row_body i ir w))) = processed_count (svc w)
  /\ created_count (svc (snd (row_body i ir w))) = created_count (svc w).
Proof.
  destruct i; simpl; unfold grade_row, contagens_row; exec;
    split; reflexivity.
Qed.

(** An import call never raises: it answers with one of the two
    dictionaries. *)
Lemma processar_unfold i file w :
  processar i file w =
  match frame i file (reset w) with
  | (inl e, _) => (inr (falha e), reset w)
  | (inr df, _) =>
      match for_each (iterrows df) (row_body i) (reset w) with
      | (inl e, w1) => (inr (falha e), w1)
      | (inr _, w1) =>
          (inr (Result (result_of (tipo_of i) (svc w1))), w1)
      end
  end.
Proof.
  pose proof (frame_pure i file (reset w)) as Hp.
  destruct i; simpl in *;
    unfold processar_grade_020502, processar_grade_020502_body,
      processar_contagens, processar_contagens_body, atomic, _build_result;
    unfold_monad; simpl;
    change {| db := db w;
              svc := EstoqueImportService_init (svc_unidade_negocio (svc w)) |}
      with (reset w).
  - destruct (grade_frame file (reset w)) as [[e|df] w0]; simpl in *;
      subst w0; [reflexivity|].
    change (fun ir : label * Row => grade_row (fst ir) (snd ir))
      with (row_body (P := P) Grade020502).
    destruct (for_each (iterrows df) (row_body Grade020502) (reset w))
      as [[e|[]] w1]; reflexivity.
  - destruct (contagens_frame file (reset w)) as [[e|df] w0]; simpl in *;
      subst w0; [reflexivity|].
    change (fun ir : label * Row => contagens_row (fst ir) (snd ir))
      with (row_body (P := P) Contagens).
    destruct (for_each (iterrows df) (row_body Contagens) (reset w))
      as [[e|[]] w1]; reflexivity.
Qed.
End ImportFacts.

(** ** Loops whose turns satisfy [step_rel] *)

Lemma count_cons p o os :
  count p (o :: os) = (if p o then 1 else 0) + count p os.
Proof. unfold count. simpl. destruct (p o); simpl List.length; lia. Qed.

Lemma outcome_between_step s s' :
  step_rel s (inr tt) s' ->
  let o := outcome_between s s' in
  processed_count s' = processed_count s + (if is_processed o then 1 else 0)
  /\ Z.of_nat (List.length (errors s'))
     = Z.of_nat (List.length (errors s)) + (if is_errored o then 1 else 0)
  /\ Z.of_nat (List.length (warnings s'))
     = Z.of_nat (List.length (warnings s)) + (if is_warned o then 1 else 0).
Proof.
  intros [_ (es & ws & He & Hw & H)]. cbv zeta in H.
  destruct H as (H0 & _ & _ & _ & _ & H1 & _).
  unfold outcome_between. rewrite He, Hw, !length_app.
  destruct (processed_count s <? processed_count s') eqn:Ep;
    [apply Z.ltb_lt in Ep | apply Z.ltb_ge in Ep].
  - simpl. lia.
  - destruct (_ <? _)%nat eqn:Ee;
      [apply Nat.ltb_lt in Ee | apply Nat.ltb_ge in Ee].
    + simpl. lia.
    + destruct (_ <? _)%nat eqn:Ew;
        [apply Nat.ltb_lt in Ew | apply Nat.ltb_ge in Ew]; simpl; lia.
Qed.

Section Loops.
Context {A : Type} (body : A -> M unit).
Hypothesis body_step :
  forall x w, step_rel (svc w) (fst (body x w)) (svc (snd (body x w))).

Lemma for_each_counts rows : forall w w',
  for_each rows body w = (inr tt, w') ->
  let os := outcomes body rows w in
  let s := svc w in
  let s' := svc w' in
  List.length os = List.length rows
  /\ svc_unidade_negocio s' = svc_unidade_negocio s
  /\ processed_count s' = processed_count s + count is_processed os
  /\ Z.of_nat (List.length (errors s'))
     = Z.of_nat (List.length (errors s)) + count is_errored os
  /\ Z.of_nat (List.length (warnings s'))
     = Z.of_nat (List.length (warnings s)) + count is_warned os
  /\ processed_count s' - processed_count s
     <= (created_count s' + updated_count s')
        - (created_count s + updated_count s)
  /\ (created_count s' + updated_count s')
     - (created_count s + updated_count s)
     <= (processed_count s' - processed_count s)
        + (Z.of_nat (List.length (errors s'))
           - Z.of_nat (List.length (errors s))).
Proof.
  induction rows as [|x rows IH]; intros w w' H; simpl in *.
  - injection H as <-. unfold count. simpl. repeat split; lia.
  - unfold bind in H. pose proof (body_step x w) as Hs.
    destruct (body x w) as [[e|[]] w1]; [discriminate|]. simpl in Hs.
    specialize (IH _ _ H). cbv zeta in IH.
    destruct IH as (I1 & I2 & I3 & I4 & I5 & I6 & I7).
    pose proof (outcome_between_step _ _ Hs) as Ho. cbv zeta in Ho.
    destruct Ho as (O1 & O2 & O3).
    destruct Hs as [Hu (es & ws & He & Hw & Hs)]. cbv zeta in Hs.
    destruct Hs as (S0 & S1 & S2 & S3 & S4 & S5 & _ & S7).
    specialize (S7 eq_refl).
    pose proof (f_equal (@List.length _) He) as Hl.
    rewrite length_app in Hl.
    rewrite !count_cons. simpl List.length.
    repeat split; try lia; congruence.
Qed.
End Loops.

(** ** Loops whose turns leave a quantity alone *)

Lemma for_each_unchanged {A B} (body : A -> M unit) (f : World -> B) :
  (forall x w, f (snd (body x w)) = f w) ->
  forall rows w, f (snd (for_each rows body w)) = f w.
Proof.
  intros Hb. induction rows as [|x rows IH]; intros w; simpl; [reflexivity|].
  unfold bind. specialize (Hb x w).
  destruct (body x w) as [[e|[]] w1]; simpl in *; [exact Hb|].
  rewrite IH. exact Hb.
Qed.
(** ** The counters of an import call *)

Lemma count_nonneg p os : 0 <= count p os.
Proof. unfold count. lia. Qed.

Section CounterClaims.
Context {P : Platform}.

(** What an import call that reaches [_build_result] returns, and the
    sums its loop kept. *)
Lemma processar_Result i file w r w' :
  processar i file w = (inr (Result r), w') ->
  r = result_of (tipo_of i) (svc w') /\
  let os := row_outcomes i file w in
  processed_count (svc w') = count is_processed os
  /\ Z.of_nat (List.length (errors (svc w'))) = count is_errored os
  /\ Z.of_nat (List.length (warnings (svc w'))) = count is_warned os
  /\ processed_count (svc w')
     <= created_count (svc w') + updated_count (svc w')
  /\ created_count (svc w') + updated_count (svc w')
     <= processed_count (svc w')
        + Z.of_nat (List.length (errors (svc w'))).
Proof.
  rewrite processar_unfold. unfold row_outcomes.
  change (snd (_reset_counters w)) with (reset w).
  pose proof (frame_pure i file (reset w)) as Hp.
  destruct (frame i file (reset w)) as [[e|df] w0]; [discriminate|].
  simpl in Hp. subst w0.
  destruct (for_each (iterrows df) (row_body i) (reset w))
    as [[e|[]] w1] eqn:E; [discriminate|].
  intros [= <- <-]. split; [reflexivity|].
  pose proof (for_each_counts (row_body i) (row_body_step i) _ _ _ E) as H.
  cbv zeta in *. simpl in H. lia.
Qed.

(** No import call counts a row as processed or as created: the result
    dictionary of either importer always says [processed = 0] and
    [created = 0], and its [success] flag is that of an empty [errors]
    list. *)
Lemma processar_never_counts i file w r w' :
  processar i file w = (inr (Result r), w') ->
  processed r = 0 /\ created r = 0
  /\ success r = Nat.eqb (List.length (res_errors r)) 0.
Proof.
  rewrite processar_unfold.
  destruct (frame i file (reset w)) as [[e|df] w0]; [discriminate|].
  pose proof (for_each_unchanged (row_body i)
                (fun w => processed_count (svc w))
                (fun x w => proj1 (row_body_not_counted i x w))
                (iterrows df) (reset w)) as Hp.
  pose proof (for_each_unchanged (row_body i)
                (fun w => created_count (svc w))
                (fun x w => proj2 (row_body_not_counted i x w))
                (iterrows df) (reset w)) as Hc.
  destruct (for_each (iterrows df) (row_body i) (reset w))
    as [[e|[]] w1]; [discriminate|].
  intros [= <- <-]. simpl in *. rewrite Hp. simpl.
  rewrite orb_false_r. repeat split; assumption.
Qed.

(** C9. When an import call returns a result whose [errors] list is
    empty, processed = created + updated; indeed the three counters are 0,
    since no row is ever counted as processed or created and a row that is
    counted as updated ends in [errors].  A turn of the loop that counts
    its row as processed raises exactly one of [created] and [updated] by
    one, and a turn that ends without an error and without counting the
    row (a blank code, or a warning) changes neither. *)
Theorem import_counters_balance i file w r w' :
  processar i file w = (inr (Result r), w') ->
  res_errors r = [] ->
  processed r = created r + updated r
  /\
  (processed r = 0 /\ created r = 0 /\ updated r = 0)
  /\
  forall ir w0,
    let s := svc w0 in
    let s1 := svc (snd (row_body i ir w0)) in
    (processed_count s1 = processed_count s + 1 ->
     (created_count s1 = created_count s + 1
      /\ updated_count s1 = updated_count s)
     \/ (created_count s1 = created_count s
         /\ updated_count s1 = updated_count s + 1))
    /\
    (fst (row_body i ir w0) = inr tt -> errors s1 = errors s ->
     processed_count s1 = processed_count s ->
     created_count s1 = created_count s
     /\ updated_count s1 = updated_count s).
Proof.
  intros H He. pose proof (processar_never_counts _ _ _ _ _ H) as (Z1 & Z2 & _).
  apply processar_Result in H. destruct H as [-> H].
  cbv zeta in H. simpl in *. rewrite He in H. simpl in H.
  split; [lia|]. split; [lia|].
  intros ir w0. pose proof (row_body_step i ir w0) as Hs.
  destruct Hs as [_ (es & ws & Hes & _ & Hs)]. cbv zeta in Hs.
  destruct Hs as (S0 & S1 & S2 & S3 & S4 & S5 & _ & S7). split.
  - intros Hp. lia.
  - intros Hr Herr Hp. specialize (S7 Hr).
    rewrite Herr in Hes. rewrite <- (app_nil_r (errors (svc w0))) in Hes at 1.
    apply app_inv_head in Hes. subst es. simpl in S7. lia.
Qed.
End CounterClaims.

(** C9, on a count sheet of an unknown product and a blank line: one
    warning, no error, and the three counters at 0. *)
Lemma import_counters_balance_witness :
  exists r w',
    processar (P := sample_platform) Contagens sample_contagens_unknown
      (sample_world (sample_db [])) = (inr (Result r), w')
    /\ res_errors r = []
    /\ res_warnings r = ["Linha 2: SKU 'SKU999' não encontrado"%string]
    /\ processed r = created r + updated r
    /\ processed r = 0.
Proof.
  eexists _, _. split; [vm_compute; reflexivity|].
  split; [reflexivity|]. split; [reflexivity|].
  pose proof (import_counters_balance (P := sample_platform) Contagens
                sample_contagens_unknown (sample_world (sample_db []))
                _ _ ltac:(vm_compute; reflexivity) eq_refl)
    as (H1 & (H2 & _) & _).
  split; [exact H1 | exact H2].
Defined.

(** C5 (defect).  The [success] flag of every result is (no errors) or
    (processed > 0); but no row is ever counted as processed, so the flag
    is that of an empty [errors] list.  On a count sheet of two rows, a
    count of a stored product under a date that parses and a row that names
    an unknown product, the call returns processed = 0 and not 1: the count
    ends in [errors] (the total reads [sku.fator_conversao], which a [SKU]
    does not have), the unknown product in [warnings], [success] is false,
    and nothing is written. *)
Theorem import_one_failing_row_of_two :
  let w := sample_world (sample_db []) in
  let run := processar (P := sample_platform) Contagens sample_contagens_2 w in
  fst run
  = inr (Result {| success := false; tipo := "Contagens";
                   res_unidade := "UNB01 - Matriz";
                   processed := 0; created := 0; updated := 0;
                   res_errors :=
                     ["Linha 2: 'SKU' object has no attribute 'fator_conversao'"%string];
                   res_warnings :=
                     ["Linha 3: SKU 'SKU999' não encontrado"%string];
                   timestamp := "2025-01-01T08:00:00+00:00" |})
  /\ db (snd run) = db w
  /\ forall (Pl : Platform) i file w0 r w',
       processar (P := Pl) i file w0 = (inr (Result r), w') ->
       success r
       = (Nat.eqb (List.length (res_errors r)) 0) || (0 <? processed r)
       /\ processed r = 0.
Proof.
  cbv zeta. split; [vm_compute; reflexivity|].
  split; [vm_compute; reflexivity|].
  intros Pl i file w0 r w' H.
  pose proof (processar_never_counts _ _ _ _ _ H) as (Z1 & _ & Z3).
  split; [|exact Z1]. rewrite Z3, Z1. simpl. rewrite orb_false_r. reflexivity.
Qed.

(** ** One row of a count sheet *)


Lemma row_cell_find row col c :
  row_cell row col = Some c ->
  exists k, find (fun p => String.eqb (fst p) col) row = Some (k, c).
Proof.
  unfold row_cell. destruct (find _ row) as [[k c']|]; simpl; [|discriminate].
  intros [= ->]. exists k. reflexivity.
Qed.

Lemma append_assoc3 (a b c : string) :
  ((a +++ b) +++ c = a +++ b +++ c)%string.
Proof.
  induction a as [|x a IH]; simpl; [reflexivity|]. rewrite IH. reflexivity.
Qed.

Section RowClaims.
Context {P : Platform}.

(** The loop of [processar_contagens] writes no product. *)
Lemma contagens_row_skus idx row w :
  skus (db (snd (contagens_row idx row w))) = skus (db w).
Proof. unfold contagens_row; exec; reflexivity. Qed.


(** C7 (defect).  A row of a count sheet whose code names the one active
    product of the unit and whose date parses is not upserted: after the
    two quantities are read, the total reads [sku.fator_conversao], which a
    [SKU] does not have, and [AttributeError] is raised.  Under a
    positional label the row ends in [errors]; no lot is overwritten or
    created, and the row counts neither as updated, nor as created, nor as
    processed.  Under a text label the message cannot be built either and
    [TypeError] leaves the loop. *)
Theorem contagens_row_total_raises row w c sku vc validade cx un :
  row_cell row "codigo_sku" = Some c ->
  let codigo := strip (py_str c) in
  is_blank codigo = false ->
  active_products (db w) (un_id (svc_unidade_negocio (svc w))) codigo
  = [sku] ->
  row_cell row "data_validade" = Some vc ->
  _parse_date vc = Some validade ->
  row_cell row "qtd_caixas" = Some (CInt cx) ->
  row_cell row "qtd_unidades" = Some (CInt un) ->
  (forall n,
     contagens_row (LInt n) row w
     = (inr tt,
        {| db := db w;
           svc := with_error (svc w)
                    ("Linha " +++ str_Z (n + 2)
                     +++ ": 'SKU' object has no attribute 'fator_conversao'")
        |}))
  /\
  (forall t,
     contagens_row (LStr t) row w
     = (inl (TypeError ("can only concatenate str (not " +++ dquote +++ "int"
                        +++ dquote +++ ") to str")), w)).
Proof.
  intros Hc codigo Hb Hsku Hv Hparse Hcx Hun.
  apply row_cell_find in Hc, Hv, Hcx, Hun.
  destruct Hc as [k1 Hc], Hv as [k2 Hv], Hcx as [k3 Hcx], Hun as [k4 Hun].
  unfold active_products in Hsku.
  split; intros x; unfold contagens_row; unfold_monad; rewrite Hc; simpl;
    fold codigo; rewrite Hb, Hsku; simpl; rewrite Hv; simpl;
    rewrite Hparse; simpl; rewrite Hcx; simpl; rewrite Hun; simpl.
  - unfold with_error. simpl. rewrite ?append_assoc3. reflexivity.
  - destruct w; reflexivity.
Qed.
End RowClaims.



(** C7, on the first row of the sample count sheet: 2 boxes and 3 units of
    the sample product for 11/01/2025, a date on which it has a lot. *)
Lemma contagens_row_total_raises_witness :
  let w := sample_world (sample_db []) in
  contagens_row (P := sample_platform) (LInt 0)
    (sample_row "SKU001" "11/01/2025" 2 3) w
  = (inr tt,
     {| db := db w;
        svc := with_error (svc w)
                 "Linha 2: 'SKU' object has no attribute 'fator_conversao'" |}).
Proof.
  cbv zeta.
  exact (proj1 (contagens_row_total_raises (P := sample_platform)
                  (sample_row "SKU001" "11/01/2025" 2 3)
                  (sample_world (sample_db [])) (CStr "SKU001") sample_sku
                  (CStr "11/01/2025") (mkdate 2025 1 11) 2 3
                  eq_refl eq_refl eq_refl eq_refl eq_refl eq_refl eq_refl) 0).
Defined.

(** ** Whole calls: what is written and what is kept *)

Section CallFacts.
Context {P : Platform}.

(** An import call always returns one of its two dictionaries, so the
    [atomic] wrapper never sees an exception and always keeps the
    writes. *)
Lemma processar_never_raises i file w :
  exists res, fst (processar i file w) = inr res.
Proof.
  rewrite processar_unfold.
  destruct (frame i file (reset w)) as [[e|df] w0]; [eexists; reflexivity|].
  destruct (for_each (iterrows df) (row_body i) (reset w)) as [[e|[]] w1];
    eexists; reflexivity.
Qed.

(** The dictionary of a failed call says [success = False] and
    [processed = 0]. *)
Lemma processar_Failure i file w f w' :
  processar i file w = (inr (Failure f), w') ->
  falha_success f = false /\ falha_processed f = 0.
Proof.
  rewrite processar_unfold.
  destruct (frame i file (reset w)) as [[e|df] w0].
  - intros [= <- _]. split; reflexivity.
  - destruct (for_each (iterrows df) (row_body i) (reset w))
      as [[e|[]] w1]; [|discriminate].
    intros [= <- _]. split; reflexivity.
Qed.

(** A failure before the loop (unreadable file, missing column) leaves
    the tables as they were. *)
Lemma processar_file_error i file w e :
  fst (frame i file (reset w)) = inl e ->
  processar i file w = (inr (falha e), reset w)
  /\ db (snd (processar i file w)) = db w.
Proof.
  intros H. rewrite processar_unfold.
  destruct (frame i file (reset w)) as [[e'|df] w0]; simpl in H;
    [|discriminate].
  injection H as ->. split; reflexivity.
Qed.

(** No import call changes the lot table. *)
Lemma processar_writes_no_lot i file w :
  lotes (db (snd (processar i file w))) = lotes (db w).
Proof.
  rewrite processar_unfold.
  destruct (frame i file (reset w)) as [[e|df] w0]; [reflexivity|].
  pose proof (for_each_unchanged (row_body i) (fun w => lotes (db w))
                (fun x w => proj1 (row_body_lotes i x w))
                (iterrows df) (reset w)) as Hl.
  destruct (for_each (iterrows df) (row_body i) (reset w))
    as [[e|[]] w1]; exact Hl.
Qed.

(** No call of [processar_contagens] changes a table. *)
Lemma processar_contagens_writes_nothing file w :
  db (snd (processar Contagens file w)) = db w.
Proof.
  rewrite processar_unfold.
  destruct (frame Contagens file (reset w)) as [[e|df] w0]; [reflexivity|].
  pose proof (for_each_unchanged (row_body Contagens) db
                (fun x w => contagens_row_db (fst x) (snd x) w)
                (iterrows df) (reset w)) as Hd.
  destruct (for_each (iterrows df) (row_body Contagens) (reset w))
    as [[e|[]] w1]; exact Hd.
Qed.

(** A row with a positional label never lets an exception out of its
    guard. *)
Lemma row_body_positional i n row w :
  fst (row_body i (LInt n, row) w) = inr tt.
Proof.
  destruct i; simpl; unfold grade_row, contagens_row; exec; reflexivity.
Qed.

Lemma for_each_positional i rows :
  forallb (fun ir => is_LInt (fst ir)) rows = true ->
  forall w, fst (for_each rows (row_body i) w) = inr tt.
Proof.
  induction rows as [|[idx row] rows IH]; intros H w; simpl in *;
    [reflexivity|].
  apply andb_true_iff in H. destruct H as [Hl Hr].
  destruct idx as [n|]; [|discriminate].
  unfold bind. pose proof (row_body_positional i n row w) as Hb.
  destruct (row_body i (LInt n, row) w) as [[e|[]] w1]; simpl in Hb;
    [discriminate|]. apply IH, Hr.
Qed.

Lemma frame_index i df w :
  match fst (frame i (Readable df) w) with
  | inr df' => index df' = index df
  | inl _ => True
  end.
Proof.
  destruct i; simpl; unfold grade_frame, contagens_frame, fill_column;
    exec;
    repeat match goal with
           | H : Readable _ = Readable _ |- _ => injection H as <-
           end;
    reflexivity.
Qed.

Lemma iterrows_positional df :
  forallb is_LInt (index df) = true ->
  forallb (fun ir => is_LInt (fst ir)) (iterrows df) = true.
Proof.
  unfold iterrows. generalize (map (combine (columns df)) (values df)).
  induction (index df) as [|idx l IH]; intros rows H; simpl; [reflexivity|].
  destruct rows as [|r rows]; [reflexivity|]. simpl in *.
  apply andb_true_iff in H. destruct H as [-> H]. simpl. apply IH, H.
Qed.

(** On a file read with positional row labels the only failures are those
    before the loop, so a failed call has written nothing. *)
Lemma processar_positional_failure i file w f w' :
  positional file = true ->
  processar i file w = (inr (Failure f), w') ->
  db w' = db w.
Proof.
  intros Hpos. rewrite processar_unfold.
  pose proof (frame_pure i file (reset w)) as Hp.
  destruct file as [reason|df].
  - destruct (frame i (Unreadable reason) (reset w)) as [[e|df'] w0] eqn:E.
    + intros [= _ <-]. reflexivity.
    + destruct i; simpl in E; unfold grade_frame, contagens_frame in E;
        unfold_monad; simpl in E; discriminate.
  - pose proof (frame_index i df (reset w)) as Hi.
    destruct (frame i (Readable df) (reset w)) as [[e|df'] w0].
    + intros [= _ <-]. reflexivity.
    + simpl in Hi, Hpos. rewrite <- Hi in Hpos.
      pose proof (for_each_positional i _ (iterrows_positional _ Hpos)
                    (reset w)) as Hf.
      destruct (for_each (iterrows df') (row_body i) (reset w))
        as [[e|[]] w1]; simpl in Hf; discriminate.
Qed.
End CallFacts.

(** C3 (defect).  No BASE lot is ever stored.  Importing the sample stock
    sheet (a product not yet stored) twice: in both calls the product is
    looked up, not found, and [get_or_create] raises [FieldError] on the
    default [fator_conversao] before it inserts anything; the row ends in
    [errors], the three counters stay 0, [success] is false and the tables
    are as before.  Importing twice the sheet of a stored product: in both
    calls the product is overwritten and counted as updated, then the
    lookup of the BASE lot raises [FieldError] on the default
    [estoque_display]; the row ends in [errors] and is not processed.  No
    import call, whatever the file, changes the lot table. *)
Theorem grade_import_stores_no_base_lot :
  let w0 := sample_world (sample_db []) in
  let run1 := processar (P := sample_platform) Grade020502 sample_grade w0 in
  let run2 :=
    processar (P := sample_platform) Grade020502 sample_grade (snd run1) in
  let known1 :=
    processar (P := sample_platform) Grade020502 sample_grade_known w0 in
  let known2 :=
    processar (P := sample_platform) Grade020502 sample_grade_known
      (snd known1) in
  (fst run1
   = inr (Result {| success := false; tipo := "Grade 020502";
                    res_unidade := "UNB01 - Matriz";
                    processed := 0; created := 0; updated := 0;
                    res_errors :=
                      ["Linha 2: Invalid field name(s) for model SKU: 'fator_conversao'."%string];
                    res_warnings := [];
                    timestamp := "2025-01-01T08:00:00+00:00" |})
   /\ fst run2 = fst run1
   /\ db (snd run1) = db w0 /\ db (snd run2) = db w0)
  /\
  (fst known1
   = inr (Result {| success := false; tipo := "Grade 020502";
                    res_unidade := "UNB01 - Matriz";
                    processed := 0; created := 0; updated := 1;
                    res_errors :=
                      ["Linha 2: Invalid field name(s) for model LoteValidade: 'estoque_display'."%string];
                    res_warnings := [];
                    timestamp := "2025-01-01T08:00:00+00:00" |})
   /\ fst known2 = fst known1
   /\ skus (db (snd known1)) = [sample_sku_renamed]
   /\ db (snd known2) = db (snd known1)
   /\ existsb (fun l => String.eqb (numero_lote l) "BASE")
        (lotes (db (snd known2))) = false)
  /\
  (forall (Pl : Platform) i file w,
     lotes (db (snd (processar (P := Pl) i file w))) = lotes (db w)).
Proof.
  cbv zeta. split; [repeat split; vm_compute; reflexivity|].
  split; [repeat split; vm_compute; reflexivity|].
  intros Pl i file w. apply processar_writes_no_lot.
Qed.

(** C4 (defect).  A stock sheet whose row carries a text label, for a
    stored product: the row overwrites the description of the product,
    then the lookup of the BASE lot raises; building the message of the
    error adds 2 to the label and raises [TypeError], in the guard's
    handler, so the exception reaches the outer [except].  The call returns
    the failure dictionary (success false, processed 0) normally, [atomic]
    therefore keeps the writes, and the product stays overwritten. *)
Theorem import_failure_keeps_writes :
  let w0 := sample_world (sample_db []) in
  let run :=
    processar (P := sample_platform) Grade020502 sample_grade_shifted w0 in
  skus (db w0) = [sample_sku]
  /\ fst run
     = inr (Failure {| falha_success := false;
                       error := "can only concatenate str (not " +++ dquote
                                +++ "int" +++ dquote +++ ") to str";
                       falha_processed := 0 |})
  /\ skus (db (snd run)) = [sample_sku_renamed]
  /\ db (snd run) <> db w0.
Proof.
  cbv zeta. split; [reflexivity|]. split; [vm_compute; reflexivity|].
  split; [vm_compute; reflexivity|].
  vm_compute. discriminate.
Qed.

(** * Further properties of the code *)

(** ** Dates: the order of dates and the difference in days *)

Lemma days_before_year_succ y :
  days_before_year (y + 1)
  = days_before_year y + 365 + (if is_leap y then 1 else 0).
Proof.
  unfold days_before_year, is_leap. cbv zeta.
  replace (y + 1 - 1) with y by lia.
  destruct (Z.eqb_spec (y mod 4) 0); destruct (Z.eqb_spec (y mod 100) 0);
    destruct (Z.eqb_spec (y mod 400) 0); cbn [orb andb negb];
    Z.to_euclidean_division_equations; lia.
Qed.

Lemma days_before_year_mono y y' :
  y < y' -> days_before_year (y + 1) <= days_before_year y'.
Proof.
  unfold days_before_year. cbv zeta. intros H.
  Z.to_euclidean_division_equations; lia.
Qed.

Lemma month_cases m :
  1 <= m <= 12 ->
  m = 1 \/ m = 2 \/ m = 3 \/ m = 4 \/ m = 5 \/ m = 6 \/ m = 7 \/ m = 8
  \/ m = 9 \/ m = 10 \/ m = 11 \/ m = 12.
Proof. lia. Qed.

(** The days of a year up to the end of month [m]. *)
Lemma days_before_month_end y m :
  1 <= m <= 12 ->
  days_before_month y m + days_in_month y m
  = if m =? 12 then 365 + (if is_leap y then 1 else 0)
    else days_before_month y (m + 1).
Proof.
  intros Hm. apply month_cases in Hm.
  unfold days_before_month, days_in_month.
  repeat (destruct Hm as [-> | Hm]); try subst m;
    destruct (is_leap y); reflexivity.
Qed.

Lemma days_before_month_mono y m m' :
  1 <= m -> m < m' -> m' <= 12 ->
  days_before_month y m + days_in_month y m <= days_before_month y m'.
Proof.
  intros H1 H2 H3.
  assert (Hm : 1 <= m <= 12) by lia. assert (Hm' : 1 <= m' <= 12) by lia.
  apply month_cases in Hm, Hm'.
  unfold days_before_month, days_in_month.
  repeat (destruct Hm as [-> | Hm]); try subst m;
    repeat (destruct Hm' as [-> | Hm']); try subst m';
    try lia; destruct (is_leap y); simpl; lia.
Qed.

Lemma days_before_month_nonneg y m : 1 <= m <= 12 -> 0 <= days_before_month y m.
Proof.
  intros Hm. apply month_cases in Hm. unfold days_before_month.
  repeat (destruct Hm as [-> | Hm]); try subst m;
    destruct (is_leap y); simpl; lia.
Qed.

(** On the dates Python can hold, the ordinal grows with the date. *)
Lemma toordinal_lt a b :
  valid_date a -> valid_date b ->
  (date_ltb a b = true <-> toordinal a < toordinal b).
Proof.
  intros Ha Hb.
  assert (Hlt : forall x z, valid_date x -> valid_date z ->
                            date_ltb x z = true -> toordinal x < toordinal z).
  { clear. intros [y m d] [y' m' d'] (Hy & Hm & Hd) (Hy' & Hm' & Hd').
    unfold date_ltb, toordinal. simpl in *.
    repeat (rewrite orb_true_iff || rewrite andb_true_iff).
    rewrite !Z.ltb_lt, !Z.eqb_eq.
    intros [Hlt | [-> [Hlt | [-> Hlt]]]].
    - pose proof (days_before_year_mono y y' Hlt) as H1.
      rewrite days_before_year_succ in H1.
      pose proof (days_before_month_end y m Hm) as H2.
      pose proof (days_before_month_nonneg y' m' Hm') as H3.
      destruct (m =? 12) eqn:E12.
      + lia.
      + apply Z.eqb_neq in E12.
        pose proof (days_before_month_mono y m 12 ltac:(lia) ltac:(lia)
                      ltac:(lia)) as H4.
        pose proof (days_before_month_end y 12 ltac:(lia)) as H5.
        simpl (12 =? 12) in H5. cbv iota in H5.
        assert (0 <= days_in_month y 12) by (unfold days_in_month; simpl; lia).
        assert (days_in_month y 12 = 31) by reflexivity.
        destruct (is_leap y); lia.
    - pose proof (days_before_month_mono y' m m' ltac:(lia) Hlt ltac:(lia)).
      lia.
    - lia. }
  split; [apply Hlt; assumption|].
  intros H. destruct (date_ltb a b) eqn:E; [reflexivity|].
  exfalso.
  assert (Hab : a = b \/ date_ltb b a = true).
  { destruct a as [y m d], b as [y' m' d']. unfold date_ltb in *. simpl in *.
    destruct (Z.ltb_spec y y'); simpl in E; [discriminate|].
    destruct (Z.eqb_spec y y') as [->|]; simpl in E.
    - rewrite Z.ltb_irrefl, Z.eqb_refl. simpl.
      destruct (Z.ltb_spec m m'); simpl in E; [discriminate|].
      destruct (Z.eqb_spec m m') as [->|]; simpl in E.
      + rewrite Z.ltb_irrefl, Z.eqb_refl. simpl.
        destruct (Z.ltb_spec d d'); [discriminate|].
        destruct (Z.ltb_spec d' d); [right; reflexivity|].
        left. f_equal. lia.
      + right. destruct (Z.ltb_spec m' m); [reflexivity | lia].
    - right. destruct (Z.ltb_spec y' y); [reflexivity | lia]. }
  destruct Hab as [-> | Hba]; [lia|].
  apply Hlt in Hba; [lia | assumption | assumption].
Qed.

(** ** Lots and products: expiry, stock, access *)

Lemma esta_vencido_lt hoje l :
  valid_date (data_validade l) -> valid_date hoje ->
  (esta_vencido hoje l = true <-> dias_ate_vencimento hoje l < 0).
Proof.
  intros Hl Hh. unfold esta_vencido, dias_ate_vencimento, days_between.
  rewrite (toordinal_lt _ _ Hl Hh). lia.
Qed.

(** X1. On dates of the calendar, a lot is expired ([esta_vencido]) exactly
    when its days to expiry ([dias_ate_vencimento]) are negative: the
    comparison of the dates and the sign of their difference agree. *)
Theorem esta_vencido_dias_negativos hoje l :
  valid_date (data_validade l) -> valid_date hoje ->
  (esta_vencido hoje l = true <-> dias_ate_vencimento hoje l < 0).
Proof. apply esta_vencido_lt. Qed.

Ltac calendar := unfold valid_date; repeat split; apply Z.leb_le; reflexivity.

(** X1, on the sample data. *)
Lemma esta_vencido_dias_negativos_witness :
  esta_vencido sample_hoje (sample_lote 1 "L0" (mkdate 2024 12 1) 0 true) = true
  <-> dias_ate_vencimento sample_hoje
        (sample_lote 1 "L0" (mkdate 2024 12 1) 0 true) < 0.
Proof.
  apply (esta_vencido_dias_negativos sample_hoje
           (sample_lote 1 "L0" (mkdate 2024 12 1) 0 true));
    calendar.
Defined.

Lemma status_classify_vencido hoje l c p :
  status (classify hoje l c p) = "VENCIDO"%string
  <-> days_between (data_validade l) hoje < 0.
Proof.
  unfold classify. cbv zeta.
  destruct (Z.ltb_spec (days_between (data_validade l) hoje) 0).
  - simpl. tauto.
  - destruct (_ <=? c); [|destruct (_ <=? p)]; simpl;
      (split; [discriminate | lia]).
Qed.

Lemma status_vencido_iff db hoje self config :
  valid_date hoje ->
  (forall l, In l (lotes db) -> valid_date (data_validade l)) ->
  (status (get_status db hoje self config) = "VENCIDO"%string
   <-> exists l, in_stock db self l /\ esta_vencido hoje l = true).
Proof.
  intros Hh Hv. destruct (lote_mais_proximo db self) as [m|] eqn:Em.
  - rewrite (get_status_classify _ _ _ _ _ Em), status_classify_vencido.
    destruct (lote_mais_proximo_Some _ _ _ Em) as [Hm Hmin].
    assert (Vm : valid_date (data_validade m)) by (apply Hv, Hm).
    split.
    + intros Hd. exists m. split; [exact Hm|].
      apply (esta_vencido_lt _ _ Vm Hh). exact Hd.
    + intros [l [Hl He]].
      assert (Vl : valid_date (data_validade l)) by (apply Hv, Hl).
      apply (esta_vencido_lt _ _ Vl Hh) in He.
      specialize (Hmin l Hl).
      unfold dias_ate_vencimento, days_between in *. lia.
  - unfold get_status. rewrite Em. simpl. split; [discriminate|].
    intros [l [Hl _]]. exfalso.
    apply (proj1 (lote_mais_proximo_None db self) Em l Hl).
Qed.

(** X2. With dates of the calendar, the status of a product is VENCIDO
    exactly when one of its active lots with stock is expired, whatever the
    configuration: the nearest lot is expired as soon as any lot that counts
    is. *)
Theorem get_status_vencido_lote_vencido db hoje self config :
  valid_date hoje ->
  (forall l, In l (lotes db) -> valid_date (data_validade l)) ->
  (status (get_status db hoje self config) = "VENCIDO"%string
   <-> exists l, in_stock db self l /\ esta_vencido hoje l = true).
Proof. apply status_vencido_iff. Qed.

(** X2, on the sample data. *)
Lemma get_status_vencido_lote_vencido_witness :
  status (get_status sample_db_same_day (mkdate 2025 2 1) sample_sku None)
  = "VENCIDO"%string
  <-> exists l, in_stock sample_db_same_day sample_sku l
                /\ esta_vencido (mkdate 2025 2 1) l = true.
Proof.
  apply (get_status_vencido_lote_vencido sample_db_same_day (mkdate 2025 2 1)
           sample_sku None).
  - calendar.
  - intros l [<-|[<-|[]]]; calendar.
Defined.

Lemma sum_qtd_zero (f : LoteValidade -> N) l :
  or_0 (Sum (map (fun x => Z.of_N (f x)) l)) = 0
  <-> forall x, In x l -> f x = 0%N.
Proof.
  assert (H : fold_right Z.add 0 (map (fun x => Z.of_N (f x)) l) = 0
              <-> forall x, In x l -> f x = 0%N).
  { induction l as [|y l IH]; simpl.
    - split; [intros _ x []|reflexivity].
    - assert (0 <= fold_right Z.add 0 (map (fun x => Z.of_N (f x)) l)).
      { clear. induction l; simpl; lia. }
      split.
      + intros Hs x [<-|Hx]; [lia|]. apply IH; [lia|exact Hx].
      + intros Hall. rewrite (Hall y) by (left; reflexivity).
        apply IH. intros x Hx. apply Hall. right. exact Hx. }
  destruct l as [|y l]; [simpl; split; [intros _ x []|reflexivity]|].
  exact H.
Qed.

Lemma status_sem_estoque db hoje self config :
  status (get_status db hoje self config) = "SEM_ESTOQUE"%string
  <-> lote_mais_proximo db self = None.
Proof.
  unfold get_status. destruct (lote_mais_proximo db self) as [m|].
  - cbv zeta. destruct (_ <? 0); [|destruct (_ <=? _); [|destruct (_ <=? _)]];
      simpl; split; discriminate.
  - simpl. tauto.
Qed.

Lemma quantidade_total_zero_none db self :
  quantidade_total_estoque db self = 0 <-> lote_mais_proximo db self = None.
Proof.
  rewrite lote_mais_proximo_None.
  unfold quantidade_total_estoque. rewrite sum_qtd_zero. unfold in_stock.
  split.
  - intros H l [Hin [Hs [Ha Hq]]].
    assert (qtd_estoque l = 0%N); [|lia].
    apply H, filter_In. split; [exact Hin|].
    rewrite Hs, Z.eqb_refl, Ha. reflexivity.
  - intros H l Hl. apply filter_In in Hl. destruct Hl as [Hin Hp].
    apply andb_true_iff in Hp. destruct Hp as [Hs Ha].
    apply Z.eqb_eq in Hs.
    destruct (N.eq_dec (qtd_estoque l) 0) as [|Hn]; [assumption|].
    exfalso. apply (H l). repeat split; try assumption. lia.
Qed.

(** X3. The total stock of a product ([quantidade_total_estoque], the sum
    over its active lots) is zero exactly when its status is SEM_ESTOQUE:
    the two readings of "no stock" agree, on every day and under every
    configuration. *)
Theorem quantidade_total_zero_sem_estoque db hoje self config :
  quantidade_total_estoque db self = 0
  <-> status (get_status db hoje self config) = "SEM_ESTOQUE"%string.
Proof.
  rewrite status_sem_estoque. apply quantidade_total_zero_none.
Qed.

Lemma insert_by_text_In {A} (key : A -> string) x y l :
  In y (insert_by_text key x l) <-> y = x \/ In y l.
Proof.
  induction l as [|z l IH]; simpl.
  - intuition.
  - destruct (String.ltb (key x) (key z)); simpl; [intuition|].
    rewrite IH. intuition.
Qed.

Lemma order_by_text_In {A} (key : A -> string) y l :
  In y (order_by_text key l) <-> In y l.
Proof.
  induction l as [|x l IH]; simpl; [reflexivity|].
  rewrite insert_by_text_In, IH. intuition.
Qed.

Lemma get_unidades_ids_In s self id :
  In id (get_unidades_ids s self) <->
  exists u, In u (unidades s) /\ un_id u = id /\ un_ativo u = true /\
            (is_superuser self = true \/
             exists v, In v (vinculos s)
                       /\ vinculo_usuario v = usuario_id self
                       /\ vinculo_unidade v = id).
Proof.
  unfold get_unidades_ids, usuario_unidades.
  destruct (is_superuser self); rewrite in_map_iff; split.
  - intros [u [Hid Hu]]. apply filter_In in Hu. destruct Hu as [Hu Ha].
    apply order_by_text_In in Hu. exists u. auto.
  - intros [u [Hu [Hid [Ha _]]]]. exists u. split; [exact Hid|].
    apply filter_In. split; [apply order_by_text_In; exact Hu|exact Ha].
  - intros [u [Hid Hu]]. apply filter_In in Hu. destruct Hu as [Hu Ha].
    apply filter_In in Hu. destruct Hu as [Hu Hv].
    apply order_by_text_In in Hu. apply existsb_exists in Hv.
    destruct Hv as [v [Hv Hp]]. apply andb_true_iff in Hp.
    destruct Hp as [H1 H2]. apply Z.eqb_eq in H1, H2.
    exists u. repeat split; try assumption. right. exists v.
    repeat split; try assumption. congruence.
  - intros [u [Hu [Hid [Ha [Hs|[v [Hv [H1 H2]]]]]]]]; [discriminate|].
    exists u. split; [exact Hid|]. apply filter_In. split; [|exact Ha].
    apply filter_In. split; [apply order_by_text_In; exact Hu|].
    apply existsb_exists. exists v. split; [exact Hv|].
    rewrite H1, H2, Hid, !Z.eqb_refl. reflexivity.
Qed.

Lemma tem_acesso_In s self id :
  is_superuser self = false ->
  (tem_acesso_unidade s self id = true <-> In id (get_unidades_ids s self)).
Proof.
  intros Hs. unfold tem_acesso_unidade, get_unidades_ids. rewrite Hs.
  rewrite existsb_exists, in_map_iff. split.
  - intros [u [Hu Hp]]. apply andb_true_iff in Hp. destruct Hp as [H1 H2].
    apply Z.eqb_eq in H1. exists u. split; [exact H1|].
    apply filter_In. auto.
  - intros [u [Hid Hu]]. apply filter_In in Hu. destruct Hu as [Hu Ha].
    exists u. split; [exact Hu|]. rewrite Hid, Z.eqb_refl, Ha. reflexivity.
Qed.

Lemma tem_acesso_unidade_of_In s self id :
  In id (get_unidades_ids s self) -> tem_acesso_unidade s self id = true.
Proof.
  destruct (is_superuser self) eqn:Hs.
  - intros _. unfold tem_acesso_unidade. rewrite Hs. reflexivity.
  - apply tem_acesso_In. exact Hs.
Qed.

(** X4. The two access functions of a user agree: a unit whose id
    [get_unidades_ids] lists passes [tem_acesso_unidade], and for a user
    who is not a superuser the converse holds too.  (For a superuser the
    check passes for every id, while the list holds the active units
    only.) *)
Theorem tem_acesso_unidade_get_unidades_ids s self unidade_id :
  (In unidade_id (get_unidades_ids s self) ->
   tem_acesso_unidade s self unidade_id = true) /\
  (is_superuser self = false ->
   (tem_acesso_unidade s self unidade_id = true
    <-> In unidade_id (get_unidades_ids s self))).
Proof.
  split; [apply tem_acesso_unidade_of_In | apply tem_acesso_In].
Qed.

(** X5. [get_unidades_ids] lists exactly the ids of the stored units that
    are active and, unless the user is a superuser, linked to the user: a
    unit switched off is never listed, also when the link to it remains. *)
Theorem get_unidades_ids_ativas s self id :
  In id (get_unidades_ids s self) <->
  exists u, In u (unidades s) /\ un_id u = id /\ un_ativo u = true /\
            (is_superuser self = true \/
             exists v, In v (vinculos s)
                       /\ vinculo_usuario v = usuario_id self
                       /\ vinculo_unidade v = id).
Proof. apply get_unidades_ids_In. Qed.

(** ** What the serializers show *)

Lemma status_cases db hoje self config :
  let st := status (get_status db hoje self config) in
  st = "VENCIDO"%string \/ st = "CRITICO"%string
  \/ st = "PRE_BLOQUEIO"%string \/ st = "OK"%string
  \/ st = "SEM_ESTOQUE"%string.
Proof.
  unfold get_status. destruct (lote_mais_proximo db self); cbv zeta.
  - destruct (_ <? 0); [|destruct (_ <=? _); [|destruct (_ <=? _)]];
      simpl; tauto.
  - simpl. tauto.
Qed.

(** X6. The two dictionaries of the serializers have an entry for every
    status [get_status] can return: the label and the colour shown for a
    product are those of its status, and the fallbacks of the lookups (the
    label Indefinido) are never used. *)
Theorem status_texto_cor_sem_fallback db hoje obj :
  In (status (get_status db hoje obj None), get_status_texto db hoje obj)
     STATUS_LABELS /\
  In (status (get_status db hoje obj None), get_status_cor db hoje obj)
     STATUS_CORES.
Proof.
  unfold get_status_texto, get_status_cor.
  destruct (status_cases db hoje obj None) as [H|[H|[H|[H|H]]]];
    rewrite H; simpl; tauto.
Qed.

Lemma get_status_dias db hoje self config :
  dias_restantes (get_status db hoje self config)
  = option_map (fun l => days_between (data_validade l) hoje)
               (lote_mais_proximo db self).
Proof.
  unfold get_status. destruct (lote_mais_proximo db self); cbv zeta.
  - destruct (_ <? 0); [|destruct (_ <=? _); [|destruct (_ <=? _)]];
      reflexivity.
  - reflexivity.
Qed.

(** X7. The entry of a product in the report is coherent: either it names
    no critical lot, and then it has no date and no days remaining, the
    quantity 0 and the label Sem Estoque; or it names one, and then the
    quantity is positive, the days remaining are those of that lot and the
    label is not Sem Estoque. *)
Theorem criticidade_entry_coherent s hoje obj :
  let r := SKUCriticidadeSerializer s hoje obj in
  (sc_lote_critico r = None /\ sc_data_validade r = None
   /\ sc_dias_restantes r = None /\ sc_quantidade r = 0
   /\ sc_status_texto r = "Sem Estoque"%string) \/
  (exists l, in_stock (banco s) obj l
             /\ sc_lote_critico r = Some (numero_lote l)
             /\ sc_data_validade r = Some (isoformat (data_validade l))
             /\ sc_dias_restantes r
                = Some (days_between (data_validade l) hoje)
             /\ 0 < sc_quantidade r
             /\ sc_status_texto r <> "Sem Estoque"%string).
Proof.
  cbv zeta. unfold SKUCriticidadeSerializer. cbn [sc_lote_critico
    sc_data_validade sc_dias_restantes sc_quantidade sc_status_texto].
  unfold get_lote_critico, get_data_validade, get_dias_restantes,
    get_quantidade, get_status_texto.
  rewrite get_status_dias.
  destruct (lote_mais_proximo (banco s) obj) as [l|] eqn:E.
  - right. exists l.
    destruct (lote_mais_proximo_Some _ _ _ E) as [Hin _].
    repeat split; try reflexivity; try apply Hin.
    + destruct Hin as [_ [_ [_ Hq]]]. simpl. lia.
    + assert (Hs : status (get_status (banco s) hoje obj None)
                   <> "SEM_ESTOQUE"%string).
      { intros H. apply status_sem_estoque in H. congruence. }
      destruct (status_cases (banco s) hoje obj None) as [H|[H|[H|[H|H]]]];
        try contradiction; rewrite H; simpl; discriminate.
  - left. repeat split.
    assert (Hs : status (get_status (banco s) hoje obj None)
                 = "SEM_ESTOQUE"%string)
      by (apply status_sem_estoque; exact E).
    rewrite Hs. reflexivity.
Qed.

(** X8. In the stock screen the number of lots of a product never exceeds
    its stock total, both are zero together, and the grand total is the
    stock plus what is in transit, never below the stock. *)
Theorem estoque_entry_coherent s obj :
  get_qtd_lotes (banco s) obj <= get_quantidade_estoque (banco s) obj /\
  (get_qtd_lotes (banco s) obj = 0
   <-> get_quantidade_estoque (banco s) obj = 0) /\
  get_quantidade_estoque (banco s) obj <= get_quantidade_total s obj /\
  get_quantidade_total s obj
  = get_quantidade_estoque (banco s) obj + get_quantidade_transito s obj.
Proof.
  unfold get_qtd_lotes, get_quantidade_estoque, get_quantidade_total,
    get_quantidade_transito.
  assert (Hsum : forall l : list LoteValidade,
            Z.of_nat (List.length (filter (fun x => (0 <? qtd_estoque x)%N) l))
            <= fold_right Z.add 0 (map (fun x => Z.of_N (qtd_estoque x)) l)).
  { induction l as [|y l IH]; [simpl; lia|].
    cbn [filter map fold_right].
    destruct (N.ltb_spec 0 (qtd_estoque y)); cbn [List.length]; lia. }
  assert (Hor : forall l : list Z, or_0 (Sum l) = fold_right Z.add 0 l)
    by (intros [|? ?]; reflexivity).
  assert (Hf : lotes_em_estoque (banco s) obj
               = filter (fun x => (0 <? qtd_estoque x)%N)
                   (filter (fun l => (lote_sku l =? sku_id obj) && lote_ativo l)
                      (lotes (banco s)))).
  { unfold lotes_em_estoque. induction (lotes (banco s)) as [|y l IH];
      [reflexivity|]. cbn [filter].
    destruct ((lote_sku y =? sku_id obj) && lote_ativo y); cbn [filter andb].
    - rewrite IH. reflexivity.
    - exact IH. }
  assert (Ht : 0 <= quantidade_em_transito s obj).
  { unfold quantidade_em_transito. rewrite Hor.
    induction (filter _ (movimentacoes s)); simpl; lia. }
  assert (Hle : Z.of_nat (List.length (lotes_em_estoque (banco s) obj))
                <= quantidade_total_estoque (banco s) obj).
  { rewrite Hf. unfold quantidade_total_estoque. rewrite Hor. apply Hsum. }
  repeat split; try lia.
  intros H0. apply (quantidade_total_zero_none (banco s) obj).
  unfold lote_mais_proximo.
  destruct (lotes_em_estoque (banco s) obj) eqn:E; [reflexivity|].
  cbn [List.length] in H0. lia.
Qed.

(** ** The criticality report *)

Lemma UnidadeNegocio_get_inr s lookup u :
  UnidadeNegocio_get s lookup = inr u ->
  In u (unidades s) /\ lookup u = true.
Proof.
  unfold UnidadeNegocio_get.
  destruct (filter lookup (unidades s)) as [|x [|y r]] eqn:E;
    try discriminate.
  intros [= <-]. apply filter_In. rewrite E. left. reflexivity.
Qed.

Lemma classifica_filter d hoje config queryset :
  classifica d hoje config queryset
  = (filter (is_bloqueado d hoje config) queryset,
     filter (is_pre_bloqueio d hoje config) queryset).
Proof.
  unfold classifica.
  assert (H : forall qs a b,
            fold_left
              (fun (acc : list SKU * list SKU) sku =>
                 let status_code := status (get_status d hoje sku config) in
                 if String.eqb status_code "VENCIDO"
                    || String.eqb status_code "CRITICO"
                 then (fst acc ++ [sku], snd acc)
                 else if String.eqb status_code "PRE_BLOQUEIO"
                      then (fst acc, snd acc ++ [sku])
                      else acc) qs (a, b)
            = (a ++ filter (is_bloqueado d hoje config) qs,
               b ++ filter (is_pre_bloqueio d hoje config) qs)).
  { induction qs as [|x qs IH]; intros a b; cbn [fold_left filter].
    - rewrite !app_nil_r. reflexivity.
    - cbv zeta.
      assert (Eb : is_bloqueado d hoje config x
                   = (String.eqb (status (get_status d hoje x config)) "VENCIDO"
                      || String.eqb (status (get_status d hoje x config))
                           "CRITICO")) by reflexivity.
      assert (Ep : is_pre_bloqueio d hoje config x
                   = String.eqb (status (get_status d hoje x config))
                       "PRE_BLOQUEIO") by reflexivity.
      rewrite Eb, Ep.
      destruct (status_cases d hoje x config) as [E|[E|[E|[E|E]]]];
        rewrite E; cbn [String.eqb Ascii.eqb Bool.eqb orb fst snd];
        rewrite IH; rewrite <- ?app_assoc; reflexivity. }
  apply H.
Qed.

Lemma relatorio_unidade_Some rq s u :
  relatorio_unidade rq s = inr (Some u) ->
  In u (unidades s) /\ un_ativo u = true.
Proof.
  unfold relatorio_unidade.
  destruct (rq_unidade_id rq) as [id|].
  - destruct (UnidadeNegocio_get s _) as [e|u'] eqn:E; [discriminate|].
    intros [= <-]. apply UnidadeNegocio_get_inr in E. destruct E as [Hin Hp].
    apply andb_true_iff in Hp. tauto.
  - destruct (rq_codigo_unb rq) as [[|c cs]|]; try discriminate.
    destruct (UnidadeNegocio_get s _) as [e|u'] eqn:E; [discriminate|].
    intros [= <-]. apply UnidadeNegocio_get_inr in E. destruct E as [Hin Hp].
    apply andb_true_iff in Hp. tauto.
Qed.

(** The three ways a report ends: the unit is not found (404, or the
    exception of a lookup that finds several), the user may not see it
    (403), or the report is made and logged. *)
Lemma relatorio_cases hoje rq s :
  let res := RelatorioCriticidadeView_get hoje rq s in
  (snd res = s /\
   ((exists e, fst res = inl e) \/
    (exists resp, fst res = inr resp /\ status_code resp = 404
                  /\ exists msg, body resp = Detail msg) \/
    (exists resp, fst res = inr resp /\ status_code resp = 403
                  /\ exists msg, body resp = Detail msg))) \/
  (exists unidade_ r,
     relatorio_unidade rq s = inr unidade_ /\
     (forall u, unidade_ = Some u ->
                tem_acesso_unidade s (rq_user rq) (un_id u) = true) /\
     snd res = relatorio_log rq unidade_ s /\
     fst res = inr {| status_code := 200; body := RelatorioBody r |} /\
     rel_unidade r
     = option_map (fun u => (un_id u, codigo_unb u, nome u)) unidade_ /\
     rel_dias_para_critico r
     = dias_critico (relatorio_config (banco s) unidade_) /\
     rel_dias_para_pre_bloqueio r
     = dias_pre_bloqueio (relatorio_config (banco s) unidade_) /\
     let qs := relatorio_queryset s (rq_user rq) unidade_ in
     let config := relatorio_config (banco s) unidade_ in
     bloqueados r
     = map (SKUCriticidadeSerializer (snd res) hoje)
           (filter (is_bloqueado (banco s) hoje config) qs) /\
     pre_bloqueio r
     = map (SKUCriticidadeSerializer (snd res) hoje)
           (filter (is_pre_bloqueio (banco s) hoje config) qs) /\
     total_bloqueados r = Z.of_nat (List.length (bloqueados r)) /\
     total_pre_bloqueio r = Z.of_nat (List.length (pre_bloqueio r))).
Proof.
  cbv zeta. unfold RelatorioCriticidadeView_get.
  destruct (relatorio_unidade rq s) as [e|unidade_] eqn:Eu.
  - left. destruct e; simpl; (split; [reflexivity|]);
      solve [ left; eexists; reflexivity
            | right; left; eexists; repeat split; eexists; reflexivity ].
  - destruct (match unidade_ with
              | Some u => negb (is_superuser (rq_user rq))
                          && negb (tem_acesso_unidade s (rq_user rq) (un_id u))
              | None => false
              end) eqn:Ea.
    + left. simpl. split; [reflexivity|]. right. right.
      eexists. repeat split. eexists. reflexivity.
    + right. rewrite classifica_filter. cbv zeta.
      exists unidade_. eexists. split; [reflexivity|].
      split.
      { intros u ->. apply andb_false_iff in Ea.
        unfold tem_acesso_unidade in *.
        destruct (is_superuser (rq_user rq)); [reflexivity|].
        destruct Ea as [Ea|Ea]; [discriminate|].
        apply negb_false_iff in Ea. exact Ea. }
      cbn [fst snd]. split; [reflexivity|]. split; [reflexivity|].
      cbn [rel_unidade rel_dias_para_critico rel_dias_para_pre_bloqueio
           bloqueados pre_bloqueio total_bloqueados total_pre_bloqueio].
      rewrite !length_map. repeat split; reflexivity.
Qed.

Lemma bucket_ranges db hoje sku config :
  let c := dias_critico (resolve_config db sku config) in
  let p := dias_pre_bloqueio (resolve_config db sku config) in
  (is_bloqueado db hoje config sku = true ->
   exists d, dias_restantes (get_status db hoje sku None) = Some d /\ d <= c)
  /\
  (is_pre_bloqueio db hoje config sku = true ->
   exists d, dias_restantes (get_status db hoje sku None) = Some d
             /\ c < d <= p).
Proof.
  cbv zeta. unfold is_bloqueado, is_pre_bloqueio. rewrite get_status_dias.
  pose proof (dias_critico_nonneg (resolve_config db sku config)) as Hc.
  destruct (lote_mais_proximo db sku) as [l|] eqn:E.
  - rewrite (get_status_classify _ _ _ _ _ E). unfold classify. cbv zeta.
    simpl option_map.
    destruct (Z.ltb_spec (days_between (data_validade l) hoje) 0);
      [|destruct (Z.leb_spec (days_between (data_validade l) hoje)
                    (dias_critico (resolve_config db sku config)));
        [|destruct (Z.leb_spec (days_between (data_validade l) hoje)
                      (dias_pre_bloqueio (resolve_config db sku config)))]];
      simpl; (split; intros Hb; try discriminate Hb; eexists;
              (split; [reflexivity|lia])).
  - unfold get_status. rewrite E. simpl. split; discriminate.
Qed.

Lemma get_status_resolve db hoje sku c1 c2 :
  resolve_config db sku c1 = resolve_config db sku c2 ->
  get_status db hoje sku c1 = get_status db hoje sku c2.
Proof. intros H. unfold get_status. rewrite H. reflexivity. Qed.

Lemma relatorio_config_unidade d u sku :
  unidade_negocio sku = un_id u ->
  resolve_config d sku (relatorio_config d (Some u))
  = relatorio_config d (Some u)
  /\ resolve_config d sku None = relatorio_config d (Some u).
Proof.
  intros Hu. unfold relatorio_config, resolve_config. rewrite Hu.
  destruct (configuracao_alerta d (un_id u)) as [c|]; [split; reflexivity|].
  destruct (configuracao_global d) as [g|] eqn:G; split; reflexivity.
Qed.

(** What a response that carries a report holds. *)
Lemma relatorio_Some hoje rq s r :
  relatorio_data (fst (RelatorioCriticidadeView_get hoje rq s)) = Some r ->
  exists unidade_,
    relatorio_unidade rq s = inr unidade_ /\
    (forall u, unidade_ = Some u ->
               tem_acesso_unidade s (rq_user rq) (un_id u) = true) /\
    snd (RelatorioCriticidadeView_get hoje rq s) = relatorio_log rq unidade_ s
    /\
    rel_unidade r
    = option_map (fun u => (un_id u, codigo_unb u, nome u)) unidade_ /\
    rel_dias_para_critico r
    = dias_critico (relatorio_config (banco s) unidade_) /\
    rel_dias_para_pre_bloqueio r
    = dias_pre_bloqueio (relatorio_config (banco s) unidade_) /\
    bloqueados r
    = map (SKUCriticidadeSerializer (relatorio_log rq unidade_ s) hoje)
          (filter (is_bloqueado (banco s) hoje
                     (relatorio_config (banco s) unidade_))
                  (relatorio_queryset s (rq_user rq) unidade_)) /\
    pre_bloqueio r
    = map (SKUCriticidadeSerializer (relatorio_log rq unidade_ s) hoje)
          (filter (is_pre_bloqueio (banco s) hoje
                     (relatorio_config (banco s) unidade_))
                  (relatorio_queryset s (rq_user rq) unidade_)) /\
    total_bloqueados r = Z.of_nat (List.length (bloqueados r)) /\
    total_pre_bloqueio r = Z.of_nat (List.length (pre_bloqueio r)).
Proof.
  intros H. pose proof (relatorio_cases hoje rq s) as C. cbv zeta in C.
  destruct C as [[_ [[e He]|[(resp & He & _ & msg & Hm)
                            |(resp & He & _ & msg & Hm)]]]
                |(unidade_ & r0 & Hu & Ha & Hs & Hr & C)].
  - rewrite He in H. discriminate.
  - rewrite He in H. destruct resp as [c b]. simpl in Hm. subst b.
    discriminate.
  - rewrite He in H. destruct resp as [c b]. simpl in Hm. subst b.
    discriminate.
  - rewrite Hr in H. simpl in H. injection H as <-.
    exists unidade_. rewrite Hs in C. tauto.
Qed.

Lemma relatorio_queryset_In s user unidade_ sku :
  In sku (relatorio_queryset s user unidade_) ->
  In sku (skus (banco s)) /\ sku_ativo sku = true /\
  match unidade_ with
  | Some u => unidade_negocio sku = un_id u
  | None => In (unidade_negocio sku) (get_unidades_ids s user)
  end.
Proof.
  unfold relatorio_queryset. destruct unidade_ as [u|]; intros H;
    apply filter_In in H; destruct H as [H Hp];
    apply filter_In in H; destruct H as [H Ha];
    apply order_by_text_In in H; repeat split; try assumption.
  - apply Z.eqb_eq. exact Hp.
  - apply existsb_exists in Hp. destruct Hp as [id [Hid Hp]].
    apply Z.eqb_eq in Hp. subst id. exact Hid.
Qed.

Lemma status_label db hoje sku :
  (is_bloqueado db hoje None sku = true ->
   get_status_texto db hoje sku = "Vencido"%string
   \/ get_status_texto db hoje sku = "Crítico"%string) /\
  (is_pre_bloqueio db hoje None sku = true ->
   get_status_texto db hoje sku = "Pré-Bloqueio"%string).
Proof.
  unfold is_bloqueado, is_pre_bloqueio, get_status_texto.
  destruct (status_cases db hoje sku None) as [E|[E|[E|[E|E]]]];
    rewrite E; simpl; split; intros H; try discriminate H; tauto.
Qed.

(** X9. In a report about one unit every entry agrees with the list it is
    in and with the thresholds the response shows: an entry of
    [bloqueados] is labelled Vencido or Crítico and its days remaining do
    not exceed [dias_para_critico]; an entry of [pre_bloqueio] is labelled
    Pré-Bloqueio and its days remaining lie above [dias_para_critico] and
    up to [dias_para_pre_bloqueio]. *)
Theorem relatorio_unidade_coherent hoje rq s r :
  relatorio_data (fst (RelatorioCriticidadeView_get hoje rq s)) = Some r ->
  rel_unidade r <> None ->
  Forall (fun e =>
            (sc_status_texto e = "Vencido"%string
             \/ sc_status_texto e = "Crítico"%string) /\
            exists d, sc_dias_restantes e = Some d
                      /\ d <= rel_dias_para_critico r) (bloqueados r) /\
  Forall (fun e =>
            sc_status_texto e = "Pré-Bloqueio"%string /\
            exists d, sc_dias_restantes e = Some d
                      /\ rel_dias_para_critico r < d
                         <= rel_dias_para_pre_bloqueio r) (pre_bloqueio r).
Proof.
  intros H Hu. apply relatorio_Some in H.
  destruct H as (unidade_ & _ & _ & _ & Hr & Hc & Hp & Hb & Hpb & _).
  destruct unidade_ as [u|]; [|rewrite Hr in Hu; contradiction Hu; reflexivity].
  rewrite Hb, Hpb, Hc, Hp. split; apply Forall_map, Forall_forall;
    intros sku Hin; apply filter_In in Hin; destruct Hin as [Hin Hst];
    apply relatorio_queryset_In in Hin; destruct Hin as (_ & _ & Hun);
    destruct (relatorio_config_unidade (banco s) u sku Hun) as [R1 R2];
    pose proof (bucket_ranges (banco s) hoje sku
                  (relatorio_config (banco s) (Some u))) as B;
    cbv zeta in B; rewrite R1 in B; destruct B as [B1 B2];
    assert (Hg : get_status (banco s) hoje sku
                   (relatorio_config (banco s) (Some u))
                 = get_status (banco s) hoje sku None)
      by (apply get_status_resolve; rewrite R1, R2; reflexivity);
    unfold SKUCriticidadeSerializer;
    cbn [sc_status_texto sc_dias_restantes]; unfold get_dias_restantes;
    change (banco (relatorio_log rq (Some u) s)) with (banco s).
  - split; [|apply B1; exact Hst].
    apply (proj1 (status_label (banco s) hoje sku)).
    unfold is_bloqueado in *. rewrite <- Hg. exact Hst.
  - split; [|apply B2; exact Hst].
    apply (proj2 (status_label (banco s) hoje sku)).
    unfold is_pre_bloqueio in *. rewrite <- Hg. exact Hst.
Qed.

(** X9, on the sample data. *)
Lemma relatorio_unidade_coherent_witness :
  exists r,
    relatorio_data
      (fst (RelatorioCriticidadeView_get sample_hoje sample_relatorio_request
              (sample_site (sample_db [])))) = Some r /\
    List.length (bloqueados r) = 1%nat /\
    Forall (fun e =>
              (sc_status_texto e = "Vencido"%string
               \/ sc_status_texto e = "Crítico"%string) /\
              exists d, sc_dias_restantes e = Some d
                        /\ d <= rel_dias_para_critico r) (bloqueados r) /\
    Forall (fun e =>
              sc_status_texto e = "Pré-Bloqueio"%string /\
              exists d, sc_dias_restantes e = Some d
                        /\ rel_dias_para_critico r < d
                           <= rel_dias_para_pre_bloqueio r) (pre_bloqueio r).
Proof.
  eexists. split; [vm_compute; reflexivity|]. split; [reflexivity|].
  apply (relatorio_unidade_coherent sample_hoje sample_relatorio_request
           (sample_site (sample_db []))).
  - vm_compute. reflexivity.
  - discriminate.
Defined.

(** X10. In a report over all the units of the user, made while an active
    global configuration exists, the thresholds shown are those of that
    configuration and the days remaining of every entry lie within them:
    the configurations of the units play no part. *)
Theorem relatorio_geral_thresholds hoje rq s r g :
  relatorio_data (fst (RelatorioCriticidadeView_get hoje rq s)) = Some r ->
  rel_unidade r = None ->
  configuracao_global (banco s) = Some g ->
  rel_dias_para_critico r = Z.of_N (dias_para_critico g) /\
  rel_dias_para_pre_bloqueio r = Z.of_N (dias_para_pre_bloqueio g) /\
  Forall (fun e => exists d, sc_dias_restantes e = Some d
                             /\ d <= Z.of_N (dias_para_critico g))
         (bloqueados r) /\
  Forall (fun e => exists d, sc_dias_restantes e = Some d
                             /\ Z.of_N (dias_para_critico g) < d
                                <= Z.of_N (dias_para_pre_bloqueio g))
         (pre_bloqueio r).
Proof.
  intros H Hu Hg. apply relatorio_Some in H.
  destruct H as (unidade_ & _ & _ & _ & Hr & Hc & Hp & Hb & Hpb & _).
  destruct unidade_ as [u|]; [rewrite Hr in Hu; discriminate|].
  unfold relatorio_config in *. rewrite Hg in *.
  rewrite Hb, Hpb, Hc, Hp. split; [reflexivity|]. split; [reflexivity|].
  split; apply Forall_map, Forall_forall;
    intros sku Hin; apply filter_In in Hin; destruct Hin as [_ Hst];
    pose proof (bucket_ranges (banco s) hoje sku (Some g)) as B;
    cbv zeta in B; destruct B as [B1 B2];
    unfold SKUCriticidadeSerializer; cbn [sc_dias_restantes];
    unfold get_dias_restantes;
    change (banco (relatorio_log rq None s)) with (banco s).
  - apply B1. exact Hst.
  - apply B2. exact Hst.
Qed.

(** X10, on the sample data. *)
Lemma relatorio_geral_thresholds_witness :
  exists r,
    relatorio_data
      (fst (RelatorioCriticidadeView_get sample_hoje sample_relatorio_geral
              (sample_site (sample_db [sample_config 1 None 5 20 true]))))
    = Some r /\
    List.length (pre_bloqueio r) = 1%nat /\
    rel_dias_para_critico r = 5 /\
    rel_dias_para_pre_bloqueio r = 20 /\
    Forall (fun e => exists d, sc_dias_restantes e = Some d /\ d <= 5)
           (bloqueados r) /\
    Forall (fun e => exists d, sc_dias_restantes e = Some d /\ 5 < d <= 20)
           (pre_bloqueio r).
Proof.
  eexists. split; [vm_compute; reflexivity|]. split; [reflexivity|].
  apply (relatorio_geral_thresholds sample_hoje sample_relatorio_geral
           (sample_site (sample_db [sample_config 1 None 5 20 true])) _
           (sample_config 1 None 5 20 true)).
  - vm_compute. reflexivity.
  - reflexivity.
  - reflexivity.
Defined.

(** X11. A report shows a user only what the user may see: the unit it
    names, if any, is a stored active unit that passes the access check of
    the user, and every entry is an active stored product of an active
    unit that passes it. *)
Theorem relatorio_only_accessible hoje rq s r :
  relatorio_data (fst (RelatorioCriticidadeView_get hoje rq s)) = Some r ->
  (forall id codigo nome_,
     rel_unidade r = Some (id, codigo, nome_) ->
     tem_acesso_unidade s (rq_user rq) id = true /\
     exists u, In u (unidades s) /\ un_id u = id /\ un_ativo u = true) /\
  Forall (fun e =>
            exists sku u,
              In sku (skus (banco s)) /\ sku_ativo sku = true /\
              sc_id e = sku_id sku /\ sc_codigo_sku e = codigo_sku sku /\
              In u (unidades s) /\ un_id u = unidade_negocio sku /\
              un_ativo u = true /\
              tem_acesso_unidade s (rq_user rq) (un_id u) = true)
         (bloqueados r ++ pre_bloqueio r).
Proof.
  intros H. apply relatorio_Some in H.
  destruct H as (unidade_ & Hu & Ha & _ & Hr & _ & _ & Hb & Hpb & _).
  assert (Hq : forall sku,
            In sku (relatorio_queryset s (rq_user rq) unidade_) ->
            exists u, In sku (skus (banco s)) /\ sku_ativo sku = true /\
                      In u (unidades s) /\ un_id u = unidade_negocio sku /\
                      un_ativo u = true /\
                      tem_acesso_unidade s (rq_user rq) (un_id u) = true).
  { intros sku Hin. apply relatorio_queryset_In in Hin.
    destruct Hin as (Hs & Hact & Hun). destruct unidade_ as [u|].
    - exists u. destruct (relatorio_unidade_Some _ _ _ Hu) as [Hi Hv].
      repeat split; auto.
    - pose proof Hun as Hun'. apply get_unidades_ids_In in Hun.
      destruct Hun as (u & Hi & Hid & Hv & _). exists u.
      repeat split; auto. rewrite Hid.
      apply tem_acesso_unidade_of_In. exact Hun'. }
  split.
  - intros id codigo nome_ Hid. rewrite Hr in Hid.
    destruct unidade_ as [u|]; [|discriminate]. injection Hid as <- _ _.
    destruct (relatorio_unidade_Some _ _ _ Hu) as [Hi Hv].
    split; [apply Ha; reflexivity|]. exists u. auto.
  - rewrite Hb, Hpb, <- map_app. apply Forall_map, Forall_forall.
    intros sku Hin. apply in_app_or in Hin.
    assert (Hin' : In sku (relatorio_queryset s (rq_user rq) unidade_))
      by (destruct Hin as [Hin|Hin]; apply filter_In in Hin; tauto).
    destruct (Hq sku Hin') as (u & H1 & H2 & H3 & H4 & H5 & H6).
    exists sku, u. repeat split; assumption.
Qed.

(** X11, on the sample data. *)
Lemma relatorio_only_accessible_witness :
  exists r,
    relatorio_data
      (fst (RelatorioCriticidadeView_get sample_hoje sample_relatorio_request
              (sample_site (sample_db [])))) = Some r /\
    rel_unidade r = Some (1, "UNB01"%string, "Matriz"%string) /\
    (forall id codigo nome_,
       rel_unidade r = Some (id, codigo, nome_) ->
       tem_acesso_unidade (sample_site (sample_db [])) sample_usuario id
       = true /\
       exists u, In u (unidades (sample_site (sample_db [])))
                 /\ un_id u = id /\ un_ativo u = true) /\
    Forall (fun e =>
              exists sku u,
                In sku (skus (sample_db [])) /\ sku_ativo sku = true /\
                sc_id e = sku_id sku /\ sc_codigo_sku e = codigo_sku sku /\
                In u (unidades (sample_site (sample_db []))) /\
                un_id u = unidade_negocio sku /\ un_ativo u = true /\
                tem_acesso_unidade (sample_site (sample_db [])) sample_usuario
                  (un_id u) = true)
           (bloqueados r ++ pre_bloqueio r).
Proof.
  eexists. split; [vm_compute; reflexivity|]. split; [reflexivity|].
  apply (relatorio_only_accessible sample_hoje sample_relatorio_request
           (sample_site (sample_db []))).
  vm_compute. reflexivity.
Defined.

(** X12. The report only reads: it leaves the stock, the units, the links
    and the movements as they were; when it answers with a report it
    appends one entry to the query log, of the user, of type CRITICIDADE
    and with the address [get_client_ip] gives; when it refuses or fails
    it logs nothing. *)
Theorem relatorio_read_only hoje rq s :
  let res := RelatorioCriticidadeView_get hoje rq s in
  banco (snd res) = banco s /\ unidades (snd res) = unidades s /\
  vinculos (snd res) = vinculos s /\
  movimentacoes (snd res) = movimentacoes s /\
  match relatorio_data (fst res) with
  | Some _ =>
      exists entry,
        logs (snd res) = logs s ++ [entry] /\
        log_usuario entry = usuario_id (rq_user rq) /\
        tipo_consulta entry = "CRITICIDADE"%string /\
        ip_address entry
        = get_client_ip (rq_forwarded_for rq) (rq_remote_addr rq)
  | None => logs (snd res) = logs s
  end.
Proof.
  pose proof (relatorio_cases hoje rq s) as C. cbv zeta in *.
  destruct C as [[Hs [[e He]|[(resp & He & _ & msg & Hm)
                             |(resp & He & _ & msg & Hm)]]]
                |(unidade_ & r0 & Hu & Ha & Hs & Hr & C)];
    rewrite Hs, ?He, ?Hr.
  - repeat split; reflexivity.
  - destruct resp as [c b]. simpl in Hm. subst b. repeat split; reflexivity.
  - destruct resp as [c b]. simpl in Hm. subst b. repeat split; reflexivity.
  - simpl. repeat split; try reflexivity. eexists. repeat split.
Qed.

(** ** The upload views *)

Lemma filter_pk_two {A} (pk : A -> Z) id l x y r :
  NoDup (map pk l) -> filter (fun u => pk u =? id) l = x :: y :: r -> False.
Proof.
  induction l as [|z l IH]; simpl; intros Hnd E; [discriminate|].
  inversion Hnd as [|? ? Hz Hl]; subst.
  destruct (Z.eqb_spec (pk z) id) as [Ez|Ez].
  - injection E as -> E.
    assert (Hy : In y (filter (fun u => pk u =? id) l))
      by (rewrite E; left; reflexivity).
    apply filter_In in Hy. destruct Hy as [Hy Hk]. apply Z.eqb_eq in Hk.
    apply Hz. rewrite Ez, <- Hk. apply in_map. exact Hy.
  - apply IH; assumption.
Qed.

Section UploadFacts.
Context {P : Platform}.

(** The two ways an upload ends: without running the import, and then
    nothing is written and the answer is not 200; or with the dictionary of
    the import, run for a stored unit the user may use. *)
Lemma upload_cases i rq s :
  let res := upload_post i rq s in
  (snd res = s /\ import_data (fst res) = None /\
   forall resp, fst res = inr resp ->
                status_code resp = 400 \/ status_code resp = 403
                \/ status_code resp = 404 \/ status_code resp = 500) \/
  (exists name file id u result w',
     up_file rq = Some (name, file) /\ extension_allowed name = true /\
     up_unidade_negocio_id rq = Sent (Some id) /\
     tem_acesso_unidade s (up_user rq) id = true /\
     In u (unidades s) /\ un_id u = id /\
     processar i file {| db := banco s; svc := EstoqueImportService_init u |}
     = (inr result, w') /\
     snd res = set_banco s (db w') /\
     fst res = inr {| status_code := if result_success result then 200
                                     else 400;
                      body := ImportBody result |}).
Proof.
  cbv zeta. unfold upload_post.
  destruct (up_file rq) as [[name file]|] eqn:Ef;
    [destruct name as [|c name'] eqn:En|];
    try (left; simpl; repeat split; intros resp [= <-]; simpl; tauto).
  rewrite <- En in *. clear c name' En.
  destruct (up_unidade_negocio_id rq) as [|as_int] eqn:Eid;
    [left; simpl; repeat split; intros resp [= <-]; simpl; tauto|].
  destruct (extension_allowed name) eqn:Ee; cbn [negb];
    [|left; simpl; repeat split; intros resp [= <-]; simpl; tauto].
  assert (Hacc : forall id, as_int = Some id ->
            (if is_superuser (up_user rq) then inr true
             else match as_int with
                  | Some id => inr (tem_acesso_unidade s (up_user rq) id)
                  | None => inl (ValueError
                                   "invalid literal for int() with base 10")
                  end)
            = (inr (tem_acesso_unidade s (up_user rq) id) : exn + bool)).
  { intros id ->. unfold tem_acesso_unidade.
    destruct (is_superuser (up_user rq)); reflexivity. }
  destruct as_int as [id|].
  - rewrite (Hacc id eq_refl).
    destruct (tem_acesso_unidade s (up_user rq) id) eqn:Ea;
      [|left; simpl; repeat split; intros resp [= <-]; simpl; tauto].
    destruct (UnidadeNegocio_get s (fun u => un_id u =? id)) as [e|u] eqn:Eu.
    + left. destruct e; simpl; repeat split; intros resp [= <-]; simpl; tauto.
    + apply UnidadeNegocio_get_inr in Eu. destruct Eu as [Hin Hid].
      apply Z.eqb_eq in Hid.
      destruct (processar_never_raises i file
                  {| db := banco s; svc := EstoqueImportService_init u |})
        as [result Hr].
      destruct (processar i file
                  {| db := banco s; svc := EstoqueImportService_init u |})
        as [r w'] eqn:Ep.
      simpl in Hr. subst r. right.
      exists name, file, id, u, result, w'. repeat split; auto.
  - left. destruct (is_superuser (up_user rq)); simpl; repeat split;
      try discriminate; intros resp [= <-]; simpl; tauto.
Qed.

(** X13. An upload writes only by running the import: an answer that does
    not carry the dictionary of an import leaves every table as it was;
    an answer that carries one comes from a file with an allowed extension
    and a stored unit that passes the access check of the user, and then
    only the stock tables change, to what the import left. *)
Theorem upload_writes_through_import i rq s :
  let res := upload_post i rq s in
  match import_data (fst res) with
  | None => snd res = s
  | Some result =>
      exists name file u,
        up_file rq = Some (name, file) /\ extension_allowed name = true /\
        In u (unidades s) /\
        up_unidade_negocio_id rq = Sent (Some (un_id u)) /\
        tem_acesso_unidade s (up_user rq) (un_id u) = true /\
        fst (processar i file
               {| db := banco s; svc := EstoqueImportService_init u |})
        = inr result /\
        snd res
        = set_banco s
            (db (snd (processar i file
                        {| db := banco s;
                           svc := EstoqueImportService_init u |})))
  end.
Proof.
  pose proof (upload_cases i rq s) as C. cbv zeta in *.
  destruct C as [(Hs & Hd & _)
                |(name & file & id & u & result & w' & Hf & He & Hi & Ha
                  & Hin & Hid & Hp & Hs & Hr)].
  - rewrite Hd. exact Hs.
  - rewrite Hr. simpl. exists name, file, u. subst id.
    rewrite Hp. simpl. repeat split; assumption.
Qed.

(** X14. An upload answers 200 exactly when the import reached its
    summary with no error or with at least one row processed; the answer
    then carries that summary. *)
Theorem upload_status_200 i rq s resp :
  fst (upload_post i rq s) = inr resp ->
  (status_code resp = 200 <->
   exists r, body resp = ImportBody (Result r)
             /\ (res_errors r = [] \/ 0 < processed r)).
Proof.
  intros H. pose proof (upload_cases i rq s) as C. cbv zeta in C.
  destruct C as [(Hs & Hd & Hc)
                |(name & file & id & u & result & w' & Hf & He & Hi & Ha
                  & Hin & Hid & Hp & Hs & Hr)].
  - specialize (Hc resp H). rewrite H in Hd. destruct resp as [c b].
    simpl in *. split.
    + intros ->. destruct Hc as [Hc|[Hc|[Hc|Hc]]]; discriminate.
    + intros [r [-> _]]. discriminate.
  - rewrite Hr in H. injection H as <-. simpl.
    destruct result as [f|r].
    + apply processar_Failure in Hp. destruct Hp as [Hf0 _]. simpl.
      rewrite Hf0. split; [discriminate|]. intros [r [Hb _]]. discriminate.
    + apply processar_Result in Hp. destruct Hp as [-> _]. simpl.
      destruct (errors (svc w')) as [|e es] eqn:Ee; simpl.
      * split; [|reflexivity]. intros _. eexists. split; [reflexivity|].
        left. simpl. exact Ee.
      * destruct (Z.ltb_spec 0 (processed_count (svc w'))).
        -- split; [|reflexivity]. intros _. eexists.
           split; [reflexivity|]. right. simpl. assumption.
        -- split; [discriminate|]. intros [r [[= <-] [Hn|Hn]]];
             simpl in Hn; [rewrite Ee in Hn; discriminate|lia].
Qed.

(** X15. With the primary key of the units unique and a unit id that is
    a number (or missing), an upload never raises and never answers 500:
    it answers 200, 400, 403 or 404. *)
Theorem upload_never_500 i rq s :
  NoDup (map un_id (unidades s)) ->
  up_unidade_negocio_id rq <> Sent None ->
  exists resp, fst (upload_post i rq s) = inr resp /\
               (status_code resp = 200 \/ status_code resp = 400
                \/ status_code resp = 403 \/ status_code resp = 404).
Proof.
  intros Hnd Hid. unfold upload_post.
  destruct (up_file rq) as [[name file]|];
    [destruct name as [|c name'] eqn:En|];
    try (eexists; split; [reflexivity|simpl; tauto]).
  rewrite <- En. clear c name' En.
  destruct (up_unidade_negocio_id rq) as [|[id|]];
    [eexists; split; [reflexivity|simpl; tauto]| |contradiction Hid; reflexivity].
  destruct (extension_allowed name); cbn [negb];
    [|eexists; split; [reflexivity|simpl; tauto]].
  assert (Hacc : (if is_superuser (up_user rq) then inr true
                  else inr (tem_acesso_unidade s (up_user rq) id))
                 = (inr (tem_acesso_unidade s (up_user rq) id) : exn + bool)).
  { unfold tem_acesso_unidade.
    destruct (is_superuser (up_user rq)); reflexivity. }
  rewrite Hacc.
  destruct (tem_acesso_unidade s (up_user rq) id);
    [|eexists; split; [reflexivity|simpl; tauto]].
  assert (Hget : (exists u, UnidadeNegocio_get s (fun u => un_id u =? id)
                            = inr u) \/
                 (exists m, UnidadeNegocio_get s (fun u => un_id u =? id)
                            = inl (DoesNotExist m))).
  { unfold UnidadeNegocio_get.
    destruct (filter (fun u => un_id u =? id) (unidades s))
      as [|x [|y r]] eqn:E.
    - right. eexists. reflexivity.
    - left. eexists. reflexivity.
    - exfalso. exact (filter_pk_two un_id id _ _ _ _ Hnd E). }
  destruct Hget as [[u Hu]|[m Hm]].
  - rewrite Hu.
    destruct (processar_never_raises i file
                {| db := banco s; svc := EstoqueImportService_init u |})
      as [result Hr].
    destruct (processar i file
                {| db := banco s; svc := EstoqueImportService_init u |})
      as [r w'].
    simpl in Hr. subst r. eexists. split; [reflexivity|]. simpl.
    destruct (result_success result); tauto.
  - rewrite Hm. eexists. split; [reflexivity|simpl; tauto].
Qed.
End UploadFacts.

(** X14, on a count sheet that names only an unknown product: the import
    ends with a warning and no error, and the view answers 200. *)
Lemma upload_status_200_witness :
  exists resp,
    fst (upload_post (P := sample_platform) Contagens sample_upload_unknown
           (sample_site (sample_db []))) = inr resp /\
    status_code resp = 200 /\
    (status_code resp = 200 <->
     exists r, body resp = ImportBody (Result r)
               /\ (res_errors r = [] \/ 0 < processed r)).
Proof.
  eexists. split; [vm_compute; reflexivity|]. split; [reflexivity|].
  apply (upload_status_200 (P := sample_platform) Contagens
           sample_upload_unknown (sample_site (sample_db []))).
  vm_compute. reflexivity.
Defined.

(** X15, on the sample data. *)
Lemma upload_never_500_witness :
  exists resp,
    fst (upload_post (P := sample_platform) Contagens sample_upload
           (sample_site (sample_db []))) = inr resp /\
    (status_code resp = 200 \/ status_code resp = 400
     \/ status_code resp = 403 \/ status_code resp = 404).
Proof.
  apply (upload_never_500 (P := sample_platform) Contagens sample_upload
           (sample_site (sample_db []))).
  - simpl. repeat constructor; simpl; intuition discriminate.
  - discriminate.
Defined.

(** ** The lot list and the stock summary *)

Section SortedFacts.
Context {A : Type} (key : A -> Z).

Lemma insert_by_sorted x l :
  StronglySorted (fun a b => key a <= key b) l ->
  StronglySorted (fun a b => key a <= key b) (insert_by key x l).
Proof.
  induction l as [|y l IH]; intros Hs; simpl.
  - constructor; constructor.
  - inversion Hs as [|? ? Hl Hy]; subst.
    destruct (Z.ltb_spec (key x) (key y)).
    + constructor; [exact Hs|]. constructor; [lia|].
      apply Forall_forall. intros z Hz.
      rewrite Forall_forall in Hy. specialize (Hy z Hz). lia.
    + constructor; [apply IH; exact Hl|].
      apply Forall_forall. intros z Hz. apply insert_by_In in Hz.
      destruct Hz as [->|Hz]; [lia|].
      rewrite Forall_forall in Hy. apply Hy, Hz.
Qed.

Lemma order_by_sorted l :
  StronglySorted (fun a b => key a <= key b) (order_by key l).
Proof.
  induction l as [|x l IH]; simpl; [constructor|].
  apply insert_by_sorted, IH.
Qed.

Lemma filter_sorted (p : A -> bool) l :
  StronglySorted (fun a b => key a <= key b) l ->
  StronglySorted (fun a b => key a <= key b) (filter p l).
Proof.
  induction l as [|x l IH]; intros Hs; simpl; [constructor|].
  inversion Hs as [|? ? Hl Hx]; subst.
  destruct (p x); [|apply IH; exact Hl].
  constructor; [apply IH; exact Hl|].
  apply Forall_forall. intros z Hz. apply filter_In in Hz.
  rewrite Forall_forall in Hx. apply Hx, Hz.
Qed.
End SortedFacts.

Lemma param_is_true p v : param_is p v = true <-> p = Some v.
Proof.
  unfold param_is. destruct p as [x|]; [|split; discriminate].
  rewrite String.eqb_eq. split; [intros ->; reflexivity|congruence].
Qed.

Lemma lotes_queryset_In hoje q s l :
  In l (LoteValidadeViewSet_get_queryset hoje q s) <->
  In l (lotes (banco s)) /\ lote_ativo l = true /\
  (exists x, In x (skus (banco s)) /\ sku_id x = lote_sku l /\
             In (unidade_negocio x) (get_user_unidades s (lq_user q))) /\
  (forall id, lq_sku_id q = Some id -> lote_sku l = id) /\
  (lq_vencidos q = Some "true"%string -> esta_vencido hoje l = true) /\
  (lq_com_estoque q = Some "true"%string -> (0 < qtd_estoque l)%N).
Proof.
  unfold LoteValidadeViewSet_get_queryset. cbv zeta.
  set (base := filter _ (filter lote_ativo _)).
  assert (Hbase : In l base <->
            In l (lotes (banco s)) /\ lote_ativo l = true /\
            exists x, In x (skus (banco s)) /\ sku_id x = lote_sku l /\
                      In (unidade_negocio x)
                         (get_user_unidades s (lq_user q))).
  { unfold base. rewrite !filter_In, order_by_In, existsb_exists. split.
    - intros [[H1 H2] [x [Hx Hp]]]. apply andb_true_iff in Hp.
      destruct Hp as [Hid Hu]. apply Z.eqb_eq in Hid.
      apply existsb_exists in Hu. destruct Hu as [id [Hi He]].
      apply Z.eqb_eq in He. subst id. split; [exact H1|].
      split; [exact H2|]. exists x. auto.
    - intros [H1 [H2 [x [Hx [Hid Hu]]]]]. split; [tauto|]. exists x.
      split; [exact Hx|]. rewrite Hid, Z.eqb_refl. simpl.
      apply existsb_exists. exists (unidade_negocio x).
      split; [exact Hu|apply Z.eqb_refl]. }
  set (bysku := match lq_sku_id q with
                | Some id => filter (fun l0 => lote_sku l0 =? id) base
                | None => base
                end).
  assert (Hsku : In l bysku <->
            In l base /\ forall id, lq_sku_id q = Some id -> lote_sku l = id).
  { unfold bysku. destruct (lq_sku_id q) as [id|].
    - rewrite filter_In, Z.eqb_eq. split.
      + intros [H1 H2]. split; [exact H1|]. intros id' [= <-]. exact H2.
      + intros [H1 H2]. split; [exact H1|]. apply H2. reflexivity.
    - split; [intros H; split; [exact H|discriminate]|tauto]. }
  set (byven := if param_is (lq_vencidos q) "true"
                then filter (fun l0 => date_ltb (data_validade l0) hoje) bysku
                else bysku).
  assert (Hven : In l byven <->
            In l bysku /\
            (lq_vencidos q = Some "true"%string -> esta_vencido hoje l = true)).
  { unfold byven, esta_vencido.
    destruct (param_is (lq_vencidos q) "true") eqn:E.
    - rewrite filter_In. apply param_is_true in E. tauto.
    - assert (lq_vencidos q <> Some "true"%string)
        by (intros H; apply param_is_true in H; congruence).
      tauto. }
  destruct (param_is (lq_com_estoque q) "true") eqn:E.
  - rewrite filter_In, N.ltb_lt, Hven, Hsku, Hbase.
    apply param_is_true in E. tauto.
  - assert (lq_com_estoque q <> Some "true"%string)
      by (intros H; apply param_is_true in H; congruence).
    rewrite Hven, Hsku, Hbase. tauto.
Qed.

(** X16. [LoteValidadeViewSet.get_queryset] returns exactly the stored
    lots that are active, belong to a stored product of a unit the user
    may see, and pass the filters the query asks for: the product of
    [sku_id], expired for [vencidos=true], with stock for
    [com_estoque=true]. *)
Theorem lotes_queryset_members hoje q s l :
  In l (LoteValidadeViewSet_get_queryset hoje q s) <->
  In l (lotes (banco s)) /\ lote_ativo l = true /\
  (exists x, In x (skus (banco s)) /\ sku_id x = lote_sku l /\
             In (unidade_negocio x) (get_user_unidades s (lq_user q))) /\
  (forall id, lq_sku_id q = Some id -> lote_sku l = id) /\
  (lq_vencidos q = Some "true"%string -> esta_vencido hoje l = true) /\
  (lq_com_estoque q = Some "true"%string -> (0 < qtd_estoque l)%N).
Proof. apply lotes_queryset_In. Qed.

(** X17. The lots [LoteValidadeViewSet.get_queryset] returns come in the
    order of their expiry dates, earliest first, whatever the filters. *)
Theorem lotes_queryset_fefo hoje q s :
  StronglySorted
    (fun a b => toordinal (data_validade a) <= toordinal (data_validade b))
    (LoteValidadeViewSet_get_queryset hoje q s).
Proof.
  unfold LoteValidadeViewSet_get_queryset. cbv zeta.
  repeat match goal with
         | |- StronglySorted _ (filter _ _) =>
             apply (filter_sorted (fun l => toordinal (data_validade l)))
         | |- StronglySorted _ (match ?x with _ => _ end) => destruct x
         end.
  all: apply (order_by_sorted (fun l => toordinal (data_validade l))).
Qed.

(** X18. With dates of the calendar, every lot listed for
    [vencidos=true] and [com_estoque=true] makes its product VENCIDO: the
    status of the product the lot belongs to is VENCIDO under every
    configuration. *)
Theorem lotes_vencidos_status hoje q s l x config :
  valid_date hoje ->
  (forall l', In l' (lotes (banco s)) -> valid_date (data_validade l')) ->
  lq_vencidos q = Some "true"%string ->
  lq_com_estoque q = Some "true"%string ->
  In l (LoteValidadeViewSet_get_queryset hoje q s) ->
  sku_id x = lote_sku l ->
  status (get_status (banco s) hoje x config) = "VENCIDO"%string.
Proof.
  intros Hh Hv Hq1 Hq2 Hin Hx. apply lotes_queryset_In in Hin.
  destruct Hin as (Hl & Ha & _ & _ & Hven & Hest).
  apply (status_vencido_iff _ _ _ _ Hh Hv). exists l. split.
  - unfold in_stock. auto.
  - apply Hven, Hq1.
Qed.

(** X18, on the sample data. *)
Lemma lotes_vencidos_status_witness :
  In (sample_lote 1 "L1" (mkdate 2025 1 11) 5 true)
     (LoteValidadeViewSet_get_queryset (mkdate 2025 2 1) sample_lotes_query
        (sample_site sample_db_same_day)) /\
  status (get_status sample_db_same_day (mkdate 2025 2 1) sample_sku None)
  = "VENCIDO"%string.
Proof.
  split; [right; left; reflexivity|].
  apply (lotes_vencidos_status (mkdate 2025 2 1) sample_lotes_query
           (sample_site sample_db_same_day)
           (sample_lote 1 "L1" (mkdate 2025 1 11) 5 true) sample_sku None).
  - calendar.
  - intros l [<-|[<-|[]]]; calendar.
  - reflexivity.
  - reflexivity.
  - right. left. reflexivity.
  - reflexivity.
Defined.

Section EstoqueFacts.
Variable icontains : string -> string -> bool.

Lemma quantidade_nonneg s sku :
  0 <= quantidade_total_estoque (banco s) sku
  /\ 0 <= quantidade_em_transito s sku.
Proof.
  assert (Hor : forall l : list Z, or_0 (Sum l) = fold_right Z.add 0 l)
    by (intros [|? ?]; reflexivity).
  unfold quantidade_total_estoque, quantidade_em_transito. rewrite !Hor.
  split.
  - induction (filter _ (lotes (banco s))); simpl; lia.
  - induction (filter _ (movimentacoes s)); simpl; lia.
Qed.

Lemma resumo_totais_spec s queryset :
  let '(te, tr, sse) := resumo_totais s queryset in
  0 <= te /\ 0 <= tr /\
  sse = Z.of_nat
          (List.length
             (filter (fun x => quantidade_total_estoque (banco s) x =? 0)
                     queryset)) /\
  (te = 0 <-> sse = Z.of_nat (List.length queryset)).
Proof.
  unfold resumo_totais.
  assert (H : forall qs te tr sse n,
            0 <= te -> 0 <= tr -> 0 <= sse <= Z.of_nat n ->
            (te = 0 <-> sse = Z.of_nat n) ->
            let '(te', tr', sse') :=
              fold_left
                (fun (acc : Z * Z * Z) sku =>
                   let '(total_estoque, total_transito, skus_sem_estoque) :=
                     acc in
                   let qtd_estoque :=
                     quantidade_total_estoque (banco s) sku in
                   let qtd_transito := quantidade_em_transito s sku in
                   (total_estoque + qtd_estoque, total_transito + qtd_transito,
                    if qtd_estoque =? 0 then skus_sem_estoque + 1
                    else skus_sem_estoque)) qs (te, tr, sse) in
            0 <= te' /\ 0 <= tr' /\
            sse' = sse + Z.of_nat
                     (List.length
                        (filter (fun x =>
                                   quantidade_total_estoque (banco s) x =? 0)
                                qs)) /\
            (te' = 0 <-> sse' = Z.of_nat (n + List.length qs))).
  { induction qs as [|x qs IH]; intros te tr sse n H1 H2 H3 [H4 H5].
    - simpl. rewrite Nat.add_0_r. repeat split; lia.
    - cbn [fold_left filter]. destruct (quantidade_nonneg s x) as [Q1 Q2].
      specialize (IH (te + quantidade_total_estoque (banco s) x)
                     (tr + quantidade_em_transito s x)
                     (if quantidade_total_estoque (banco s) x =? 0
                      then sse + 1 else sse) (S n)).
      replace (n + S (List.length qs))%nat
        with (S n + List.length qs)%nat by lia.
      destruct (Z.eqb_spec (quantidade_total_estoque (banco s) x) 0)
        as [E|E];
        destruct (fold_left _ qs _) as [[te' tr'] sse'];
        (destruct IH as (I1 & I2 & I3 & [I4 I5]);
         [lia|lia|lia|split; lia|]);
        cbn [List.length]; repeat split; lia. }
  specialize (H queryset 0 0 0 0%nat).
  destruct (fold_left _ queryset _) as [[te tr] sse].
  destruct H as (H1 & H2 & H3 & [H4 H5]); [lia|lia|lia|split; lia|].
  repeat split; lia.
Qed.

(** X19. The stock summary adds up: the grand total is the stock plus
    the transit, neither is negative, the products without stock are at
    most the products counted and are exactly those whose status is
    SEM_ESTOQUE, and the stock total is zero exactly when every product
    counted is without stock. *)
Theorem resumo_geral_coherent q s hoje config :
  let r := EstoqueViewSet_resumo_geral icontains q s in
  total_geral r = total_estoque r + total_transito r /\
  0 <= total_estoque r /\ 0 <= total_transito r /\
  0 <= skus_sem_estoque r <= total_skus r /\
  skus_sem_estoque r
  = Z.of_nat
      (List.length
         (filter (fun x => String.eqb
                             (status (get_status (banco s) hoje x config))
                             "SEM_ESTOQUE")
                 (EstoqueViewSet_get_queryset icontains q s))) /\
  (total_estoque r = 0 <-> skus_sem_estoque r = total_skus r).
Proof.
  cbv zeta. unfold EstoqueViewSet_resumo_geral.
  pose proof (resumo_totais_spec s (EstoqueViewSet_get_queryset icontains q s))
    as H.
  destruct (resumo_totais s (EstoqueViewSet_get_queryset icontains q s))
    as [[te tr] sse].
  destruct H as (H1 & H2 & H3 & [H4 H5]). simpl.
  assert (Hf : filter (fun x => quantidade_total_estoque (banco s) x =? 0)
                 (EstoqueViewSet_get_queryset icontains q s)
               = filter (fun x => String.eqb
                                    (status (get_status (banco s) hoje x config))
                                    "SEM_ESTOQUE")
                   (EstoqueViewSet_get_queryset icontains q s)).
  { apply filter_ext. intros x.
    destruct (Z.eqb_spec (quantidade_total_estoque (banco s) x) 0) as [E|E];
      destruct (String.eqb_spec (status (get_status (banco s) hoje x config))
                  "SEM_ESTOQUE") as [E'|E']; try reflexivity; exfalso.
    - apply E'. apply status_sem_estoque, quantidade_total_zero_none, E.
    - apply E. apply quantidade_total_zero_none.
      apply (status_sem_estoque _ hoje _ config), E'. }
  rewrite <- Hf.
  pose proof (filter_length_le
                (fun x => quantidade_total_estoque (banco s) x =? 0)
                (EstoqueViewSet_get_queryset icontains q s)) as Hle.
  repeat split; lia.
Qed.
End EstoqueFacts.

(** ** The importers: whole calls *)

Section ImportExtras.
Context {P : Platform}.

Lemma iterrows_length df :
  (List.length (iterrows df) <= List.length (index df))%nat.
Proof. unfold iterrows. rewrite length_combine. lia. Qed.

Lemma count_classes os :
  count is_processed os + count is_errored os + count is_warned os
  <= Z.of_nat (List.length os).
Proof.
  induction os as [|o os IH]; [unfold count; simpl; lia|].
  rewrite !count_cons. cbn [List.length].
  destruct o; cbn [is_processed is_errored is_warned]; lia.
Qed.

(** X20. Every row of the file is accounted for at most once: in the
    summary of an import the rows processed, the errors and the warnings
    together never exceed the rows of the file. *)
Theorem import_rows_accounted i file w r w' :
  processar i file w = (inr (Result r), w') ->
  0 <= processed r /\
  processed r + Z.of_nat (List.length (res_errors r))
  + Z.of_nat (List.length (res_warnings r))
  <= Z.of_nat (file_rows file).
Proof.
  rewrite processar_unfold.
  pose proof (frame_pure i file (reset w)) as Hp.
  destruct file as [reason|df].
  { destruct i; simpl; unfold grade_frame, contagens_frame;
      unfold_monad; simpl; discriminate. }
  pose proof (frame_index i df (reset w)) as Hi.
  destruct (frame i (Readable df) (reset w)) as [[e|df'] w0];
    [discriminate|]. simpl in Hp, Hi. subst w0.
  destruct (for_each (iterrows df') (row_body i) (reset w))
    as [[e|[]] w1] eqn:E; [discriminate|].
  intros [= <- <-].
  pose proof (for_each_counts (row_body i) (row_body_step i) _ _ _ E) as H.
  cbv zeta in H. simpl in H. destruct H as (H1 & _ & H3 & H4 & H5 & _).
  pose proof (count_classes (outcomes (row_body i) (iterrows df') (reset w)))
    as Hc.
  pose proof (count_nonneg is_processed
                (outcomes (row_body i) (iterrows df') (reset w))) as Hn.
  pose proof (iterrows_length df') as Hl. rewrite Hi in Hl.
  simpl. lia.
Qed.

(** X21. The result of an import does not depend on what an earlier call
    left in the service object: two calls on the same tables and the same
    unit return the same dictionary and leave the same state, whatever the
    counters and message lists were before. *)
Theorem import_ignores_old_counters i file w1 w2 :
  db w1 = db w2 ->
  svc_unidade_negocio (svc w1) = svc_unidade_negocio (svc w2) ->
  processar i file w1 = processar i file w2.
Proof.
  intros Hd Hu. rewrite !processar_unfold.
  assert (reset w1 = reset w2) as -> by (unfold reset; rewrite Hd, Hu; reflexivity).
  reflexivity.
Qed.

Lemma row_body_configs i ir w :
  configs (db (snd (row_body i ir w))) = configs (db w).
Proof.
  destruct i; simpl; unfold grade_row, contagens_row; exec; reflexivity.
Qed.

Lemma processar_unchanged {B} (f : DB -> B) i file w :
  (forall ir w0, f (db (snd (row_body i ir w0))) = f (db w0)) ->
  f (db (snd (processar i file w))) = f (db w).
Proof.
  intros Hb. rewrite processar_unfold.
  destruct (frame i file (reset w)) as [[e|df] w0]; [reflexivity|].
  pose proof (for_each_unchanged (row_body i) (fun w0 => f (db w0)) Hb
                (iterrows df) (reset w)) as H.
  destruct (for_each (iterrows df) (row_body i) (reset w)) as [[e|[]] w1];
    exact H.
Qed.

(** X22. What the imports never write: no call of [processar_contagens]
    changes the product table, and no import changes the alert
    configurations. *)
Theorem import_never_writes file w :
  skus (db (snd (processar Contagens file w))) = skus (db w) /\
  forall i, configs (db (snd (processar i file w))) = configs (db w).
Proof.
  split.
  - apply (processar_unchanged skus Contagens). intros [idx row] w0.
    apply contagens_row_skus.
  - intros i. apply (processar_unchanged configs i). apply row_body_configs.
Qed.
End ImportExtras.

(** X20, on the sample count sheet of four rows: the two counts end in
    [errors], the unknown product in [warnings], the blank line nowhere. *)
Lemma import_rows_accounted_witness :
  exists r w',
    processar (P := sample_platform) Contagens sample_contagens
      (sample_world (sample_db [])) = (inr (Result r), w') /\
    processed r = 0 /\ List.length (res_errors r) = 2%nat /\
    List.length (res_warnings r) = 1%nat /\
    0 <= processed r /\
    processed r + Z.of_nat (List.length (res_errors r))
    + Z.of_nat (List.length (res_warnings r))
    <= Z.of_nat (file_rows sample_contagens).
Proof.
  eexists. eexists. split; [vm_compute; reflexivity|].
  split; [reflexivity|]. split; [reflexivity|]. split; [reflexivity|].
  apply (import_rows_accounted (P := sample_platform) Contagens
           sample_contagens (sample_world (sample_db []))
           _ (snd (processar (P := sample_platform) Contagens sample_contagens
                     (sample_world (sample_db []))))).
  vm_compute. reflexivity.
Defined.

(** X21, on the sample data. *)
Lemma import_ignores_old_counters_witness :
  processar (P := sample_platform) Contagens sample_contagens
    (snd (processar (P := sample_platform) Contagens sample_contagens_1
            (sample_world (sample_db_empty []))))
  = processar (P := sample_platform) Contagens sample_contagens
      (sample_world
         (db (snd (processar (P := sample_platform) Contagens
                     sample_contagens_1 (sample_world (sample_db_empty [])))))).
Proof.
  apply (import_ignores_old_counters (P := sample_platform)); reflexivity.
Defined.


Section ImportMessages.
Context {P : Platform}.

Ltac numbered_tail :=
  (split; [solve_app|]); (split; [solve_app|]);
  simpl;
  first [ apply Forall_nil
        | apply Forall_cons;
          [do 2 eexists; split; reflexivity | apply Forall_nil] ].

Ltac solve_numbered :=
  first [ solve [exists [], []; numbered_tail]
        | solve [eexists [_], []; numbered_tail]
        | solve [eexists [], [_]; numbered_tail] ].

(** What a turn of a loop appends to the message lists is numbered after
    the label of its row. *)
Lemma row_body_messages i idx row w :
  exists es ws,
    errors (svc (snd (row_body i (idx, row) w))) = errors (svc w) ++ es /\
    warnings (svc (snd (row_body i (idx, row) w))) = warnings (svc w) ++ ws /\
    Forall (numbered idx) (es ++ ws).
Proof.
  destruct i; simpl; unfold grade_row, contagens_row; exec;
    unfold numbered; solve_numbered.
Qed.

Lemma for_each_messages i rows : forall w,
  exists es ws,
    errors (svc (snd (for_each rows (row_body i) w))) = errors (svc w) ++ es /\
    warnings (svc (snd (for_each rows (row_body i) w)))
    = warnings (svc w) ++ ws /\
    Forall (fun m => exists ir, In ir rows /\ numbered (fst ir) m) (es ++ ws).
Proof.
  induction rows as [|[idx row] rows IH]; intros w.
  - exists [], []. simpl. rewrite !app_nil_r. repeat split. constructor.
  - simpl. unfold bind.
    destruct (row_body_messages i idx row w) as (es & ws & He & Hw & Hf).
    assert (Hf' : Forall (fun m => exists ir, In ir ((idx, row) :: rows)
                                              /\ numbered (fst ir) m)
                    (es ++ ws)).
    { eapply Forall_impl; [|exact Hf]. intros m Hm.
      exists (idx, row). split; [left; reflexivity|exact Hm]. }
    destruct (row_body i (idx, row) w) as [[e|[]] w1]; simpl in *.
    + exists es, ws. auto.
    + destruct (IH w1) as (es' & ws' & He' & Hw' & Hf2).
      exists (es ++ es'), (ws ++ ws'). rewrite He', Hw', He, Hw, !app_assoc.
      split; [reflexivity|]. split; [reflexivity|].
      apply Forall_app in Hf'. destruct Hf' as [F1 F2].
      assert (Hf3 : Forall (fun m => exists ir, In ir ((idx, row) :: rows)
                                                /\ numbered (fst ir) m)
                      (es' ++ ws')).
      { eapply Forall_impl; [|exact Hf2]. intros m [ir [Hin Hm]].
        exists ir. split; [right; exact Hin|exact Hm]. }
      apply Forall_app in Hf3. destruct Hf3 as [F3 F4].
      rewrite <- !app_assoc.
      repeat (apply Forall_app; split); assumption.
Qed.

(** X23. Every message in the summary of an import names the row it
    comes from: each entry of [errors] and [warnings] begins with
    [Linha n+2: ] for the integer label [n] of a row of the file. *)
Theorem import_messages_numbered i file w r w' :
  processar i file w = (inr (Result r), w') ->
  Forall (fun m => exists n rest,
                     In (LInt n) (file_index file) /\
                     m = (("Linha " +++ str_Z (n + 2)) +++ ": " +++ rest)%string)
         (res_errors r ++ res_warnings r).
Proof.
  rewrite processar_unfold.
  pose proof (frame_pure i file (reset w)) as Hp.
  destruct file as [reason|df].
  { destruct i; simpl; unfold grade_frame, contagens_frame;
      unfold_monad; simpl; discriminate. }
  pose proof (frame_index i df (reset w)) as Hi.
  destruct (frame i (Readable df) (reset w)) as [[e|df'] w0];
    [discriminate|]. simpl in Hp, Hi. subst w0.
  destruct (for_each_messages i (iterrows df') (reset w))
    as (es & ws & He & Hw & Hf).
  destruct (for_each (iterrows df') (row_body i) (reset w))
    as [[e|[]] w1]; [discriminate|].
  intros [= <- <-]. simpl in *. subst es ws.
  eapply Forall_impl; [|exact Hf].
  intros m [[idx row] [Hin (n & rest & Hn & Hm)]]. simpl in Hn. subst idx.
  exists n, rest. split; [|exact Hm].
  rewrite <- Hi. unfold iterrows in Hin. apply in_combine_l in Hin.
  exact Hin.
Qed.

Lemma has_column_map_column df c f col :
  has_column (map_column df c f) col = has_column df col.
Proof. reflexivity. Qed.

Ltac missing_column D Hin Hc :=
  cbn -[has_column] in Hin;
  repeat (destruct Hin as [<-|Hin]; [|]); try contradiction;
  cbn -[has_column]; rewrite ?has_column_map_column, ?Hc;
  repeat (cbn -[has_column];
          rewrite ?has_column_map_column, ?Hc;
          match goal with
          | |- context [has_column D ?c] => destruct (has_column D c) eqn:?
          end);
  cbn -[has_column]; rewrite ?has_column_map_column, ?Hc;
  cbn -[has_column]; try congruence; eexists; reflexivity.

Lemma frame_missing_column i df w target :
  In target (map snd (colunas i)) ->
  has_column (_normalize_columns df (colunas i)) target = false ->
  exists e, fst (frame i (Readable df) w) = inl e.
Proof.
  intros Hin Hc.
  destruct i; cbn [frame colunas] in *;
    unfold grade_frame, contagens_frame, fill_column; unfold_monad;
    cbn -[has_column _normalize_columns].
  - set (D := _normalize_columns df COLUNAS_GRADE_020502) in *. clearbody D.
    missing_column D Hin Hc.
  - set (D := _normalize_columns df COLUNAS_CONTAGENS) in *. clearbody D.
    missing_column D Hin Hc.
Qed.

(** X24. An import needs every column of its mapping, not only the two
    it checks: when the renamed frame lacks one of them the call fails
    before the loop, with [success] false and [processed] 0, and writes
    nothing. *)
Theorem import_needs_every_column i df w target :
  In target (map snd (colunas i)) ->
  has_column (_normalize_columns df (colunas i)) target = false ->
  exists f,
    processar i (Readable df) w = (inr (Failure f), reset w) /\
    falha_success f = false /\ falha_processed f = 0 /\
    db (snd (processar i (Readable df) w)) = db w.
Proof.
  intros Hin Hc.
  destruct (frame_missing_column i df (reset w) target Hin Hc) as [e He].
  destruct (processar_file_error i (Readable df) w e He) as [Hp Hd].
  eexists. split; [exact Hp|]. split; [reflexivity|].
  split; [reflexivity|exact Hd].
Qed.
End ImportMessages.

(** X23, on the sample data. *)
Lemma import_messages_numbered_witness :
  exists r w',
    processar (P := sample_platform) Contagens sample_contagens
      (sample_world (sample_db [])) = (inr (Result r), w') /\
    res_warnings r = ["Linha 4: SKU 'SKU999' não encontrado"%string] /\
    Forall (fun m => exists n rest,
                       In (LInt n) (file_index sample_contagens) /\
                       m = (("Linha " +++ str_Z (n + 2)) +++ ": " +++ rest)%string)
           (res_errors r ++ res_warnings r).
Proof.
  eexists. eexists. split; [vm_compute; reflexivity|].
  split; [reflexivity|].
  apply (import_messages_numbered (P := sample_platform) Contagens
           sample_contagens (sample_world (sample_db []))
           _ (snd (processar (P := sample_platform) Contagens sample_contagens
                     (sample_world (sample_db []))))).
  vm_compute. reflexivity.
Defined.

(** X24, on the sample data. *)
Lemma import_needs_every_column_witness :
  exists f,
    processar (P := sample_platform) Contagens (Readable sample_sem_unidades)
      (sample_world (sample_db []))
    = (inr (Failure f), reset (sample_world (sample_db []))) /\
    falha_success f = false /\ falha_processed f = 0 /\
    db (snd (processar (P := sample_platform) Contagens
               (Readable sample_sem_unidades) (sample_world (sample_db []))))
    = db (sample_world (sample_db [])).
Proof.
  apply (import_needs_every_column (P := sample_platform) Contagens
           sample_sem_unidades (sample_world (sample_db [])) "qtd_unidades").
  - simpl. tauto.
  - vm_compute. reflexivity.
Defined.

(** ** The importers: other units are left alone *)

Lemma map_replace_pk {A} (pk : A -> Z) l s' :
  map pk (map (fun y => if pk y =? pk s' then s' else y) l) = map pk l.
Proof.
  induction l as [|y l IH]; [reflexivity|]. simpl. rewrite IH.
  destruct (Z.eqb_spec (pk y) (pk s')) as [E|E]; congruence.
Qed.

Lemma In_replace_other {A} (pk : A -> Z) (good : A -> Prop) l s s' x :
  NoDup (map pk l) -> In s l -> pk s' = pk s ->
  ~ good s -> ~ good s' -> good x ->
  (In x (map (fun y => if pk y =? pk s' then s' else y) l) <-> In x l).
Proof.
  intros Hd Hs Hpk Hgs Hgs' Hgx. rewrite in_map_iff. split.
  - intros [y [Hy Hin]].
    destruct (Z.eqb_spec (pk y) (pk s')); [subst x; contradiction|].
    subst y. exact Hin.
  - intros Hin. exists x. split; [|exact Hin].
    destruct (Z.eqb_spec (pk x) (pk s')) as [E|E]; [|reflexivity].
    exfalso. rewrite Hpk in E.
    assert (x = s); [|subst; contradiction].
    clear - Hd Hs Hin E. induction l as [|y l IH]; [destruct Hin|].
    simpl in Hd. inversion Hd as [|? ? Hy Hl]; subst.
    destruct Hin as [->|Hin], Hs as [->|Hs]; auto.
    + exfalso. apply Hy. rewrite E. apply in_map. exact Hs.
    + exfalso. apply Hy. rewrite <- E. apply in_map. exact Hin.
Qed.

Section Isolation.
Context {P : Platform}.

(** The guard of a filter that selected one row. *)
Ltac from_filter :=
  repeat match goal with
         | H : filter ?p ?l = [?s] |- _ =>
             let Hin := fresh "Hin" in
             assert (Hin : In s (filter p l))
               by (rewrite H; left; reflexivity);
             apply filter_In in Hin; clear H
         end.

(** What a turn of the loop of [processar_grade_020502] does to the
    product table: nothing, or one product of the unit replaced under its
    key. *)
Lemma grade_row_skus_shape idx row w :
  let un := un_id (svc_unidade_negocio (svc w)) in
  let l := skus (db w) in
  let l' := skus (db (snd (grade_row idx row w))) in
  l' = l \/
  (exists s s', In s l /\ unidade_negocio s = un /\ sku_id s' = sku_id s
                /\ unidade_negocio s' = un
                /\ l' = map (fun y => if sku_id y =? sku_id s' then s' else y)
                            l).
Proof.
  cbv zeta. unfold grade_row; exec; try (left; reflexivity).
  all: match goal with
       | |- map (fun x => if sku_id x =? sku_id ?s then ?r else x) _ = _ \/ _ =>
           right; exists s, r
       end.
  all: from_filter.
  all: match goal with
       | H : In _ (skus _) /\ _ = true |- _ =>
           destruct H as [Hs Hp]; apply andb_true_iff in Hp;
           destruct Hp as [_ Hu]; apply Z.eqb_eq in Hu
       end.
  all: repeat split; try assumption; reflexivity.
Qed.

Lemma for_each_inv {A} (body : A -> M unit) (Inv : World -> Prop) :
  (forall x w, Inv w -> Inv (snd (body x w))) ->
  forall rows w, Inv w -> Inv (snd (for_each rows body w)).
Proof.
  intros Hb. induction rows as [|x rows IH]; intros w Hw; simpl; [exact Hw|].
  unfold bind. specialize (Hb x w Hw).
  destruct (body x w) as [[e|[]] w1]; simpl in *; [exact Hb|].
  apply IH, Hb.
Qed.

Lemma processar_inv i file w (Inv : World -> Prop) :
  (forall ir w0, Inv w0 -> Inv (snd (row_body i ir w0))) ->
  Inv (reset w) -> Inv (snd (processar i file w)).
Proof.
  intros Hb Hw. rewrite processar_unfold.
  destruct (frame i file (reset w)) as [[e|df] w0]; [exact Hw|].
  pose proof (for_each_inv (row_body i) Inv Hb (iterrows df) (reset w) Hw)
    as H.
  destruct (for_each (iterrows df) (row_body i) (reset w)) as [[e|[]] w1];
    exact H.
Qed.

Lemma row_body_unidade i ir w :
  svc_unidade_negocio (svc (snd (row_body i ir w)))
  = svc_unidade_negocio (svc w).
Proof. apply (row_body_step i ir w). Qed.

Lemma grade_other_skus file w x :
  NoDup (map sku_id (skus (db w))) ->
  unidade_negocio x <> un_id (svc_unidade_negocio (svc w)) ->
  (In x (skus (db (snd (processar Grade020502 file w))))
   <-> In x (skus (db w))).
Proof.
  intros Hd Hx.
  set (Inv := fun w0 : World =>
         svc_unidade_negocio (svc w0) = svc_unidade_negocio (svc w) /\
         NoDup (map sku_id (skus (db w0))) /\
         (In x (skus (db w0)) <-> In x (skus (db w)))).
  assert (H : Inv (snd (processar Grade020502 file w))).
  { apply processar_inv.
    - intros [idx row] w0 (Hu & Hn & Hi). unfold Inv.
      rewrite row_body_unidade. split; [exact Hu|].
      pose proof (grade_row_skus_shape idx row w0) as S. cbv zeta in S.
      simpl row_body.
      destruct S as [S|(s & s' & Ss & Su & Sk & Su' & S)]; rewrite S.
      + split; assumption.
      + split; [rewrite map_replace_pk; exact Hn|]. rewrite <- Hi.
        apply (In_replace_other sku_id
                 (fun y => unidade_negocio y
                           <> un_id (svc_unidade_negocio (svc w))) _ s);
          try assumption.
        * intros H. apply H. rewrite Su, Hu. reflexivity.
        * intros H. apply H. rewrite Su', Hu. reflexivity.
    - unfold Inv. simpl. tauto. }
  apply H.
Qed.

(** X25. An import for one unit leaves the other units alone.  With the
    primary keys of the product and lot tables unique, after a call of
    either importer a product of another unit is stored exactly when it
    was stored before, unchanged, and so is a lot whose product is not a
    product of the unit of the import. *)
Theorem import_other_units_untouched i file w :
  NoDup (map sku_id (skus (db w))) ->
  NoDup (map lote_id (lotes (db w))) ->
  let u := un_id (svc_unidade_negocio (svc w)) in
  let d' := db (snd (processar i file w)) in
  (forall x, unidade_negocio x <> u ->
             (In x (skus d') <-> In x (skus (db w)))) /\
  (forall l, (forall x, In x (skus (db w)) -> sku_id x = lote_sku l ->
                        unidade_negocio x <> u) ->
             (In l (lotes d') <-> In l (lotes (db w)))).
Proof.
  intros Hs Hl. cbv zeta. split.
  - intros x Hx. destruct i.
    + apply grade_other_skus; assumption.
    + rewrite processar_contagens_writes_nothing. reflexivity.
  - intros l _. rewrite processar_writes_no_lot. reflexivity.
Qed.
End Isolation.

(** X25, on the sample data. *)
Lemma import_other_units_untouched_witness :
  let w := sample_world sample_db_two_units in
  let d' := db (snd (processar (P := sample_platform) Contagens
                       sample_contagens w)) in
  (forall x, unidade_negocio x <> 1 ->
             (In x (skus d') <-> In x (skus sample_db_two_units))) /\
  (forall l, (forall x, In x (skus sample_db_two_units) ->
                        sku_id x = lote_sku l -> unidade_negocio x <> 1) ->
             (In l (lotes d') <-> In l (lotes sample_db_two_units))).
Proof.
  apply (import_other_units_untouched (P := sample_platform) Contagens
           sample_contagens (sample_world sample_db_two_units)).
  - simpl. repeat constructor; simpl; intuition discriminate.
  - simpl. repeat constructor; simpl; intuition discriminate.
Defined.

(** ** Column names *)

Lemma NoDup_map_inj {A B} (f : A -> B) l a b :
  NoDup (map f l) -> In a l -> In b l -> f a = f b -> a = b.
Proof.
  induction l as [|y l IH]; simpl; intros Hd Ha Hb E; [destruct Ha|].
  inversion Hd as [|? ? Hy Hl]; subst.
  destruct Ha as [->|Ha], Hb as [->|Hb]; auto.
  - exfalso. apply Hy. rewrite E. apply in_map. exact Hb.
  - exfalso. apply Hy. rewrite <- E. apply in_map. exact Ha.
Qed.

(** A dictionary all of whose items under a key hold the same value, and
    that has one, gives that value. *)
Lemma dict_get_all d k t :
  (forall t', In (k, t') d -> t' = t) -> In (k, t) d -> dict_get d k = Some t.
Proof.
  unfold dict_get. induction d as [|[k' t'] d IH]; intros Hall Hin;
    [destruct Hin|]. simpl.
  destruct (String.eqb_spec k' k) as [E|E].
  - subst k'. simpl. f_equal. apply Hall. left. reflexivity.
  - apply IH.
    + intros t0 H0. apply Hall. right. exact H0.
    + destruct Hin as [Hin|Hin]; [congruence|exact Hin].
Qed.

Section Columns.
Context {P : Platform}.

(** The items of the rename map: one for each entry of the mapping that
    some column matches, keyed by the first such column. *)
Lemma rename_map_In cols mapping : forall acc k t,
  In (k, t)
     (fold_left
        (fun rm (st : string * string) =>
           match filter (fun col => String.eqb (lower col) (lower (fst st)))
                        cols with
           | m :: _ => (m, snd st) :: rm
           | [] => rm
           end) mapping acc)
  <-> In (k, t) acc \/
      exists st, In st mapping /\ snd st = t /\
                 hd_error (filter (fun col => String.eqb (lower col)
                                                (lower (fst st))) cols)
                 = Some k.
Proof.
  induction mapping as [|st mapping IH]; intros acc k t; simpl.
  - split; [tauto|]. intros [H|[st [[] _]]]. exact H.
  - rewrite IH. split.
    + intros [H|[st' [Hin H]]].
      * destruct (filter _ cols) as [|m r] eqn:E; [left; exact H|].
        destruct H as [[= <- <-]|H]; [|left; exact H].
        right. exists st. rewrite E. simpl. auto.
      * right. exists st'. tauto.
    + intros [H|[st' [[<-|Hin] [Ht Hh]]]].
      * left. destruct (filter _ cols); [exact H|right; exact H].
      * left. destruct (filter _ cols) as [|m r]; [discriminate|].
        injection Hh as <-. subst t. left. reflexivity.
      * right. exists st'. tauto.
Qed.

(** X26. Headers are matched without regard to case and to surrounding
    blanks: with a mapping whose source names differ beyond case, a column
    of the file whose stripped name equals a source name up to case is
    there under the target name after [_normalize_columns], and the rows
    and their labels are kept. *)
Theorem normalize_columns_resolves df mapping source target c :
  NoDup (map (fun st => lower (fst st)) mapping) ->
  In (source, target) mapping ->
  In c (columns df) ->
  lower (strip c) = lower source ->
  has_column (_normalize_columns df mapping) target = true /\
  index (_normalize_columns df mapping) = index df /\
  values (_normalize_columns df mapping) = values df.
Proof.
  intros Hd Hst Hc Hl. split; [|split; reflexivity].
  unfold has_column, _normalize_columns. cbn [columns].
  set (cols := map strip (columns df)).
  set (rm := fold_left _ mapping []).
  assert (Hm : exists m r,
            filter (fun col => String.eqb (lower col) (lower source)) cols
            = m :: r).
  { destruct (filter _ cols) as [|m r] eqn:E; [|eauto]. exfalso.
    assert (H : In (strip c)
                  (filter (fun col => String.eqb (lower col) (lower source))
                          cols)).
    { apply filter_In. split; [apply in_map; exact Hc|].
      rewrite Hl. apply String.eqb_refl. }
    rewrite E in H. exact H. }
  destruct Hm as (m & r & Em).
  assert (Hmin : In m cols /\ lower m = lower source).
  { assert (H : In m (filter (fun col => String.eqb (lower col)
                                           (lower source)) cols))
      by (rewrite Em; left; reflexivity).
    apply filter_In in H. destruct H as [H1 H2].
    apply String.eqb_eq in H2. tauto. }
  destruct Hmin as [Hmin Hml].
  assert (Hg : dict_get rm m = Some target).
  { apply dict_get_all.
    - intros t' Ht'. apply rename_map_In in Ht'.
      destruct Ht' as [[]|(st' & Hin' & Hs' & Hh')].
      destruct (filter (fun col => String.eqb (lower col) (lower (fst st')))
                  cols) as [|m' r'] eqn:E'; [discriminate|].
      simpl in Hh'. injection Hh' as ->.
      assert (H : In m (filter (fun col => String.eqb (lower col)
                                             (lower (fst st'))) cols))
        by (rewrite E'; left; reflexivity).
      apply filter_In in H. destruct H as [_ H]. apply String.eqb_eq in H.
      assert (st' = (source, target)).
      { apply (NoDup_map_inj (fun st => lower (fst st)) mapping);
          try assumption. simpl. congruence. }
      subst st'. symmetry. exact Hs'.
    - apply rename_map_In. right. exists (source, target).
      split; [exact Hst|]. split; [reflexivity|]. simpl. rewrite Em.
      reflexivity. }
  apply existsb_exists. exists target. split; [|apply String.eqb_refl].
  apply in_map_iff. exists m. rewrite Hg. auto.
Qed.

End Columns.

(** X26, on the sample data. *)
Lemma normalize_columns_resolves_witness :
  has_column
    (_normalize_columns (P := sample_platform) sample_headers
       COLUNAS_CONTAGENS)
    "qtd_unidades" = true /\
  index (_normalize_columns (P := sample_platform) sample_headers
           COLUNAS_CONTAGENS)
  = index sample_headers /\
  values (_normalize_columns (P := sample_platform) sample_headers
            COLUNAS_CONTAGENS)
  = values sample_headers.
Proof.
  apply (normalize_columns_resolves (P := sample_platform) sample_headers
           COLUNAS_CONTAGENS
           "Quantidade Unidade" "qtd_unidades" " Quantidade Unidade ").
  - simpl. repeat constructor; simpl; intuition discriminate.
  - simpl. tauto.
  - simpl. tauto.
  - reflexivity.
Defined.

(** ** Single rows: skipped, warned, refused *)

Section RowExtras.
Context {P : Platform}.

(** X27. A row whose product code is blank (empty, blanks only, or a
    missing value, which reads [nan]) is skipped silently by both
    importers: no message, no counter and no table changes, whatever the
    label of the row. *)
Theorem row_blank_code_skipped i idx row w c :
  row_cell row "codigo_sku" = Some c ->
  is_blank (strip (py_str c)) = true ->
  row_body i (idx, row) w = (inr tt, w).
Proof.
  intros Hc Hb. apply row_cell_find in Hc. destruct Hc as [k Hc].
  destruct i; simpl; unfold grade_row, contagens_row; unfold_monad;
    rewrite Hc; simpl; rewrite Hb; reflexivity.
Qed.

(** X28. A row of a count sheet whose code names the one active product
    of the unit and whose date does not parse ends with one warning,
    [Linha n+2: Data de validade inválida para SKU '<code>'], and nothing
    else changes: no error, no counter, no table. *)
Theorem contagens_row_invalid_date n row w c sku vc :
  row_cell row "codigo_sku" = Some c ->
  let codigo := strip (py_str c) in
  is_blank codigo = false ->
  active_products (db w) (un_id (svc_unidade_negocio (svc w))) codigo
  = [sku] ->
  row_cell row "data_validade" = Some vc ->
  _parse_date vc = None ->
  contagens_row (LInt n) row w
  = (inr tt,
     {| db := db w;
        svc := with_warning (svc w)
                 (("Linha " +++ str_Z (n + 2))
                  +++ ": Data de validade inválida para SKU '"
                  +++ codigo +++ "'")%string |}).
Proof.
  intros Hc codigo Hb Hsku Hv Hparse.
  apply row_cell_find in Hc, Hv. destruct Hc as [k1 Hc], Hv as [k2 Hv].
  unfold active_products in Hsku.
  unfold contagens_row; unfold_monad. rewrite Hc; simpl. fold codigo.
  rewrite Hb, Hsku; simpl. rewrite Hv; simpl. rewrite Hparse; simpl.
  reflexivity.
Qed.

Lemma contagens_row_updated idx row w :
  updated_count (svc (snd (contagens_row idx row w)))
  = updated_count (svc w).
Proof. unfold contagens_row; exec; reflexivity. Qed.

(** X29. An import of a count sheet changes no table and counts no row:
    whatever the file and the state, the tables are after the call what
    they were before; and when the call reaches its summary, the three
    counters are 0 and [success] is true exactly when there is no
    error. *)
Theorem contagens_import_changes_nothing file w :
  db (snd (processar Contagens file w)) = db w /\
  forall r,
    fst (processar Contagens file w) = inr (Result r) ->
    processed r = 0 /\ created r = 0 /\ updated r = 0 /\
    (success r = true <-> res_errors r = []).
Proof.
  split; [apply processar_contagens_writes_nothing|].
  intros r. rewrite processar_unfold.
  destruct (frame Contagens file (reset w)) as [[e|df] w0]; [discriminate|].
  pose proof (for_each_unchanged (row_body Contagens)
                (fun w => processed_count (svc w))
                (fun x w => proj1 (row_body_not_counted Contagens x w))
                (iterrows df) (reset w)) as Hp.
  pose proof (for_each_unchanged (row_body Contagens)
                (fun w => created_count (svc w))
                (fun x w => proj2 (row_body_not_counted Contagens x w))
                (iterrows df) (reset w)) as Hc.
  pose proof (for_each_unchanged (row_body Contagens)
                (fun w => updated_count (svc w))
                (fun x w => contagens_row_updated (fst x) (snd x) w)
                (iterrows df) (reset w)) as Hu.
  destruct (for_each (iterrows df) (row_body Contagens) (reset w))
    as [[e|[]] w1]; [discriminate|].
  intros [= <-]. simpl in *. rewrite Hp. simpl. rewrite orb_false_r.
  repeat split; try assumption.
  - destruct (errors (svc w1)); [reflexivity|discriminate].
  - intros ->. reflexivity.
Qed.

(** X30. A row of a stock sheet never creates a product and never stores
    a lot.  For a code that is not blank: when the unit has no product of
    that code, [get_or_create] refuses the default [fator_conversao], the
    row ends with one error and nothing is written or counted; when it has
    exactly one, the product is overwritten with the description and the
    upper-cased unit of measure of the row and counted as updated, then
    the lookup of the BASE lot refuses the default [estoque_display], so
    the row ends with one error, is not counted as processed, and the
    product stays overwritten. *)
Theorem grade_row_never_creates n row w c nc uc fator qtd dc :
  row_cell row "codigo_sku" = Some c ->
  let codigo := strip (py_str c) in
  is_blank codigo = false ->
  row_cell row "nome_produto" = Some nc ->
  row_cell row "unidade_medida" = Some uc ->
  row_cell row "fator_conversao" = Some (CInt fator) ->
  row_cell row "qtd_estoque" = Some (CInt qtd) ->
  row_cell row "estoque_display" = Some dc ->
  let un := un_id (svc_unidade_negocio (svc w)) in
  (products_of (db w) un codigo = [] ->
   grade_row (LInt n) row w
   = (inr tt,
      {| db := db w;
         svc := with_error (svc w)
                  (("Linha " +++ str_Z (n + 2))
                   +++ ": Invalid field name(s) for model SKU: 'fator_conversao'.")%string
      |}))
  /\
  (forall s,
     products_of (db w) un codigo = [s] ->
     grade_row (LInt n) row w
     = (inr tt,
        {| db := set_skus (db w)
                   (map (fun x =>
                           if sku_id x =? sku_id s
                           then {| sku_id := sku_id s;
                                   codigo_sku := codigo_sku s;
                                   nome_produto := strip (py_str nc);
                                   unidade_negocio := unidade_negocio s;
                                   unidade_medida := upper (strip (py_str uc));
                                   sku_ativo := sku_ativo s |}
                           else x) (skus (db w)));
           svc := product_written (svc w)
                    (("Linha " +++ str_Z (n + 2))
                     +++ ": Invalid field name(s) for model LoteValidade: 'estoque_display'.")%string
        |})).
Proof.
  intros Hc codigo Hb Hn Hu Hf Hq Hd un.
  apply row_cell_find in Hc, Hn, Hu, Hf, Hq, Hd.
  destruct Hc as [k1 Hc], Hn as [k2 Hn], Hu as [k3 Hu], Hf as [k4 Hf],
    Hq as [k5 Hq], Hd as [k6 Hd].
  unfold products_of. split.
  - intros Hs.
    unfold grade_row; unfold_monad. rewrite Hc; simpl. fold codigo.
    rewrite Hb; simpl. rewrite Hn; simpl. rewrite Hu; simpl.
    rewrite Hf; simpl. fold un. rewrite Hs; simpl. reflexivity.
  - intros s Hs.
    unfold grade_row; unfold_monad. rewrite Hc; simpl. fold codigo.
    rewrite Hb; simpl. rewrite Hn; simpl. rewrite Hu; simpl.
    rewrite Hf; simpl. fold un. rewrite Hs; simpl.
    rewrite Hq; simpl. rewrite Hd; simpl. reflexivity.
Qed.
End RowExtras.

(** X27, on the sample data. *)
Lemma row_blank_code_skipped_witness :
  row_body (P := sample_platform) Grade020502
    (LStr "r9", [("codigo_sku", NaN)]%string) (sample_world (sample_db []))
  = (inr tt, sample_world (sample_db [])).
Proof.
  apply (row_blank_code_skipped (P := sample_platform) Grade020502
           (LStr "r9") [("codigo_sku", NaN)]%string
           (sample_world (sample_db [])) NaN); reflexivity.
Defined.

(** X28, on the sample data. *)
Lemma contagens_row_invalid_date_witness :
  contagens_row (P := sample_platform) (LInt 0)
    (sample_row "SKU001" "31/02/2025" 1 0) (sample_world (sample_db []))
  = (inr tt,
     {| db := sample_db [];
        svc := with_warning (svc (sample_world (sample_db [])))
                 "Linha 2: Data de validade inválida para SKU 'SKU001'" |}).
Proof.
  apply (contagens_row_invalid_date (P := sample_platform) 0
           (sample_row "SKU001" "31/02/2025" 1 0)
           (sample_world (sample_db [])) (CStr "SKU001") sample_sku
           (CStr "31/02/2025")); reflexivity.
Defined.

(** X30, on the sample data: a row for the unknown product SKU777, and a
    row for the sample product. *)
Lemma grade_row_never_creates_witness :
  let w := sample_world (sample_db []) in
  (products_of (db w) 1 "SKU777" = [] /\
   grade_row (P := sample_platform) (LInt 0) sample_grade_row w
   = (inr tt,
      {| db := db w;
         svc := with_error (svc w)
                  "Linha 2: Invalid field name(s) for model SKU: 'fator_conversao'."
      |}))
  /\
  (products_of (db w) 1 "SKU001" = [sample_sku] /\
   grade_row (P := sample_platform) (LInt 0) sample_grade_row_known w
   = (inr tt,
      {| db := set_skus (db w)
                 [{| sku_id := 1; codigo_sku := "SKU001";
                     nome_produto := "Leite Integral"; unidade_negocio := 1;
                     unidade_medida := "FD"; sku_ativo := true |}];
         svc := product_written (svc w)
                  "Linha 2: Invalid field name(s) for model LoteValidade: 'estoque_display'."
      |})).
Proof.
  cbv zeta. split; (split; [reflexivity|]).
  - apply (proj1 (grade_row_never_creates (P := sample_platform) 0
                    sample_grade_row (sample_world (sample_db []))
                    (CStr "SKU777") (CStr "Arroz 5kg") (CStr "fd") 6 2334
                    (CStr "388/06") eq_refl eq_refl eq_refl eq_refl eq_refl
                    eq_refl eq_refl)).
    reflexivity.
  - apply (proj2 (grade_row_never_creates (P := sample_platform) 0
                    sample_grade_row_known (sample_world (sample_db []))
                    (CStr "SKU001") (CStr "Leite Integral") (CStr "fd") 6 120
                    (CStr "10/00") eq_refl eq_refl eq_refl eq_refl eq_refl
                    eq_refl eq_refl) sample_sku).
    reflexivity.
Defined.
